(** * TaskGenius: the client-side resilience layer of [frontend/libs/api.ts]

    A shallow embedding of the demo-mode gateway: the field extractor
    ([processTaskDescription]), the error classifier ([handleApiError]),
    the mode controller ([setDemoMode]), the in-memory task store
    ([mockTasks], [nextId]) and the gateway object [api].

    Conventions of the embedding.
    - Module-level [let]/[const] bindings of the source are the fields of
      the record [World]; every function threads the world explicitly.
    - A JavaScript string is a [string], its characters read as ASCII:
      [toLowerCase] and [toUpperCase] map the ASCII letters and leave
      every other character alone, [trim] strips the ASCII white space.
      On ASCII text ([JsString.is_ascii]) bytes, UTF-16 code units and
      characters coincide and these are the functions of
      [String.prototype]; outside it the host counts code units, strips
      Unicode white space and maps letters by the Unicode tables.
      Theorems about the length, the ends or the letter case of a whole
      text assume [is_ascii].
    - A [Date] is its time value, an integer number of milliseconds since
      the epoch.  An ISO timestamp written by [toISOString] is represented
      by the time value it denotes, so that [new Date(s).getTime()] is the
      identity.  Time values are assumed to stay inside the range in which
      [Date] is valid.
    - [new Date()], [navigator.onLine] and the outcome of [fetch] are
      observations of the host; they are arguments of the operations.
    - [console.log]/[console.warn] and the cosmetic [setTimeout] delays
      have no effect on the data and are left out. *)

From Stdlib Require Import ZArith Ascii String Bool Lia DecimalString.
From stdpp Require Import base option list strings gmap sorting.

Local Open Scope string_scope.
Local Open Scope list_scope.
Local Open Scope Z_scope.

(* ------------------------------------------------------------------ *)
(** ** The part of [String.prototype] the gateway uses                 *)
(* ------------------------------------------------------------------ *)

Module JsString.

Definition is_upper (c : ascii) : bool :=
  let n := nat_of_ascii c in (Nat.leb 65 n && Nat.leb n 90)%bool.

Definition is_lower (c : ascii) : bool :=
  let n := nat_of_ascii c in (Nat.leb 97 n && Nat.leb n 122)%bool.

Definition lower_char (c : ascii) : ascii :=
  if is_upper c then ascii_of_nat (nat_of_ascii c + 32) else c.

Definition upper_char (c : ascii) : ascii :=
  if is_lower c then ascii_of_nat (nat_of_ascii c - 32) else c.

Fixpoint map_chars (f : ascii -> ascii) (s : string) : string :=
  match s with
  | EmptyString => EmptyString
  | String c r => String (f c) (map_chars f r)
  end.

(** [s.toLowerCase()], [s.toUpperCase()] on ASCII text: the 26 letters
    are mapped, every other character is left alone.  (The host maps by
    the Unicode tables: outside ASCII, "ß" becomes "SS".) *)
Definition toLowerCase : string -> string := map_chars lower_char.
Definition toUpperCase : string -> string := map_chars upper_char.

(** The text holds ASCII characters only (codes below 128). *)
Definition is_ascii_char (c : ascii) : bool := Nat.ltb (nat_of_ascii c) 128.

Fixpoint is_ascii (s : string) : bool :=
  match s with
  | EmptyString => true
  | String c r => (is_ascii_char c && is_ascii r)%bool
  end.

(** [s.includes(needle)] *)
Fixpoint includes (s needle : string) : bool :=
  (String.prefix needle s ||
   match s with
   | EmptyString => false
   | String _ r => includes r needle
   end)%bool.

(** [s.substring(0, n)]: the first [n] characters; on ASCII text these
    are the first [n] UTF-16 code units the host counts. *)
Definition substring0 (n : nat) (s : string) : string := String.substring 0 n s.

(** [s.split(/[.!?]/)[0]]: the text before the first separator. *)
Definition is_sentence_end (c : ascii) : bool :=
  (Ascii.eqb c "." || Ascii.eqb c "!" || Ascii.eqb c "?")%bool.

Fixpoint first_segment (s : string) : string :=
  match s with
  | EmptyString => EmptyString
  | String c r => if is_sentence_end c then EmptyString else String c (first_segment r)
  end.

(** White space as [trim] sees it, within ASCII: space, tab, line feed,
    vertical tab, form feed, carriage return.  (The host also strips the
    white space outside ASCII, such as the no-break space.) *)
Definition is_space (c : ascii) : bool :=
  let n := nat_of_ascii c in
  (Nat.eqb n 32 || (Nat.leb 9 n && Nat.leb n 13))%bool.

Fixpoint trimStart (s : string) : string :=
  match s with
  | EmptyString => EmptyString
  | String c r => if is_space c then trimStart r else s
  end.

Fixpoint all_space (s : string) : bool :=
  match s with
  | EmptyString => true
  | String c r => (is_space c && all_space r)%bool
  end.

Fixpoint trimEnd (s : string) : string :=
  match s with
  | EmptyString => EmptyString
  | String c r => if all_space s then EmptyString else String c (trimEnd r)
  end.

(** [s.trim()] on ASCII text. *)
Definition trim (s : string) : string := trimEnd (trimStart s).

(** [a || b] on strings: the empty string is falsy. *)
Definition or_else (a b : string) : string :=
  match a with EmptyString => b | _ => a end.

(** [n.toString()] / template interpolation of an integer. *)
Definition of_Z (n : Z) : string := NilZero.string_of_int (Z.to_int n).

End JsString.

(* ------------------------------------------------------------------ *)
(** ** Time values: the arithmetic behind [Date.prototype]             *)
(* ------------------------------------------------------------------ *)

Module JsDate.

Definition msPerDay : Z := 86400000.

Definition Day (t : Z) : Z := t / msPerDay.
Definition TimeWithinDay (t : Z) : Z := t `mod` msPerDay.

Definition DaysInYear (y : Z) : Z :=
  if negb (y `mod` 4 =? 0) then 365
  else if negb (y `mod` 100 =? 0) then 366
  else if negb (y `mod` 400 =? 0) then 365
  else 366.

Definition DayFromYear (y : Z) : Z :=
  365 * (y - 1970) + (y - 1969) / 4 - (y - 1901) / 100 + (y - 1601) / 400.

(** The year whose first day is the latest one not after day [d]: an
    estimate from the mean year length, corrected by one either way. *)
Definition YearFromDay (d : Z) : Z :=
  let y := 1970 + (400 * d) / 146097 in
  if DayFromYear (y + 1) <=? d then y + 1
  else if d <? DayFromYear y then y - 1
  else y.

Definition YearFromTime (t : Z) : Z := YearFromDay (Day t).
Definition InLeapYear (t : Z) : bool := DaysInYear (YearFromTime t) =? 366.
Definition DayWithinYear (t : Z) : Z := Day t - DayFromYear (YearFromTime t).

(** Number of days of the year before month [m] (0 = January). *)
Definition MonthStart (leap : bool) (m : Z) : Z :=
  let l := if leap then 1 else 0 in
  match m with
  | 0 => 0 | 1 => 31 | 2 => 59 + l | 3 => 90 + l | 4 => 120 + l
  | 5 => 151 + l | 6 => 181 + l | 7 => 212 + l | 8 => 243 + l
  | 9 => 273 + l | 10 => 304 + l | _ => 334 + l
  end.

Definition MonthFromTime (t : Z) : Z :=
  let d := DayWithinYear t in
  let leap := InLeapYear t in
  if d <? MonthStart leap 1 then 0
  else if d <? MonthStart leap 2 then 1
  else if d <? MonthStart leap 3 then 2
  else if d <? MonthStart leap 4 then 3
  else if d <? MonthStart leap 5 then 4
  else if d <? MonthStart leap 6 then 5
  else if d <? MonthStart leap 7 then 6
  else if d <? MonthStart leap 8 then 7
  else if d <? MonthStart leap 9 then 8
  else if d <? MonthStart leap 10 then 9
  else if d <? MonthStart leap 11 then 10
  else 11.

Definition DateFromTime (t : Z) : Z :=
  DayWithinYear t - MonthStart (InLeapYear t) (MonthFromTime t) + 1.

Definition WeekDay (t : Z) : Z := (Day t + 4) `mod` 7.

(** [MakeDay(year, month, date)]: the day number of the first of the
    (normalised) month, plus [date - 1]. *)
Definition MakeDay (year month date : Z) : Z :=
  let ym := year + month / 12 in
  let mn := month `mod` 12 in
  DayFromYear ym + MonthStart (DaysInYear ym =? 366) mn + date - 1.

Definition MakeDate (day time : Z) : Z := day * msPerDay + time.

Section LocalTime.
(** [LocalTZA t isUTC]: the offset of local time, in milliseconds, at
    the instant [t] (when [isUTC]) or at the local time [t] (when not).
    It is the host's time zone: a parameter. *)
Variable LocalTZA : Z -> bool -> Z.

Definition LocalTime (t : Z) : Z := t + LocalTZA t true.
Definition UTC (t : Z) : Z := t - LocalTZA t false.

Definition getDate (t : Z) : Z := DateFromTime (LocalTime t).
Definition getDay (t : Z) : Z := WeekDay (LocalTime t).
Definition getMonth (t : Z) : Z := MonthFromTime (LocalTime t).

(** [d.setDate(dt)]: the new time value of [d]. *)
Definition setDate (t dt : Z) : Z :=
  let lt := LocalTime t in
  UTC (MakeDate (MakeDay (YearFromTime lt) (MonthFromTime lt) dt)
                (TimeWithinDay lt)).

(** [d.setMonth(m)] *)
Definition setMonth (t m : Z) : Z :=
  let lt := LocalTime t in
  UTC (MakeDate (MakeDay (YearFromTime lt) m (DateFromTime lt))
                (TimeWithinDay lt)).
End LocalTime.

(** A zone with a constant offset of [off] milliseconds. *)
Definition fixedZone (off : Z) : Z -> bool -> Z := fun _ _ => off.

End JsDate.

(* ------------------------------------------------------------------ *)
(** ** Data model                                                      *)
(* ------------------------------------------------------------------ *)

(** [interface Task].  [due_date: string | null] is an optional time
    value; [created_at] and [updated_at] are time values. *)
Module Task.
Record t : Type := mk {
  id : Z;
  title : string;
  description : string;
  label : string;
  due_date : option Z;
  created_at : Z;
  updated_at : Z
}.
End Task.

(** The [Partial<Task>] returned by [processTaskDescription]. *)
Module Partial.
Record t : Type := mk {
  title : string;
  label : string;
  due_date : option Z
}.
End Partial.

(** A thrown value.  Everything thrown on the gateway's paths is an
    [Error]: [new Error(..)], the [TypeError] of a failed [fetch], the
    [AbortError] of an expired deadline, the [SyntaxError] of [json()]. *)
Module JsError.
Record t : Type := mk {
  name : string;
  message : string;
  status : option Z
}.

(** [new Error(msg)] *)
Definition Error (msg : string) : t := mk "Error" msg None.

(** [Error.prototype.toString] *)
Definition toString (e : t) : string :=
  match name e, message e with
  | EmptyString, m => m
  | n, EmptyString => n
  | n, m => n +:+ ": " +:+ m
  end.
End JsError.

(** How an [async] body completes. *)
Inductive Completion (A : Type) : Type :=
| Return (a : A)
| Throw (e : JsError.t).
Arguments Return {A} a.
Arguments Throw {A} e.

(** What the host answers to one [fetch]: the promise rejects (network
    failure, or the deadline's [controller.abort()]), or it resolves with
    a response whose [text()] and [json()] complete as given. *)
Inductive Fetch (A : Type) : Type :=
| Rejects (e : JsError.t)
| Responds (status : Z) (statusText : string)
           (text : Completion string) (json : Completion A).
Arguments Rejects {A} e.
Arguments Responds {A} status statusText text json.

(** [response.ok] *)
Definition ok (status : Z) : bool := (200 <=? status) && (status <=? 299).

(** The requests the gateway can issue; [World.requests] records them. *)
Inductive Request : Type :=
| GET_tasks (label : option string) (skip limit : Z)
| GET_task (id : Z)
| POST_task (description : string)
| PUT_task (id : Z) (description : string)
| DELETE_task (id : Z)
| GET_labels
| POST_summary (start_date end_date : string)
| GET_health.

(** The module-level state of [api.ts], and the log of requests sent. *)
Record World : Type := mkWorld {
  mockTasks : list Task.t;
  nextId : Z;
  isUsingMockData : bool;
  isDemoMode : bool;
  demoModeReason : string;
  requests : list Request
}.

(** The description of the seed task. *)
Definition seed_description : string :=
  "This is a sample task shown when API is unavailable".

(** The state after the module has been loaded; [t0] and [t0'] are the
    two clock readings of the seed task. *)
Definition initial (t0 t0' : Z) : World :=
  {| mockTasks :=
       [ Task.mk 1 "Sample Task" seed_description "personal" None t0 t0' ];
     nextId := 2;
     isUsingMockData := false;
     isDemoMode := false;
     demoModeReason := "";
     requests := [] |}.

(* ------------------------------------------------------------------ *)
(** ** Mode controller                                                 *)
(* ------------------------------------------------------------------ *)

Definition setDemoMode (enabled : bool) (reason : string) (w : World) : World :=
  {| mockTasks := mockTasks w;
     nextId := nextId w;
     isUsingMockData := enabled;
     isDemoMode := enabled;
     demoModeReason := reason;
     requests := requests w |}.

(* ------------------------------------------------------------------ *)
(** ** Field extractor                                                 *)
(* ------------------------------------------------------------------ *)

Section Extractor.
Import JsString JsDate.

(** The host's time zone (see [JsDate.LocalTime]). *)
Variable LocalTZA : Z -> bool -> Z.

Definition processTaskDescription (description : string) (now : Z) : Partial.t :=
  let lowerDesc := toLowerCase description in
  let title := trim (substring0 50 (first_segment description)) in
  let title :=
    match title with
    | EmptyString => trim (substring0 50 description)
    | _ => title
    end in
  let label :=
    if includes lowerDesc "work" ||
       includes lowerDesc "meeting" ||
       includes lowerDesc "report" ||
       includes lowerDesc "project" ||
       includes lowerDesc "client" ||
       includes lowerDesc "presentation"
    then "work"
    else if includes lowerDesc "buy" ||
            includes lowerDesc "shop" ||
            includes lowerDesc "grocery" ||
            includes lowerDesc "purchase" ||
            includes lowerDesc "store"
    then "shopping"
    else if includes lowerDesc "doctor" ||
            includes lowerDesc "dentist" ||
            includes lowerDesc "health" ||
            includes lowerDesc "appointment" ||
            includes lowerDesc "medical" ||
            includes lowerDesc "hospital"
    then "health"
    else if includes lowerDesc "urgent" ||
            includes lowerDesc "asap" ||
            includes lowerDesc "immediately" ||
            includes lowerDesc "critical" ||
            includes lowerDesc "emergency"
    then "urgent"
    else "personal" in
  let due_date :=
    if includes lowerDesc "tomorrow" then
      Some (setDate LocalTZA now (getDate LocalTZA now + 1))
    else if includes lowerDesc "next week" then
      Some (setDate LocalTZA now (getDate LocalTZA now + 7))
    else if includes lowerDesc "friday" then
      let daysUntilFriday :=
        let r := Z.rem (5 - getDay LocalTZA now + 7) 7 in
        if r =? 0 then 7 else r in
      Some (setDate LocalTZA now (getDate LocalTZA now + daysUntilFriday))
    else if includes lowerDesc "next month" then
      Some (setMonth LocalTZA now (getMonth LocalTZA now + 1))
    else if includes lowerDesc "monday" then
      let daysUntilMonday :=
        let r := Z.rem (1 - getDay LocalTZA now + 7) 7 in
        if r =? 0 then 7 else r in
      Some (setDate LocalTZA now (getDate LocalTZA now + daysUntilMonday))
    else None in
  Partial.mk title label due_date.

End Extractor.

(* ------------------------------------------------------------------ *)
(** ** Error classifier                                                *)
(* ------------------------------------------------------------------ *)

Section Classifier.
Import JsString.

(** [statusCode] is the optional third parameter; [onLine] is
    [navigator.onLine] at the time of the call. *)
Definition handleApiError (error : JsError.t) (operation : string)
    (statusCode : option Z) (onLine : bool) (w : World) : World * bool :=
  let errorMessage :=
    or_else (JsError.message error) (or_else (JsError.toString error) "") in
  let errorName := or_else (JsError.name error) "" in
  if bool_decide (statusCode = Some 422) ||
     includes errorMessage "422" ||
     bool_decide (JsError.status error = Some 422)
  then (setDemoMode true "AI processing temporarily unavailable (422 error)" w, true)
  else if includes errorMessage "Failed to fetch" ||
          includes errorMessage "NetworkError" ||
          includes errorMessage "TypeError: fetch" ||
          includes errorMessage "CORS" ||
          String.eqb errorName "AbortError" ||
          String.eqb errorName "TypeError" ||
          includes errorMessage "ERR_NETWORK" ||
          includes errorMessage "ERR_INTERNET_DISCONNECTED" ||
          includes errorMessage "net::" ||
          negb onLine
  then (setDemoMode true "Backend server connection failed" w, true)
  else if includes errorMessage "HTTP" &&
          (includes errorMessage "500" || includes errorMessage "503")
  then (setDemoMode true "Backend server error" w, true)
  else (setDemoMode true "API temporarily unavailable" w, true).

End Classifier.

(* ------------------------------------------------------------------ *)
(** ** Array helpers                                                   *)
(* ------------------------------------------------------------------ *)

Module JsArray.

(** [Array.prototype.sort(cmp)]: the sort is stable, so its result is
    that of a stable insertion sort. *)
Fixpoint insert_by {A} (cmp : A -> A -> Z) (x : A) (l : list A) : list A :=
  match l with
  | [] => [x]
  | y :: r => if cmp x y <=? 0 then x :: l else y :: insert_by cmp x r
  end.

Definition sort {A} (cmp : A -> A -> Z) (l : list A) : list A :=
  foldr (insert_by cmp) [] l.

(** The default comparison of [sort()] on strings. *)
Definition compare_strings (a b : string) : Z :=
  match String.compare a b with Lt => -1 | Eq => 0 | Gt => 1 end.

(** [Array.from(new Set(l))]: first occurrences, in insertion order. *)
Definition from_Set (l : list string) : list string :=
  foldl (fun acc x => if bool_decide (x ∈ acc) then acc else acc ++ [x]) [] l.

(** [acc[k] = (acc[k] || 0) + 1] on an object used as a counter table;
    the keys keep their insertion order. *)
Fixpoint bump (k : string) (acc : list (string * Z)) : list (string * Z) :=
  match acc with
  | [] => [(k, 1)]
  | (k', n) :: r => if String.eqb k' k then (k', n + 1) :: r else (k', n) :: bump k r
  end.

End JsArray.

(* ------------------------------------------------------------------ *)
(** ** The gateway [api]                                               *)
(* ------------------------------------------------------------------ *)

(** The value of [getTasks]. *)
Record TaskList : Type := mkTaskList {
  tasks : list Task.t;
  total : Z;
  skip : Z;
  limit : Z
}.

Module SummaryRequest.
Record t : Type := mk {
  start_date : string;
  end_date : string
}.
End SummaryRequest.

Module SummaryResponse.
Record t : Type := mk {
  summary : string;
  start_date : string;
  end_date : string;
  task_count : Z
}.
End SummaryResponse.

Section Gateway.
Import JsString.

(** The host: its time zone, and [new Date(s).getTime()] for the strings
    of a summary request ([None] for an invalid date). *)
Variable LocalTZA : Z -> bool -> Z.
Variable Date_parse : string -> option Z.

(** [fetch(..)] is called: the request leaves the client. *)
Definition send (r : Request) (w : World) : World :=
  {| mockTasks := mockTasks w;
     nextId := nextId w;
     isUsingMockData := isUsingMockData w;
     isDemoMode := isDemoMode w;
     demoModeReason := demoModeReason w;
     requests := requests w ++ [r] |}.

Definition set_store (ts : list Task.t) (n : Z) (w : World) : World :=
  {| mockTasks := ts;
     nextId := n;
     isUsingMockData := isUsingMockData w;
     isDemoMode := isDemoMode w;
     demoModeReason := demoModeReason w;
     requests := requests w |}.

(** The [try] block up to its [return]:
    [if (!response.ok) throw new Error(`HTTP ${status}: ${statusText}`)],
    then [await response.json()]. *)
Definition try_json {A} (f : Fetch A) : Completion A :=
  match f with
  | Rejects e => Throw e
  | Responds status statusText _ json =>
      if ok status then json
      else Throw (JsError.Error ("HTTP " +:+ of_Z status +:+ ": " +:+ statusText))
  end.

(** The same with [errorText = await response.text()] in the message. *)
Definition try_json_text {A} (f : Fetch A) : Completion A :=
  match f with
  | Rejects e => Throw e
  | Responds status _ text json =>
      if ok status then json
      else match text with
           | Return errorText =>
               Throw (JsError.Error ("HTTP " +:+ of_Z status +:+ ": " +:+ errorText))
           | Throw e => Throw e
           end
  end.

(** The [try] block of [deleteTask]: no body is read. *)
Definition try_ok {A} (f : Fetch A) : Completion unit :=
  match f with
  | Rejects e => Throw e
  | Responds status statusText _ _ =>
      if ok status then Return tt
      else Throw (JsError.Error ("HTTP " +:+ of_Z status +:+ ": " +:+ statusText))
  end.

(** [label && label !== "all"] *)
Definition label_filter (label : option string) : option string :=
  match label with
  | Some l => if negb (String.eqb l "") && negb (String.eqb l "all") then Some l else None
  | None => None
  end.

(** The listing built from [mockTasks], written out twice in [getTasks]
    (demo branch and [catch] branch) with the same text. *)
Definition mockTaskList (label : option string) (w : World) : TaskList :=
  let filteredTasks :=
    match label_filter label with
    | Some l => filter (fun task => Task.label task = l) (mockTasks w)
    | None => mockTasks w
    end in
  {| tasks := JsArray.sort
                (fun a b => Task.created_at b - Task.created_at a) filteredTasks;
     total := Z.of_nat (length filteredTasks);
     skip := 0;
     limit := 50 |}.

(** A task passes the label filter of a listing. *)
Definition passes (label : option string) (task : Task.t) : bool :=
  match label_filter label with
  | Some l => bool_decide (Task.label task = l)
  | None => true
  end.

(** [getTasks] from the point where [fetch] has settled. *)
Definition getTasks_settled (label : option string) (f : Fetch TaskList)
    (onLine : bool) (w : World) : World * Completion TaskList :=
  match try_json f with
  | Return data =>
      let w := if isDemoMode w then setDemoMode false "" w else w in
      (w, Return data)
  | Throw error =>
      let '(w, _) := handleApiError error "getTasks" None onLine w in
      (w, Return (mockTaskList label w))
  end.

Definition getTasks (label : option string) (skip limit : Z)
    (f : Fetch TaskList) (onLine : bool) (w : World)
  : World * Completion TaskList :=
  if isDemoMode w then (w, Return (mockTaskList label w))
  else getTasks_settled label f onLine
         (send (GET_tasks (label_filter label) skip limit) w).

Definition getTask (id : Z) (f : Fetch Task.t) (onLine : bool) (w : World)
  : World * Completion Task.t :=
  let w := send (GET_task id) w in
  match try_json f with
  | Return data => (w, Return data)
  | Throw error =>
      let '(w, _) := handleApiError error "getTask" None onLine w in
      match list_find (fun task => Task.id task = id) (mockTasks w) with
      | None => (w, Throw (JsError.Error "Task not found"))
      | Some (_, task) => (w, Return task)
      end
  end.

(** [now] is the clock read inside [processTaskDescription], [now'] the
    one read for the time stamps. *)
Definition createTask (description : string) (f : Fetch Task.t)
    (onLine : bool) (now now' : Z) (w : World) : World * Completion Task.t :=
  let w := send (POST_task description) w in
  match try_json_text f with
  | Return newTask => (w, Return newTask)
  | Throw error =>
      let '(w, shouldUseMock) := handleApiError error "createTask" None onLine w in
      if shouldUseMock then
        let processed := processTaskDescription LocalTZA description now in
        let newTask :=
          {| Task.id := nextId w;
             Task.title := or_else (Partial.title processed) (substring0 50 description);
             Task.description := description;
             Task.label := or_else (Partial.label processed) "personal";
             Task.due_date := Partial.due_date processed;
             Task.created_at := now';
             Task.updated_at := now' |} in
        (set_store (mockTasks w ++ [newTask]) (nextId w + 1) w, Return newTask)
      else (w, Throw error)
  end.

Definition updateTask (id : Z) (description : string) (f : Fetch Task.t)
    (onLine : bool) (now now' : Z) (w : World) : World * Completion Task.t :=
  let w := send (PUT_task id description) w in
  match try_json_text f with
  | Return data => (w, Return data)
  | Throw error =>
      let '(w, shouldUseMock) := handleApiError error "updateTask" None onLine w in
      if shouldUseMock then
        match list_find (fun task => Task.id task = id) (mockTasks w) with
        | None => (w, Throw (JsError.Error "Task not found"))
        | Some (taskIndex, old) =>
            let processed := processTaskDescription LocalTZA description now in
            let updatedTask :=
              {| Task.id := Task.id old;
                 Task.title := or_else (Partial.title processed) (substring0 50 description);
                 Task.description := description;
                 Task.label := or_else (Partial.label processed) (Task.label old);
                 Task.due_date := Partial.due_date processed;
                 Task.created_at := Task.created_at old;
                 Task.updated_at := now' |} in
            (set_store (<[taskIndex := updatedTask]> (mockTasks w)) (nextId w) w,
             Return updatedTask)
        end
      else (w, Throw error)
  end.

Definition deleteTask (id : Z) (f : Fetch unit) (onLine : bool) (w : World)
  : World * Completion unit :=
  let w := send (DELETE_task id) w in
  match try_ok f with
  | Return _ => (w, Return tt)
  | Throw error =>
      let '(w, _) := handleApiError error "deleteTask" None onLine w in
      match list_find (fun task => Task.id task = id) (mockTasks w) with
      | Some (taskIndex, _) =>
          (set_store (delete taskIndex (mockTasks w)) (nextId w) w, Return tt)
      | None => (w, Return tt)
      end
  end.

Definition getLabels (f : Fetch (list string)) (onLine : bool) (w : World)
  : World * Completion (list string) :=
  let w := send GET_labels w in
  match try_json f with
  | Return data => (w, Return data)
  | Throw error =>
      let '(w, _) := handleApiError error "getLabels" None onLine w in
      let labels := JsArray.from_Set (map Task.label (mockTasks w)) in
      (w, Return (JsArray.sort JsArray.compare_strings labels))
  end.

(** [taskDate >= startDate && taskDate <= endDate]; a comparison with an
    invalid date is false. *)
Definition in_range (startDate endDate : option Z) (task : Task.t) : bool :=
  match startDate, endDate with
  | Some s, Some e => (s <=? Task.created_at task) && (Task.created_at task <=? e)
  | _, _ => false
  end.

Definition nl : string := String (ascii_of_nat 10) EmptyString.

Definition generateSummary (request : SummaryRequest.t) (f : Fetch SummaryResponse.t)
    (onLine : bool) (w : World) : World * Completion SummaryResponse.t :=
  let w := send (POST_summary (SummaryRequest.start_date request) (SummaryRequest.end_date request)) w in
  match try_json_text f with
  | Return data => (w, Return data)
  | Throw error =>
      let '(w, _) := handleApiError error "generateSummary" None onLine w in
      let startDate := Date_parse (SummaryRequest.start_date request) in
      let endDate := Date_parse (SummaryRequest.end_date request) in
      let tasksInRange := List.filter (in_range startDate endDate) (mockTasks w) in
      let labelCounts :=
        foldl (fun acc task => JsArray.bump (Task.label task) acc) [] tasksInRange in
      let summary :=
        String.concat nl
          [ "DEMO MODE ANALYSIS - AI TEMPORARILY UNAVAILABLE";
            "";
            "Task Analysis for Selected Period:";
            "• Total Tasks: " +:+ of_Z (Z.of_nat (length tasksInRange));
            "• Categories: " +:+ of_Z (Z.of_nat (length labelCounts));
            "";
            "Distribution:";
            String.concat nl
              (map (fun '(label, count) =>
                      "• " +:+ toUpperCase label +:+ ": " +:+ of_Z count +:+
                      " task" +:+ (if 1 <? count then "s" else ""))
                   labelCounts);
            "";
            "⚠️ NOTE: This is a simplified analysis generated in demo mode. ";
            "Full AI-powered insights will be available when the backend service is restored.";
            "";
            "Basic Recommendations:";
            "• Review high-priority tasks first";
            "• Group similar tasks for efficiency";
            "• Set realistic deadlines for pending items";
            "• Regular task review helps maintain productivity";
            "";
            "Demo mode provides basic task management functionality while AI services are temporarily unavailable." ] in
      (w, Return {| SummaryResponse.summary := summary;
                    SummaryResponse.start_date := SummaryRequest.start_date request;
                    SummaryResponse.end_date := SummaryRequest.end_date request;
                    SummaryResponse.task_count := Z.of_nat (length tasksInRange) |})
  end.

(** The outcome of the health probe: [response.ok], and [false] when
    [fetch] rejects. *)
Definition probe_ok (f : Fetch unit) : bool :=
  match f with
  | Responds status _ _ _ => ok status
  | Rejects _ => false
  end.

(** [checkHealth]: only [response.ok] is read. *)
Definition checkHealth (f : Fetch unit) (w : World) : World * Completion bool :=
  let w := send GET_health w in
  match f with
  | Responds status _ _ _ =>
      let w := if ok status && isDemoMode w then setDemoMode false "" w else w in
      (w, Return (ok status))
  | Rejects error => (w, Return false)
  end.

Definition exitDemoMode (w : World) : World := setDemoMode false "" w.

End Gateway.

(* ------------------------------------------------------------------ *)
(** ** Calls and runs                                                  *)
(* ------------------------------------------------------------------ *)

(** One step of the client: a call of the gateway run to completion, with
    what the host observed during it.  [getTasks] reads [isDemoMode]
    before and after its [await fetch]; [ResumeGetTasks] is the second
    half alone, resumed in a world that other calls may have changed. *)
Inductive Call : Type :=
| CallGetTasks (label : option string) (skip limit : Z)
               (f : Fetch TaskList) (onLine : bool)
| ResumeGetTasks (label : option string) (f : Fetch TaskList) (onLine : bool)
| CallGetTask (id : Z) (f : Fetch Task.t) (onLine : bool)
| CallCreateTask (description : string) (f : Fetch Task.t) (onLine : bool)
                 (now now' : Z)
| CallUpdateTask (id : Z) (description : string) (f : Fetch Task.t)
                 (onLine : bool) (now now' : Z)
| CallDeleteTask (id : Z) (f : Fetch unit) (onLine : bool)
| CallGetLabels (f : Fetch (list string)) (onLine : bool)
| CallGenerateSummary (request : SummaryRequest.t) (f : Fetch SummaryResponse.t)
                      (onLine : bool)
| CallCheckHealth (f : Fetch unit)
| CallExitDemoMode.

Section Runs.
Variable LocalTZA : Z -> bool -> Z.
Variable Date_parse : string -> option Z.

Definition exec (c : Call) (w : World) : World :=
  match c with
  | CallGetTasks label skip limit f onLine => (getTasks label skip limit f onLine w).1
  | ResumeGetTasks label f onLine => (getTasks_settled label f onLine w).1
  | CallGetTask id f onLine => (getTask id f onLine w).1
  | CallCreateTask d f onLine now now' => (createTask LocalTZA d f onLine now now' w).1
  | CallUpdateTask id d f onLine now now' =>
      (updateTask LocalTZA id d f onLine now now' w).1
  | CallDeleteTask id f onLine => (deleteTask id f onLine w).1
  | CallGetLabels f onLine => (getLabels f onLine w).1
  | CallGenerateSummary request f onLine =>
      (generateSummary Date_parse request f onLine w).1
  | CallCheckHealth f => (checkHealth f w).1
  | CallExitDemoMode => exitDemoMode w
  end.

Definition run (cs : list Call) (w : World) : World :=
  foldl (fun w c => exec c w) w cs.

(** The remote operation of a call, if it has one, succeeded: its [try]
    block reached its [return] (for [checkHealth]: with [response.ok]). *)
Definition returns {A} (c : Completion A) : bool :=
  match c with Return _ => true | Throw _ => false end.

Definition remote_succeeded (c : Call) : bool :=
  match c with
  | CallGetTasks _ _ _ f _ | ResumeGetTasks _ f _ => returns (try_json f)
  | CallGetTask _ f _ => returns (try_json f)
  | CallCreateTask _ f _ _ _ | CallUpdateTask _ _ f _ _ _ => returns (try_json_text f)
  | CallDeleteTask _ f _ => returns (try_ok f)
  | CallGetLabels f _ => returns (try_json f)
  | CallGenerateSummary _ f _ => returns (try_json_text f)
  | CallCheckHealth f => probe_ok f
  | CallExitDemoMode => false
  end.

End Runs.

(* ------------------------------------------------------------------ *)
(** ** The specification's reading of extractor and classifier         *)
(* ------------------------------------------------------------------ *)

(** These definitions follow the words of the specification: ordered
    rule lists, first match wins.  The theorems below compare them with
    the functions translated from [api.ts]. *)
Module Spec.
Import JsString JsDate.

(** *** Category buckets, in precedence order *)

Definition work_keywords : list string :=
  ["work"; "meeting"; "report"; "project"; "client"; "presentation"].
Definition shopping_keywords : list string :=
  ["buy"; "shop"; "grocery"; "purchase"; "store"].
Definition health_keywords : list string :=
  ["doctor"; "dentist"; "health"; "appointment"; "medical"; "hospital"].
Definition urgent_keywords : list string :=
  ["urgent"; "asap"; "immediately"; "critical"; "emergency"].

Definition buckets : list (string * list string) :=
  [ ("work", work_keywords); ("shopping", shopping_keywords);
    ("health", health_keywords); ("urgent", urgent_keywords) ].

(** Case-insensitive substring match. *)
Definition matches (description keyword : string) : bool :=
  includes (toLowerCase description) (toLowerCase keyword).

(** The same as a proposition: some substring of the description equals
    the keyword up to the case of its letters. *)
Definition occurs (description keyword : string) : Prop :=
  exists pre mid post,
    description = pre +:+ mid +:+ post /\ toLowerCase mid = toLowerCase keyword.

Fixpoint first_bucket (description : string)
    (bs : list (string * list string)) : string :=
  match bs with
  | [] => "personal"
  | (name, keywords) :: rest =>
      if existsb (matches description) keywords then name
      else first_bucket description rest
  end.

Definition category (description : string) : string :=
  first_bucket description buckets.

(** *** Due-date rules *)

Inductive DueRule : Type := Tomorrow | NextWeek | NextMonth | Friday | Monday.

Definition keyword (r : DueRule) : string :=
  match r with
  | Tomorrow => "tomorrow"
  | NextWeek => "next week"
  | NextMonth => "next month"
  | Friday => "friday"
  | Monday => "monday"
  end.

Definition code_order : list DueRule := [Tomorrow; NextWeek; Friday; NextMonth; Monday].

Fixpoint first_rule (order : list DueRule) (description : string) : option DueRule :=
  match order with
  | [] => None
  | r :: rest =>
      if matches description (keyword r) then Some r else first_rule rest description
  end.

(** Days from the local day of [lt] to the next [target] weekday, the
    same weekday counting as a week ahead. *)
Definition days_until (target lt : Z) : Z :=
  let k := (target - WeekDay lt) `mod` 7 in
  if k =? 0 then 7 else k.

Section Zone.
Variable LocalTZA : Z -> bool -> Z.

(** The same local wall-clock time [k] calendar days later. *)
Definition days_later (k now : Z) : Z :=
  UTC LocalTZA (LocalTime LocalTZA now + k * msPerDay).

Definition resolve (r : DueRule) (now : Z) : Z :=
  match r with
  | Tomorrow => days_later 1 now
  | NextWeek => days_later 7 now
  | NextMonth => setMonth LocalTZA now (getMonth LocalTZA now + 1)
  | Friday => days_later (days_until 5 (LocalTime LocalTZA now)) now
  | Monday => days_later (days_until 1 (LocalTime LocalTZA now)) now
  end.

Definition due_date (order : list DueRule) (description : string) (now : Z)
  : option Z :=
  (fun r => resolve r now) <$> first_rule order description.
End Zone.

(** *** Classification of a failure *)

Definition errorMessage (error : JsError.t) : string :=
  or_else (JsError.message error) (or_else (JsError.toString error) "").

Definition is_422 (statusCode : option Z) (error : JsError.t) : bool :=
  bool_decide (statusCode = Some 422) ||
  bool_decide (JsError.status error = Some 422) ||
  includes (errorMessage error) "422".

Definition network_failure (error : JsError.t) (onLine : bool) : bool :=
  existsb (includes (errorMessage error))
    ["Failed to fetch"; "NetworkError"; "TypeError: fetch"; "CORS";
     "ERR_NETWORK"; "ERR_INTERNET_DISCONNECTED"; "net::"] ||
  existsb (String.eqb (JsError.name error)) ["AbortError"; "TypeError"] ||
  negb onLine.

Definition server_error (error : JsError.t) : bool :=
  includes (errorMessage error) "HTTP" &&
  (includes (errorMessage error) "500" || includes (errorMessage error) "503").

(** The decision list of the classifier: predicate, reason. *)
Definition decisions (statusCode : option Z) (error : JsError.t) (onLine : bool)
  : list (bool * string) :=
  [ (is_422 statusCode error, "AI processing temporarily unavailable (422 error)");
    (network_failure error onLine, "Backend server connection failed");
    (server_error error, "Backend server error") ].

Fixpoint first_reason (ds : list (bool * string)) : string :=
  match ds with
  | [] => "API temporarily unavailable"
  | (true, reason) :: _ => reason
  | (false, _) :: rest => first_reason rest
  end.

Definition reason (statusCode : option Z) (error : JsError.t) (onLine : bool)
  : string :=
  first_reason (decisions statusCode error onLine).

End Spec.


(** What a listing keeps under a label filter, written without the
    gateway's helper: every task when the filter is absent, the empty
    string (a falsy value) or ["all"], and otherwise the tasks whose
    label is the filter string. *)
Definition kept_by (labelFilter : option string) (task : Task.t) : bool :=
  match labelFilter with
  | None => true
  | Some l => String.eqb l "" || String.eqb l "all" || String.eqb (Task.label task) l
  end.


(** A zone with a daylight-saving transition, for illustration: five
    hours behind UTC until 2024-03-10T07:00:00Z (02:00 local), four
    hours behind from then on. *)
Definition easternZone2024 : Z -> bool -> Z :=
  fun t isUTC =>
    if isUTC then (if t <? 1710054000000 then -18000000 else -14400000)
    else (if t <? 1710039600000 then -18000000 else -14400000).

(** The world after a first listing has failed with a network error at
    time 1000: demo mode is active and the store holds the seed task. *)
Definition demo_world : World :=
  (getTasks None 0 50 (Rejects (JsError.mk "TypeError" "Failed to fetch" None))
     true (initial 1000 1000)).1.

(** A task as the backend would answer it. *)
Definition remote_task : Task.t :=
  Task.mk 41 "Quarterly report" "Finish the quarterly report" "work" None 900 900.

(* ------------------------------------------------------------------ *)
(** ** The task store on its own                                       *)
(* ------------------------------------------------------------------ *)

(** What a call does to [mockTasks] and [nextId] when its remote half
    fails.  [store_op] reads the operation off a call, [apply_op] is the
    store transformer; [exec_store_of] below proves that the gateway
    functions act on the store exactly so. *)
Inductive StoreOp : Type :=
| OpNone
| OpCreate (description : string) (now now' : Z)
| OpUpdate (id : Z) (description : string) (now now' : Z)
| OpDelete (id : Z).

Definition store_op (c : Call) : StoreOp :=
  match c with
  | CallCreateTask d f _ now now' =>
      if returns (try_json_text f) then OpNone else OpCreate d now now'
  | CallUpdateTask id d f _ now now' =>
      if returns (try_json_text f) then OpNone else OpUpdate id d now now'
  | CallDeleteTask id f _ =>
      if returns (try_ok f) then OpNone else OpDelete id
  | _ => OpNone
  end.

Section Store.
Import JsString.
Variable LocalTZA : Z -> bool -> Z.

(** The store: [mockTasks] and [nextId]. *)
Definition store_of (w : World) : list Task.t * Z := (mockTasks w, nextId w).

Definition new_task (description : string) (now now' : Z) (id : Z) : Task.t :=
  let processed := processTaskDescription LocalTZA description now in
  {| Task.id := id;
     Task.title := or_else (Partial.title processed) (substring0 50 description);
     Task.description := description;
     Task.label := or_else (Partial.label processed) "personal";
     Task.due_date := Partial.due_date processed;
     Task.created_at := now';
     Task.updated_at := now' |}.

Definition updated_task (old : Task.t) (description : string) (now now' : Z)
  : Task.t :=
  let processed := processTaskDescription LocalTZA description now in
  {| Task.id := Task.id old;
     Task.title := or_else (Partial.title processed) (substring0 50 description);
     Task.description := description;
     Task.label := or_else (Partial.label processed) (Task.label old);
     Task.due_date := Partial.due_date processed;
     Task.created_at := Task.created_at old;
     Task.updated_at := now' |}.

Definition apply_op (op : StoreOp) (s : list Task.t * Z) : list Task.t * Z :=
  match op with
  | OpNone => s
  | OpCreate d now now' => (s.1 ++ [new_task d now now' s.2], s.2 + 1)
  | OpUpdate id d now now' =>
      match list_find (fun task => Task.id task = id) s.1 with
      | Some (i, old) => (<[i := updated_task old d now now']> s.1, s.2)
      | None => s
      end
  | OpDelete id =>
      match list_find (fun task => Task.id task = id) s.1 with
      | Some (i, _) => (delete i s.1, s.2)
      | None => s
      end
  end.

Definition apply_ops (ops : list StoreOp) (s : list Task.t * Z) : list Task.t * Z :=
  foldl (fun s op => apply_op op s) s ops.

(** The clock readings of an operation, in the order they are taken. *)
Definition stamps (op : StoreOp) : list Z :=
  match op with
  | OpCreate _ now now' | OpUpdate _ _ now now' => [now; now']
  | _ => []
  end.

(** The identifiers given out by the creations of a run. *)
Definition issued1 (op : StoreOp) (s : list Task.t * Z) : list Z :=
  match op with
  | OpCreate d now now' => [Task.id (new_task d now now' s.2)]
  | _ => []
  end.

Fixpoint issued (ops : list StoreOp) (s : list Task.t * Z) : list Z :=
  match ops with
  | [] => []
  | op :: rest => issued1 op s ++ issued rest (apply_op op s)
  end.

(** For each identifier, the description supplied by the most recent
    creation or update of a run. *)
Definition supplied1 (op : StoreOp) (s : list Task.t * Z) (h : gmap Z string)
  : gmap Z string :=
  match op with
  | OpCreate d now now' => <[Task.id (new_task d now now' s.2) := d]> h
  | OpUpdate id d _ _ => <[id := d]> h
  | _ => h
  end.

Fixpoint supplied (ops : list StoreOp) (s : list Task.t * Z) (h : gmap Z string)
  : gmap Z string :=
  match ops with
  | [] => h
  | op :: rest => supplied rest (apply_op op s) (supplied1 op s h)
  end.

End Store.

(** One operation changes the store in one of four ways; an update
    rewrites a task in place and keeps its identifier and its creation
    time. *)
Inductive StoreStep (s s' : list Task.t * Z) : Prop :=
| step_same : s' = s -> StoreStep s s'
| step_create (t : Task.t) :
    s'.1 = s.1 ++ [t] -> Task.id t = s.2 -> s'.2 = s.2 + 1 -> StoreStep s s'
| step_update (i : nat) (t t' : Task.t) :
    s.1 !! i = Some t -> s'.1 = <[i := t']> s.1 -> s'.2 = s.2 ->
    Task.id t' = Task.id t -> Task.created_at t' = Task.created_at t ->
    StoreStep s s'
| step_delete (i : nat) :
    s'.1 = delete i s.1 -> s'.2 = s.2 -> StoreStep s s'.

(** The invariant of the store: [ids] are the identifiers given out so
    far, [h] the descriptions supplied so far.  It does not depend on
    the clock. *)
Definition StoreInv (ids : list Z) (h : gmap Z string)
    (s : list Task.t * Z) : Prop :=
  NoDup (Task.id <$> s.1) /\
  (forall t, t ∈ s.1 -> Task.id t ∈ ids) /\
  Forall (fun i => i < s.2) ids /\
  StronglySorted Z.lt ids /\
  (forall t, t ∈ s.1 -> h !! Task.id t = Some (Task.description t)).

(** The time stamps of the store, [T] bounding those written so far. *)
Definition StampInv (T : Z) (s : list Task.t * Z) : Prop :=
  forall t, t ∈ s.1 ->
    Task.created_at t <= Task.updated_at t /\ Task.updated_at t <= T.

(** The order of a listing: [a] may stand before [b]. *)
Definition newer_first (a b : Task.t) : Prop :=
  Task.created_at b <= Task.created_at a.

(* ------------------------------------------------------------------ *)
(** ** Further definitions: the store between calls                    *)
(* ------------------------------------------------------------------ *)

(** Identifiers of the store are pairwise distinct and below the
    counter. *)
Definition IdInv (s : list Task.t * Z) : Prop :=
  NoDup (Task.id <$> s.1) /\ forall t, t ∈ s.1 -> Task.id t < s.2.

(** The operation does not rewrite or remove the task with identifier
    [id]. *)
Definition spares (id : Z) (op : StoreOp) : bool :=
  match op with
  | OpUpdate id' _ _ _ | OpDelete id' => negb (id' =? id)
  | _ => true
  end.

(** The four reasons the classifier can give. *)
Definition reasons : list string :=
  [ "AI processing temporarily unavailable (422 error)";
    "Backend server connection failed";
    "Backend server error";
    "API temporarily unavailable" ].

(** The two flags agree, the reason is empty while demo mode is off and
    one of the classifier's four while it is on. *)
Definition ModeInv (w : World) : Prop :=
  isUsingMockData w = isDemoMode w /\
  (if isDemoMode w then demoModeReason w ∈ reasons else demoModeReason w = "").

(* ------------------------------------------------------------------ *)
(** ** Further definitions: titles and months                          *)
(* ------------------------------------------------------------------ *)

(** No character of the string ends a sentence. *)
Fixpoint no_sentence_end (s : string) : bool :=
  match s with
  | EmptyString => true
  | String c r => negb (JsString.is_sentence_end c) && no_sentence_end r
  end.

(** The number of days of month [m] (0 = January). *)
Definition DaysInMonth (leap : bool) (m : Z) : Z :=
  match m with
  | 1 => if leap then 29 else 28
  | 3 | 5 | 8 | 10 => 30
  | _ => 31
  end.

(* ------------------------------------------------------------------ *)
(** ** Further definitions: the demo summary                           *)
(* ------------------------------------------------------------------ *)

(** The order of [sort()] on strings, strict. *)
Definition string_lt (a b : string) : Prop := String.compare a b = Lt.

(** The number of tasks of a list that carry the label. *)
Definition count_label (k : string) (ts : list Task.t) : Z :=
  Z.of_nat (length (filter (fun t => Task.label t = k) ts)).

(** The count a counter table holds for a key, 0 for a key it lacks. *)
Fixpoint count_of (k : string) (acc : list (string * Z)) : Z :=
  match acc with
  | [] => 0
  | (k', n) :: r => if String.eqb k' k then n else count_of k r
  end.

Definition sum_counts (acc : list (string * Z)) : Z :=
  foldr (fun kn s => kn.2 + s) 0 acc.

(** The text of the demo summary for [total] tasks and the counter table
    [counts]: the template literal of [generateSummary]. *)
Definition summary_text (total : Z) (counts : list (string * Z)) : string :=
  String.concat nl
    [ "DEMO MODE ANALYSIS - AI TEMPORARILY UNAVAILABLE";
      "";
      "Task Analysis for Selected Period:";
      "• Total Tasks: " +:+ JsString.of_Z total;
      "• Categories: " +:+ JsString.of_Z (Z.of_nat (length counts));
      "";
      "Distribution:";
      String.concat nl
        (map (fun '(label, count) =>
                "• " +:+ JsString.toUpperCase label +:+ ": " +:+ JsString.of_Z count +:+
                " task" +:+ (if 1 <? count then "s" else ""))
             counts);
      "";
      "⚠️ NOTE: This is a simplified analysis generated in demo mode. ";
      "Full AI-powered insights will be available when the backend service is restored.";
      "";
      "Basic Recommendations:";
      "• Review high-priority tasks first";
      "• Group similar tasks for efficiency";
      "• Set realistic deadlines for pending items";
      "• Regular task review helps maintain productivity";
      "";
      "Demo mode provides basic task management functionality while AI services are temporarily unavailable." ].

(* ------------------------------------------------------------------ *)
(** ** Date-range helpers of [api.ts]                                  *)
(* ------------------------------------------------------------------ *)

Section DateRange.
Import JsDate.

Variable LocalTZA : Z -> bool -> Z.

(** [filterTasksByDateRange]: [now] and [startDate] are the two clock
    readings [const now = new Date()] and [const startDate = new Date()],
    taken in this order. *)
Definition filterTasksByDateRange (tasks : list Task.t) (dateRange : string)
    (now startDate : Z) : list Task.t :=
  if String.eqb dateRange "all" then tasks
  else
    let keep (startDate : Z) :=
      filter (fun task => startDate <= Task.created_at task) tasks in
    if String.eqb dateRange "1d" then
      keep (setDate LocalTZA startDate (getDate LocalTZA now - 1))
    else if String.eqb dateRange "3d" then
      keep (setDate LocalTZA startDate (getDate LocalTZA now - 3))
    else if String.eqb dateRange "7d" then
      keep (setDate LocalTZA startDate (getDate LocalTZA now - 7))
    else if String.eqb dateRange "30d" then
      keep (setDate LocalTZA startDate (getDate LocalTZA now - 30))
    else tasks.

End DateRange.

(** The number of days a range selector stands for. *)
Definition window_days (range : string) : option Z :=
  if String.eqb range "1d" then Some 1
  else if String.eqb range "3d" then Some 3
  else if String.eqb range "7d" then Some 7
  else if String.eqb range "30d" then Some 30
  else None.

(* ------------------------------------------------------------------ *)
(** ** The text of a date: [toISOString] and the forms read back       *)
(* ------------------------------------------------------------------ *)

Module JsDateText.
Import JsDate.

Definition HourFromTime (t : Z) : Z := (t / 3600000) `mod` 24.
Definition MinFromTime (t : Z) : Z := (t / 60000) `mod` 60.
Definition SecFromTime (t : Z) : Z := (t / 1000) `mod` 60.
Definition msFromTime (t : Z) : Z := t `mod` 1000.

Definition MakeTime (hour min sec ms : Z) : Z :=
  hour * 3600000 + min * 60000 + sec * 1000 + ms.

Definition digit (d : Z) : ascii := ascii_of_nat (48 + Z.to_nat d).

(** The last [k] decimal digits of [n], zeros included. *)
Fixpoint pad (k : nat) (n : Z) : string :=
  match k with
  | O => EmptyString
  | S k' => String (digit ((n / 10 ^ Z.of_nat k') `mod` 10)) (pad k' n)
  end.

(** [d.toISOString()]: [YYYY-MM-DDTHH:mm:ss.sssZ] in UTC, the year with
    a sign and six digits outside 0..9999. *)
Definition toISOString (t : Z) : string :=
  let y := YearFromTime t in
  let year :=
    if (0 <=? y) && (y <=? 9999) then pad 4 y
    else if y <? 0 then "-" +:+ pad 6 (- y)
    else "+" +:+ pad 6 y in
  year +:+ "-" +:+ pad 2 (MonthFromTime t + 1) +:+ "-" +:+ pad 2 (DateFromTime t) +:+
  "T" +:+ pad 2 (HourFromTime t) +:+ ":" +:+ pad 2 (MinFromTime t) +:+
  ":" +:+ pad 2 (SecFromTime t) +:+ "." +:+ pad 3 (msFromTime t) +:+ "Z".

(** Reading back.  [take_number k] reads [k] decimal digits, [take_char]
    one given character. *)
Definition digit_value (c : ascii) : option Z :=
  let n := Z.of_nat (nat_of_ascii c) in
  if (48 <=? n) && (n <=? 57) then Some (n - 48) else None.

Fixpoint take_number (k : nat) (acc : Z) (s : string) : option (Z * string) :=
  match k with
  | O => Some (acc, s)
  | S k' =>
      match s with
      | String c r =>
          match digit_value c with
          | Some d => take_number k' (10 * acc + d) r
          | None => None
          end
      | EmptyString => None
      end
  end.

Definition take_char (c : ascii) (s : string) : option string :=
  match s with
  | String c' r => if Ascii.eqb c c' then Some r else None
  | EmptyString => None
  end.

(** The time value of a text of the form [YYYY-MM-DDTHH:mm], read as
    local time (the value of a [datetime-local] input), or of the form
    [YYYY-MM-DDTHH:mm:ss.sssZ], read as UTC.  A reader of these two
    forms only: it stands for [Date.parse] on the texts the client
    itself writes, not on arbitrary ones. *)
Definition read (LocalTZA : Z -> bool -> Z) (s : string) : option Z :=
  '(y, s) ← take_number 4 0 s;
  s ← take_char "-" s;
  '(mo, s) ← take_number 2 0 s;
  s ← take_char "-" s;
  '(d, s) ← take_number 2 0 s;
  s ← take_char "T" s;
  '(h, s) ← take_number 2 0 s;
  s ← take_char ":" s;
  '(mi, s) ← take_number 2 0 s;
  let day := MakeDay y (mo - 1) d in
  match s with
  | EmptyString => Some (UTC LocalTZA (MakeDate day (MakeTime h mi 0 0)))
  | _ =>
      s ← take_char ":" s;
      '(sec, s) ← take_number 2 0 s;
      s ← take_char "." s;
      '(ms, s) ← take_number 3 0 s;
      if String.eqb s "Z" then Some (MakeDate day (MakeTime h mi sec ms)) else None
  end.

End JsDateText.

(** The result of [getDateRangeValues] ([end] is written [end_]). *)
Module DateRangeValues.
Record t : Type := mk {
  start : string;
  end_ : string
}.
End DateRangeValues.

(** [getDateRangeValues]: one clock reading. *)
Definition getDateRangeValues (range : string) (now : Z) : DateRangeValues.t :=
  let end_ := JsString.substring0 16 (JsDateText.toISOString now) in
  let start :=
    if String.eqb range "1d" then now - 24 * 60 * 60 * 1000
    else if String.eqb range "3d" then now - 3 * 24 * 60 * 60 * 1000
    else if String.eqb range "7d" then now - 7 * 24 * 60 * 60 * 1000
    else if String.eqb range "30d" then now - 30 * 24 * 60 * 60 * 1000
    else now - 30 * 24 * 60 * 60 * 1000 in
  {| DateRangeValues.start := JsString.substring0 16 (JsDateText.toISOString start);
     DateRangeValues.end_ := end_ |}.

(** The time values [toISOString] writes with a four-digit year:
    1970-01-01 up to the end of the year 9999. *)
Definition four_digit_year (t : Z) : Prop := 0 <= t < 253402300800000.

(* ------------------------------------------------------------------ *)
(** ** The summary form of [components/task-summary.tsx]               *)
(* ------------------------------------------------------------------ *)

(** The state of the component. *)
Module SummaryForm.
Record t : Type := mk {
  startDate : string;
  endDate : string;
  summaryData : option SummaryResponse.t;
  isGenerating : bool
}.
End SummaryForm.

Section TaskSummary.

(** [new Date(s).getTime()], [None] for an invalid date. *)
Variable Date_parse : string -> option Z.

Definition handleQuickRange (range : string) (now : Z) (s : SummaryForm.t)
  : SummaryForm.t :=
  if String.eqb range "custom" then s
  else
    let v := getDateRangeValues range now in
    {| SummaryForm.startDate := DateRangeValues.start v;
       SummaryForm.endDate := DateRangeValues.end_ v;
       SummaryForm.summaryData := SummaryForm.summaryData s;
       SummaryForm.isGenerating := SummaryForm.isGenerating s |}.

(** [new Date(text).toISOString()], which throws a [RangeError] on an
    invalid date. *)
Definition reformat (text : string) : Completion string :=
  match Date_parse text with
  | Some t => Return (JsDateText.toISOString t)
  | None => Throw (JsError.mk "RangeError" "Invalid time value" None)
  end.

(** [handleGenerateSummary]: the [try] body first, then what [catch] and
    [finally] leave in the state. *)
Definition handleGenerateSummary (f : Fetch SummaryResponse.t) (onLine : bool)
    (s : SummaryForm.t) (w : World) : SummaryForm.t * World :=
  if String.eqb (SummaryForm.startDate s) "" || String.eqb (SummaryForm.endDate s) ""
  then (s, w)
  else
    let body : World * Completion SummaryResponse.t :=
      match reformat (SummaryForm.startDate s) with
      | Throw e => (w, Throw e)
      | Return start_date =>
          match reformat (SummaryForm.endDate s) with
          | Throw e => (w, Throw e)
          | Return end_date =>
              generateSummary Date_parse
                (SummaryRequest.mk start_date end_date) f onLine w
          end
      end in
    match body.2 with
    | Return data =>
        ({| SummaryForm.startDate := SummaryForm.startDate s;
            SummaryForm.endDate := SummaryForm.endDate s;
            SummaryForm.summaryData := Some data;
            SummaryForm.isGenerating := false |}, body.1)
    | Throw _ =>
        ({| SummaryForm.startDate := SummaryForm.startDate s;
            SummaryForm.endDate := SummaryForm.endDate s;
            SummaryForm.summaryData := SummaryForm.summaryData s;
            SummaryForm.isGenerating := false |}, body.1)
    end.

End TaskSummary.


(* ------------------------------------------------------------------ *)
(** ** The page ([TaskGenius]) and its dialogs                         *)
(* ------------------------------------------------------------------ *)

(** The state of the page component; [viewMode], which only selects the
    layout, is left out. *)
Module Page.
Record t : Type := mk {
  tasks : list Task.t;
  allTasks : list Task.t;
  labels : list string;
  selectedLabel : string;
  selectedDateRange : string;
  searchQuery : string;
  isLoading : bool;
  isDemoMode : bool;
  demoModeReason : string;
  isCheckingConnection : bool
}.
End Page.

Section PageHandlers.
Import JsString.

Definition set_banner (flag : bool) (reason : string) (p : Page.t) : Page.t :=
  {| Page.tasks := Page.tasks p;
     Page.allTasks := Page.allTasks p;
     Page.labels := Page.labels p;
     Page.selectedLabel := Page.selectedLabel p;
     Page.selectedDateRange := Page.selectedDateRange p;
     Page.searchQuery := Page.searchQuery p;
     Page.isLoading := Page.isLoading p;
     Page.isDemoMode := flag;
     Page.demoModeReason := reason;
     Page.isCheckingConnection := Page.isCheckingConnection p |}.

(** [fetchTasks]: the state its own calls leave after [finally].  The
    render that follows runs the effect on [selectedDateRange, allTasks];
    see [dateRangeEffect] and [fetchTasks_rendered] below. *)
Definition fetchTasks (f : Fetch TaskList) (onLine : bool) (p : Page.t) (w : World)
  : Page.t * World :=
  let label :=
    if negb (String.eqb (Page.selectedLabel p) "all") then Some (Page.selectedLabel p)
    else None in
  let r := getTasks label 0 50 f onLine w in
  match r.2 with
  | Return data =>
      ({| Page.tasks := tasks data;
          Page.allTasks := tasks data;
          Page.labels := Page.labels p;
          Page.selectedLabel := Page.selectedLabel p;
          Page.selectedDateRange := Page.selectedDateRange p;
          Page.searchQuery := Page.searchQuery p;
          Page.isLoading := false;
          Page.isDemoMode := isDemoMode r.1;
          Page.demoModeReason := demoModeReason r.1;
          Page.isCheckingConnection := Page.isCheckingConnection p |}, r.1)
  | Throw _ =>
      ({| Page.tasks := Page.tasks p;
          Page.allTasks := Page.allTasks p;
          Page.labels := Page.labels p;
          Page.selectedLabel := Page.selectedLabel p;
          Page.selectedDateRange := Page.selectedDateRange p;
          Page.searchQuery := Page.searchQuery p;
          Page.isLoading := false;
          Page.isDemoMode := true;
          Page.demoModeReason := "Unexpected error occurred";
          Page.isCheckingConnection := Page.isCheckingConnection p |}, r.1)
  end.

Definition fetchLabels (f : Fetch (list string)) (onLine : bool) (p : Page.t) (w : World)
  : Page.t * World :=
  let r := getLabels f onLine w in
  match r.2 with
  | Return data =>
      ({| Page.tasks := Page.tasks p;
          Page.allTasks := Page.allTasks p;
          Page.labels := data;
          Page.selectedLabel := Page.selectedLabel p;
          Page.selectedDateRange := Page.selectedDateRange p;
          Page.searchQuery := Page.searchQuery p;
          Page.isLoading := Page.isLoading p;
          Page.isDemoMode := Page.isDemoMode p;
          Page.demoModeReason := Page.demoModeReason p;
          Page.isCheckingConnection := Page.isCheckingConnection p |}, r.1)
  | Throw _ => (p, r.1)
  end.

(** [handleRetryConnection]: [probe], [ft] and [fl] are the outcomes of
    the three requests it can issue.  [isCheckingConnection] is set on
    entry and cleared in [finally]. *)
Definition handleRetryConnection (probe : Fetch unit) (ft : Fetch TaskList)
    (fl : Fetch (list string)) (onLine : bool) (p : Page.t) (w : World)
  : Page.t * World :=
  let w := exitDemoMode w in
  let h := checkHealth probe w in
  let done (p : Page.t) : Page.t :=
    {| Page.tasks := Page.tasks p;
       Page.allTasks := Page.allTasks p;
       Page.labels := Page.labels p;
       Page.selectedLabel := Page.selectedLabel p;
       Page.selectedDateRange := Page.selectedDateRange p;
       Page.searchQuery := Page.searchQuery p;
       Page.isLoading := Page.isLoading p;
       Page.isDemoMode := Page.isDemoMode p;
       Page.demoModeReason := Page.demoModeReason p;
       Page.isCheckingConnection := false |} in
  match h.2 with
  | Return true =>
      let r1 := fetchTasks ft onLine p h.1 in
      let r2 := fetchLabels fl onLine r1.1 r1.2 in
      (done (set_banner false "" r2.1), r2.2)
  | Return false => (done (set_banner true "Backend server unavailable" p), h.1)
  | Throw _ => (done (set_banner true "Connection check failed" p), h.1)
  end.

(** [filteredTasks], computed at each render. *)
Definition filteredTasks (p : Page.t) : list Task.t :=
  List.filter
    (fun task =>
       includes (toLowerCase (Task.title task)) (toLowerCase (Page.searchQuery p)) ||
       includes (toLowerCase (Task.description task)) (toLowerCase (Page.searchQuery p)))
    (Page.tasks p).

(** [setSearchQuery(e.target.value)] *)
Definition setSearchQuery (q : string) (p : Page.t) : Page.t :=
  {| Page.tasks := Page.tasks p;
     Page.allTasks := Page.allTasks p;
     Page.labels := Page.labels p;
     Page.selectedLabel := Page.selectedLabel p;
     Page.selectedDateRange := Page.selectedDateRange p;
     Page.searchQuery := q;
     Page.isLoading := Page.isLoading p;
     Page.isDemoMode := Page.isDemoMode p;
     Page.demoModeReason := Page.demoModeReason p;
     Page.isCheckingConnection := Page.isCheckingConnection p |}.

(** The two notices of the page: [isDemoMode && ..] and
    [!isDemoMode && api.isUsingMockData() && ..]. *)
Definition demo_banner (p : Page.t) : bool := Page.isDemoMode p.
Definition connection_notice (p : Page.t) (w : World) : bool :=
  negb (Page.isDemoMode p) && isUsingMockData w.

End PageHandlers.

Section PageEffects.
Variable LocalTZA : Z -> bool -> Z.

(** The effect of the page on [selectedDateRange, allTasks]:
    [setTasks(filterTasksByDateRange(allTasks, selectedDateRange))].
    [now] and [startDate] are the clock readings of the filter. *)
Definition dateRangeEffect (now startDate : Z) (p : Page.t) : Page.t :=
  {| Page.tasks :=
       filterTasksByDateRange LocalTZA (Page.allTasks p) (Page.selectedDateRange p)
         now startDate;
     Page.allTasks := Page.allTasks p;
     Page.labels := Page.labels p;
     Page.selectedLabel := Page.selectedLabel p;
     Page.selectedDateRange := Page.selectedDateRange p;
     Page.searchQuery := Page.searchQuery p;
     Page.isLoading := Page.isLoading p;
     Page.isDemoMode := Page.isDemoMode p;
     Page.demoModeReason := Page.demoModeReason p;
     Page.isCheckingConnection := Page.isCheckingConnection p |}.

(** [fetchTasks] and the render that follows it: what the page shows.
    [setAllTasks] stores the array of the answer, a new array, so the
    effect runs and replaces [tasks] by the date-filtered list; when
    [getTasks] throws, [allTasks] is not set and the effect does not
    run. *)
Definition fetchTasks_rendered (f : Fetch TaskList) (onLine : bool)
    (now startDate : Z) (p : Page.t) (w : World) : Page.t * World :=
  let label :=
    if negb (String.eqb (Page.selectedLabel p) "all") then Some (Page.selectedLabel p)
    else None in
  let r := fetchTasks f onLine p w in
  match (getTasks label 0 50 f onLine w).2 with
  | Return _ => (dateRangeEffect now startDate r.1, r.2)
  | Throw _ => r
  end.

End PageEffects.

(** The state of [CreateTaskDialog]. *)
Module Dialog.
Record t : Type := mk {
  open : bool;
  description : string;
  isCreating : bool;
  showManualMode : bool;
  aiError : option string;
  manualTitle : string;
  manualLabel : string;
  manualDueDate : string
}.
End Dialog.

Section CreateTaskDialog.
Import JsString.
Variable LocalTZA : Z -> bool -> Z.



End CreateTaskDialog.

(** The state of [TaskList]. *)
Module Editor.
Record t : Type := mk {
  editingTask : option Task.t;
  editDescription : string;
  isUpdating : bool;
  isDeleting : option Z
}.
End Editor.

Section TaskListHandlers.
Variable LocalTZA : Z -> bool -> Z.

Definition handleEdit (task : Task.t) (e : Editor.t) : Editor.t :=
  {| Editor.editingTask := Some task;
     Editor.editDescription := Task.description task;
     Editor.isUpdating := Editor.isUpdating e;
     Editor.isDeleting := Editor.isDeleting e |}.

(** [handleUpdate]; the third component tells whether [onTaskUpdated]
    was called. *)
Definition handleUpdate (f : Fetch Task.t) (onLine : bool) (now now' : Z)
    (e : Editor.t) (w : World) : Editor.t * World * bool :=
  match Editor.editingTask e with
  | None => (e, w, false)
  | Some task =>
      let r := updateTask LocalTZA (Task.id task) (Editor.editDescription e)
                 f onLine now now' w in
      match r.2 with
      | Return _ =>
          ({| Editor.editingTask := None;
              Editor.editDescription := Editor.editDescription e;
              Editor.isUpdating := false;
              Editor.isDeleting := Editor.isDeleting e |}, r.1, true)
      | Throw _ =>
          ({| Editor.editingTask := Editor.editingTask e;
              Editor.editDescription := Editor.editDescription e;
              Editor.isUpdating := false;
              Editor.isDeleting := Editor.isDeleting e |}, r.1, false)
      end
  end.


End TaskListHandlers.

(* ------------------------------------------------------------------ *)
(** ** Strings                                                         *)
(* ------------------------------------------------------------------ *)

Section StringFacts.
Import JsString.

Lemma append_String (c : ascii) (a b : string) :
  String c a +:+ b = String c (a +:+ b).
Proof. reflexivity. Qed.

Lemma append_Empty (b : string) : "" +:+ b = b.
Proof. reflexivity. Qed.

Lemma prefix_iff (n s : string) :
  String.prefix n s = true <-> exists post, s = n +:+ post.
Proof.
  revert s. induction n as [|a n IH]; intros s; simpl.
  - destruct s; simpl; split; eauto.
  - setoid_rewrite append_String. destruct s as [|b s]; simpl.
    + split; [discriminate | intros [post H]; discriminate].
    + destruct (Ascii.ascii_dec a b) as [->|Hne].
      * rewrite IH. split; intros [post H]; exists post; congruence.
      * split; [discriminate | intros [post H]; congruence].
Qed.

Lemma includes_unfold (s n : string) :
  includes s n =
  (String.prefix n s ||
    match s with EmptyString => false | String _ r => includes r n end).
Proof. destruct s; reflexivity. Qed.

Lemma includes_iff (s n : string) :
  includes s n = true <-> exists pre post, s = pre +:+ n +:+ post.
Proof.
  induction s as [|c s IH]; rewrite includes_unfold, orb_true_iff, prefix_iff.
  - split.
    + intros [[post H] | H]; [|discriminate]. exists "", post. exact H.
    + intros (pre & post & H). left. destruct pre.
      * rewrite append_Empty in H. eauto.
      * rewrite append_String in H. discriminate.
  - rewrite IH. split.
    + intros [[post H] | (pre & post & H)].
      * exists "", post. exact H.
      * exists (String c pre), post. rewrite append_String. congruence.
    + intros (pre & post & H). destruct pre as [|c' pre].
      * left. rewrite append_Empty in H. eauto.
      * right. rewrite append_String in H. exists pre, post. congruence.
Qed.

Lemma map_chars_app (f : ascii -> ascii) (a b : string) :
  map_chars f (a +:+ b) = map_chars f a +:+ map_chars f b.
Proof.
  induction a as [|c a IH]; [reflexivity|].
  rewrite !append_String. simpl. rewrite append_String. congruence.
Qed.

Lemma map_chars_app_inv (f : ascii -> ascii) (s a b : string) :
  map_chars f s = a +:+ b ->
  exists s1 s2, s = s1 +:+ s2 /\ map_chars f s1 = a /\ map_chars f s2 = b.
Proof.
  revert s. induction a as [|c a IH]; intros s H.
  - exists "", s. auto.
  - rewrite append_String in H. destruct s as [|c' s]; simpl in H; [discriminate|].
    injection H as Hc Hs. destruct (IH _ Hs) as (s1 & s2 & -> & <- & <-).
    exists (String c' s1), s2. simpl. rewrite Hc. auto.
Qed.

(** [matches] decides [occurs]: the test on the lowered description is a
    case-insensitive substring test on the description itself. *)
Lemma matches_occurs (d k : string) :
  Spec.matches d k = true <-> Spec.occurs d k.
Proof.
  unfold Spec.matches, Spec.occurs, toLowerCase. rewrite includes_iff. split.
  - intros (pre & post & H).
    destruct (map_chars_app_inv _ _ _ _ H) as (s1 & s23 & -> & <- & H23).
    destruct (map_chars_app_inv _ _ _ _ H23) as (s2 & s3 & -> & H2 & <-).
    exists s1, s2, s3. auto.
  - intros (pre & mid & post & -> & H).
    exists (map_chars lower_char pre), (map_chars lower_char post).
    rewrite !map_chars_app. congruence.
Qed.

Lemma lower_char_idem (c : ascii) : lower_char (lower_char c) = lower_char c.
Proof.
  destruct c as [[] [] [] [] [] [] [] []]; reflexivity.
Qed.

Lemma toLowerCase_idem (s : string) : toLowerCase (toLowerCase s) = toLowerCase s.
Proof.
  unfold toLowerCase. induction s as [|c s IH]; simpl; [reflexivity|].
  rewrite lower_char_idem. congruence.
Qed.

End StringFacts.

(** Replaces [toLowerCase] of a literal by its value. *)
Ltac lower_literals :=
  repeat match goal with
         | |- context [JsString.toLowerCase ?k] =>
             lazymatch k with
             | String _ _ =>
                 let v := eval vm_compute in (JsString.toLowerCase k) in
                 change (JsString.toLowerCase k) with v
             end
         end.

(* ------------------------------------------------------------------ *)
(** ** Field extractor: category                                       *)
(* ------------------------------------------------------------------ *)

Lemma label_first_bucket (LocalTZA : Z -> bool -> Z) (description : string) (now : Z) :
  Partial.label (processTaskDescription LocalTZA description now)
  = Spec.category description.
Proof.
  unfold processTaskDescription, Spec.category, Spec.buckets, Spec.first_bucket,
    Spec.work_keywords, Spec.shopping_keywords, Spec.health_keywords,
    Spec.urgent_keywords, existsb, Spec.matches.
  cbn [Partial.label]. lower_literals.
  rewrite !orb_false_r, !orb_assoc. reflexivity.
Qed.

Lemma existsb_matches_iff (d : string) (ks : list string) :
  existsb (Spec.matches d) ks = true <-> exists k, In k ks /\ Spec.occurs d k.
Proof.
  rewrite existsb_exists. split; intros (k & Hk & H); exists k; split; auto;
    apply matches_occurs; exact H.
Qed.

(** C6. The category of a description is the first bucket, in the order
    work, shopping, health, urgent, one of whose keywords occurs in the
    description as a substring up to letter case, and "personal" when no
    keyword of any bucket occurs; a description with a work keyword and a
    shopping keyword is a work task. *)
Theorem category_first_matching_bucket
    (LocalTZA : Z -> bool -> Z) (description : string) (now : Z) :
  let label := Partial.label (processTaskDescription LocalTZA description now) in
  let hit keywords := exists k, In k keywords /\ Spec.occurs description k in
  label = Spec.first_bucket description Spec.buckets /\
  (hit Spec.work_keywords -> label = "work") /\
  (~ hit Spec.work_keywords -> hit Spec.shopping_keywords -> label = "shopping") /\
  (~ hit Spec.work_keywords -> ~ hit Spec.shopping_keywords ->
   hit Spec.health_keywords -> label = "health") /\
  (~ hit Spec.work_keywords -> ~ hit Spec.shopping_keywords ->
   ~ hit Spec.health_keywords -> hit Spec.urgent_keywords -> label = "urgent") /\
  (~ hit Spec.work_keywords -> ~ hit Spec.shopping_keywords ->
   ~ hit Spec.health_keywords -> ~ hit Spec.urgent_keywords -> label = "personal") /\
  (hit Spec.work_keywords -> hit Spec.shopping_keywords -> label = "work").
Proof.
  intros label hit. subst label.
  rewrite label_first_bucket. unfold Spec.category, Spec.buckets, Spec.first_bucket.
  assert (Hb : forall ks, hit ks <-> existsb (Spec.matches description) ks = true).
  { intros ks. symmetry. apply existsb_matches_iff. }
  split; [reflexivity|].
  rewrite !Hb.
  destruct (existsb (Spec.matches description) Spec.work_keywords),
    (existsb (Spec.matches description) Spec.shopping_keywords),
    (existsb (Spec.matches description) Spec.health_keywords),
    (existsb (Spec.matches description) Spec.urgent_keywords);
    simpl; intuition congruence.
Qed.

Lemma category_first_matching_bucket_witness :
  let d := "Buy a PROJECTOR for the client" in
  Partial.label (processTaskDescription (JsDate.fixedZone 0) d 0) = "work" /\
  Spec.matches d "buy" = true /\ Spec.matches d "project" = true.
Proof.
  intros d. split; [|split; reflexivity].
  apply (category_first_matching_bucket (JsDate.fixedZone 0) d 0).
  - exists "project". split; [simpl; auto|].
    exists "Buy a ", "PROJECT", "OR for the client". split; reflexivity.
  - exists "buy". split; [simpl; auto|].
    exists "", "Buy", " a PROJECTOR for the client". split; reflexivity.
Defined.

(* ------------------------------------------------------------------ *)
(** ** Error classifier                                                *)
(* ------------------------------------------------------------------ *)

Lemma or_else_empty_r (a : string) : JsString.or_else a "" = a.
Proof. destruct a; reflexivity. Qed.

(** The classifier always enters demo mode, with the first reason of the
    decision list, and always answers [true]. *)
Lemma handleApiError_eq (error : JsError.t) (operation : string)
    (statusCode : option Z) (onLine : bool) (w : World) :
  handleApiError error operation statusCode onLine w
  = (setDemoMode true (Spec.reason statusCode error onLine) w, true).
Proof.
  unfold handleApiError, Spec.reason, Spec.decisions, Spec.first_reason.
  rewrite (or_else_empty_r (JsError.name error)).
  change (JsString.or_else (JsError.message error)
            (JsString.or_else (JsError.toString error) ""))
    with (Spec.errorMessage error).
  unfold Spec.is_422, Spec.network_failure, Spec.server_error, existsb.
  generalize (Spec.errorMessage error). intros m.
  generalize (bool_decide (statusCode = Some 422)),
    (bool_decide (JsError.status error = Some 422)),
    (JsString.includes m "422"),
    (JsString.includes m "Failed to fetch"), (JsString.includes m "NetworkError"),
    (JsString.includes m "TypeError: fetch"), (JsString.includes m "CORS"),
    (JsError.name error =? "AbortError")%string,
    (JsError.name error =? "TypeError")%string,
    (JsString.includes m "ERR_NETWORK"),
    (JsString.includes m "ERR_INTERNET_DISCONNECTED"),
    (JsString.includes m "net::"),
    (JsString.includes m "HTTP"), (JsString.includes m "500"),
    (JsString.includes m "503").
  intros b1 b2 b3.
  destruct b1, b2, b3; cbn [orb]; try reflexivity.
  intros n1 n2 n3 n4 n5 n6 n7 n8 n9.
  destruct n1; cbn [orb]; [reflexivity|].
  destruct n2; cbn [orb]; [reflexivity|].
  destruct n3; cbn [orb]; [reflexivity|].
  destruct n4; cbn [orb]; [reflexivity|].
  destruct n5; cbn [orb]; [rewrite ?orb_true_r; reflexivity|].
  destruct n6; cbn [orb]; [rewrite ?orb_true_r; reflexivity|].
  destruct n7; cbn [orb]; [reflexivity|].
  destruct n8; cbn [orb]; [reflexivity|].
  destruct n9; cbn [orb]; [reflexivity|].
  destruct onLine; cbn [orb negb]; [|reflexivity].
  intros h1 h2 h3. destruct h1, h2, h3; reflexivity.
Qed.

(** C3. For every failure the classifier answers [true] and enters demo
    mode with the reason of the first matching rule: a 422 status or
    "422" in the error text; else a network failure signature; else an
    HTTP 500/503 text; else the catch-all reason. *)
Theorem classifier_first_match (error : JsError.t) (operation : string)
    (statusCode : option Z) (onLine : bool) (w : World) :
  let verdict := handleApiError error operation statusCode onLine w in
  let reason := demoModeReason verdict.1 in
  verdict.2 = true /\
  isDemoMode verdict.1 = true /\
  reason = Spec.first_reason (Spec.decisions statusCode error onLine) /\
  (Spec.is_422 statusCode error = true ->
   reason = "AI processing temporarily unavailable (422 error)") /\
  (Spec.is_422 statusCode error = false ->
   Spec.network_failure error onLine = true ->
   reason = "Backend server connection failed") /\
  (Spec.is_422 statusCode error = false ->
   Spec.network_failure error onLine = false ->
   Spec.server_error error = true ->
   reason = "Backend server error") /\
  (Spec.is_422 statusCode error = false ->
   Spec.network_failure error onLine = false ->
   Spec.server_error error = false ->
   reason = "API temporarily unavailable").
Proof.
  intros verdict reason. subst reason verdict.
  rewrite handleApiError_eq. cbn [fst snd setDemoMode isDemoMode demoModeReason].
  unfold Spec.reason, Spec.decisions, Spec.first_reason.
  repeat split; try reflexivity; intros; 
    repeat match goal with H : _ = _ |- _ => rewrite H end; reflexivity.
Qed.

Lemma classifier_first_match_witness :
  let error := JsError.Error "HTTP 503: Service Unavailable" in
  demoModeReason (handleApiError error "getTasks" None true (initial 0 0)).1
  = "Backend server error".
Proof.
  intros error.
  destruct (classifier_first_match error "getTasks" None true (initial 0 0))
    as (_ & _ & _ & _ & _ & Hserver & _).
  apply Hserver; reflexivity.
Defined.

(* ------------------------------------------------------------------ *)
(** ** Dates                                                           *)
(* ------------------------------------------------------------------ *)

Section DateFacts.
Import JsDate.

(** [DayFromYear] and [YearFromDay] agree with the calendar: a year starts
    [DaysInYear] days after the one before, and [YearFromDay d] is the
    year that day [d] falls in. *)
Lemma DayFromYear_succ (y : Z) : DayFromYear (y + 1) = DayFromYear y + DaysInYear y.
Proof.
  unfold DayFromYear, DaysInYear.
  repeat match goal with |- context [if ?b then _ else _] =>
    let E := fresh in destruct b eqn:E end;
  rewrite ?negb_true_iff, ?negb_false_iff, ?Z.eqb_eq, ?Z.eqb_neq in *;
  Z.div_mod_to_equations; lia.
Qed.

Lemma YearFromDay_spec (d : Z) :
  DayFromYear (YearFromDay d) <= d < DayFromYear (YearFromDay d + 1).
Proof.
  unfold YearFromDay, DayFromYear.
  set (y := 1970 + 400 * d / 146097).
  assert (Hy : 146097 * (y - 1970) <= 400 * d < 146097 * (y - 1970) + 146097).
  { subst y. Z.div_mod_to_equations. lia. }
  clearbody y.
  repeat match goal with |- context [if ?b then _ else _] => 
    let E := fresh in destruct b eqn:E end;
  rewrite ?Z.leb_le, ?Z.leb_gt, ?Z.ltb_lt, ?Z.ltb_ge in *;
  Z.div_mod_to_equations; lia.
Qed.

Lemma DayWithinYear_range (t : Z) :
  0 <= DayWithinYear t < DaysInYear (YearFromTime t).
Proof.
  unfold DayWithinYear, YearFromTime.
  pose proof (YearFromDay_spec (Day t)) as H.
  rewrite DayFromYear_succ in H. lia.
Qed.

Lemma DateFromTime_range (t : Z) : 1 <= DateFromTime t <= 31.
Proof.
  unfold DateFromTime, MonthFromTime, InLeapYear.
  pose proof (DayWithinYear_range t) as H.
  destruct (DaysInYear (YearFromTime t) =? 366) eqn:E.
  - apply Z.eqb_eq in E. rewrite E in H. cbn [MonthStart].
    repeat match goal with |- context [if ?b then _ else _] =>
      let E := fresh in destruct b eqn:E end;
    rewrite ?Z.ltb_lt, ?Z.ltb_ge in *; cbn [MonthStart]; lia.
  - assert (DaysInYear (YearFromTime t) = 365).
    { apply Z.eqb_neq in E. unfold DaysInYear in *.
      repeat match goal with |- context [if ?b then _ else _] => destruct b end;
        congruence. }
    cbn [MonthStart].
    repeat match goal with |- context [if ?b then _ else _] =>
      let E := fresh in destruct b eqn:E end;
    rewrite ?Z.ltb_lt, ?Z.ltb_ge in *; cbn [MonthStart]; lia.
Qed.

Lemma MonthFromTime_range (t : Z) : 0 <= MonthFromTime t <= 11.
Proof.
  unfold MonthFromTime.
  repeat match goal with |- context [if ?b then _ else _] => destruct b end; lia.
Qed.


Lemma WeekDay_range (t : Z) : 0 <= WeekDay t <= 6.
Proof. unfold WeekDay. pose proof (Z.mod_pos_bound (Day t + 4) 7). lia. Qed.


Lemma days_until_range (target lt : Z) : 1 <= Spec.days_until target lt <= 7.
Proof.
  unfold Spec.days_until.
  pose proof (Z.mod_pos_bound (target - WeekDay lt) 7 ltac:(lia)).
  destruct (Z.eqb_spec ((target - WeekDay lt) `mod` 7) 0); lia.
Qed.

(** [(target - d.getDay() + 7) % 7 || 7] *)
Lemma rem_days_until (target lt : Z) :
  0 <= target <= 6 ->
  (if Z.rem (target - WeekDay lt + 7) 7 =? 0 then 7
   else Z.rem (target - WeekDay lt + 7) 7)
  = Spec.days_until target lt.
Proof.
  intros Ht. pose proof (WeekDay_range lt) as Hw. unfold Spec.days_until. cbv zeta.
  rewrite Z.rem_mod_nonneg by lia.
  replace (target - WeekDay lt + 7) with (target - WeekDay lt + 1 * 7) by lia.
  rewrite Z.mod_add by lia. reflexivity.
Qed.



Variable LocalTZA : Z -> bool -> Z.

(** [d.setDate(d.getDate() + k)] keeps the local time of day and moves
    the local calendar day by [k]. *)
Lemma setDate_getDate_plus (t k : Z) :
  setDate LocalTZA t (getDate LocalTZA t + k) = Spec.days_later LocalTZA k t.
Proof.
  unfold setDate, getDate, Spec.days_later. f_equal.
  set (lt := LocalTime LocalTZA t).
  unfold MakeDate, MakeDay, DateFromTime, DayWithinYear, InLeapYear.
  pose proof (MonthFromTime_range lt) as Hm.
  rewrite (Z.div_small (MonthFromTime lt) 12), (Z.mod_small (MonthFromTime lt) 12)
    by lia.
  rewrite Z.add_0_r.
  unfold TimeWithinDay, Day.
  pose proof (Z.div_mod lt msPerDay ltac:(unfold msPerDay; lia)) as Hdm.
  lia.
Qed.

End DateFacts.

Lemma days_later_fixedZone (off k now : Z) :
  Spec.days_later (JsDate.fixedZone off) k now = now + k * JsDate.msPerDay.
Proof. unfold Spec.days_later, JsDate.UTC, JsDate.LocalTime, JsDate.fixedZone. lia. Qed.



(* ------------------------------------------------------------------ *)
(** ** Field extractor: due date                                       *)
(* ------------------------------------------------------------------ *)

Lemma due_date_code_order (LocalTZA : Z -> bool -> Z) (description : string) (now : Z) :
  Partial.due_date (processTaskDescription LocalTZA description now)
  = Spec.due_date LocalTZA Spec.code_order description now.
Proof.
  unfold processTaskDescription, Spec.due_date, Spec.code_order, Spec.first_rule,
    Spec.keyword, Spec.matches.
  cbn [Partial.due_date]. lower_literals.
  generalize (JsString.toLowerCase description). intros lowerDesc.
  destruct (JsString.includes lowerDesc "tomorrow");
    [cbn [fmap option_fmap option_map Spec.resolve];
     rewrite setDate_getDate_plus; reflexivity|].
  destruct (JsString.includes lowerDesc "next week");
    [cbn [fmap option_fmap option_map Spec.resolve];
     rewrite setDate_getDate_plus; reflexivity|].
  destruct (JsString.includes lowerDesc "friday").
  { cbn [fmap option_fmap option_map Spec.resolve].
    rewrite setDate_getDate_plus. do 2 f_equal.
    apply (rem_days_until 5). lia. }
  destruct (JsString.includes lowerDesc "next month");
    [cbn [fmap option_fmap option_map Spec.resolve]; reflexivity|].
  destruct (JsString.includes lowerDesc "monday");
    cbn [fmap option_fmap option_map Spec.resolve]; [|reflexivity].
  rewrite setDate_getDate_plus. do 2 f_equal.
  apply (rem_days_until 1). lia.
Qed.






(** Why the zone matters: across the transition of [easternZone2024],
    "tomorrow" read at 2024-03-09T17:00:00Z (noon local) is noon local the
    next day, 23 hours later. *)
Example tomorrow_across_transition :
  Partial.due_date
    (processTaskDescription easternZone2024 "Call mom tomorrow" 1710003600000)
  = Some (1710003600000 + 23 * 3600000).
Proof. vm_compute. reflexivity. Qed.

(* ------------------------------------------------------------------ *)
(** ** Gateway: shared facts                                           *)
(* ------------------------------------------------------------------ *)

Lemma find_absent (id : Z) (ts : list Task.t) :
  id ∉ map Task.id ts ->
  list_find (fun task => Task.id task = id) ts = None.
Proof.
  intros H. apply list_find_None. apply Forall_forall. intros t Ht Heq.
  apply H. rewrite <- Heq. apply list_elem_of_fmap_2. exact Ht.
Qed.

Lemma find_present (id : Z) (ts : list Task.t) :
  id ∈ map Task.id ts ->
  exists i t, list_find (fun task => Task.id task = id) ts = Some (i, t) /\
              ts !! i = Some t /\ Task.id t = id.
Proof.
  intros H. apply list_elem_of_fmap in H as (t & -> & Ht).
  destruct (list_find (fun task => Task.id task = Task.id t) ts) as [[i t']|] eqn:E.
  - apply list_find_Some in E as (Hi & Heq & _). eauto.
  - apply list_find_None in E. rewrite Forall_forall in E. exfalso. eapply E; eauto.
Qed.

(* ------------------------------------------------------------------ *)
(** ** Gateway: health probe                                           *)
(* ------------------------------------------------------------------ *)

(** C8. [checkHealth] returns the outcome of the probe and leaves the
    task store alone; a successful probe in demo mode clears the flag and
    the reason; a failed probe changes nothing of the mode. *)
Theorem checkHealth_is_a_probe (f : Fetch unit) (w : World) :
  let r := checkHealth f w in
  r.2 = Return (probe_ok f) /\
  mockTasks r.1 = mockTasks w /\ nextId r.1 = nextId w /\
  (probe_ok f = true -> isDemoMode w = true ->
   isDemoMode r.1 = false /\ demoModeReason r.1 = "" /\ isUsingMockData r.1 = false) /\
  (probe_ok f = false ->
   isDemoMode r.1 = isDemoMode w /\ demoModeReason r.1 = demoModeReason w /\
   isUsingMockData r.1 = isUsingMockData w).
Proof.
  unfold checkHealth, probe_ok. destruct f as [e | status statusText text json]; cbn.
  - repeat split; intros; congruence.
  - destruct (ok status), (isDemoMode w) eqn:Hd; cbn; repeat split; intros; congruence.
Qed.

Lemma checkHealth_is_a_probe_witness :
  isDemoMode demo_world = true /\
  let r := checkHealth (Responds 200 "OK" (Return "") (Return tt)) demo_world in
  isDemoMode r.1 = false /\ demoModeReason r.1 = "" /\ isUsingMockData r.1 = false.
Proof.
  split; [reflexivity|].
  apply (checkHealth_is_a_probe (Responds 200 "OK" (Return "") (Return tt)) demo_world);
    reflexivity.
Defined.

(* ------------------------------------------------------------------ *)
(** ** Gateway: delete of an id the store does not hold                *)
(* ------------------------------------------------------------------ *)

(** C10. When the remote delete fails and the store holds no task with
    the id, [deleteTask] completes normally, exactly as after a remote
    success; tasks and id counter are untouched, and the world differs
    only by the mode the classifier has set (and the request sent). *)
Theorem deleteTask_absent_id (id : Z) (f : Fetch unit) (onLine : bool)
    (w : World) (error : JsError.t) :
  try_ok f = Throw error ->
  id ∉ map Task.id (mockTasks w) ->
  let r := deleteTask id f onLine w in
  r.2 = Return tt /\
  mockTasks r.1 = mockTasks w /\ nextId r.1 = nextId w /\
  r.1 = setDemoMode true (Spec.reason None error onLine) (send (DELETE_task id) w) /\
  (forall f' : Fetch unit, try_ok f' = Return tt -> (deleteTask id f' onLine w).2 = r.2).
Proof.
  intros Hf Habs r. subst r. unfold deleteTask. rewrite Hf, handleApiError_eq.
  cbn [mockTasks setDemoMode send]. rewrite (find_absent _ _ Habs). cbn.
  repeat split. intros f' Hf'. rewrite Hf'. reflexivity.
Qed.

Lemma deleteTask_absent_id_witness :
  let f : Fetch unit := Responds 503 "Service Unavailable" (Return "") (Return tt) in
  let r := deleteTask 7 f true (initial 0 0) in
  r.2 = Return tt /\ mockTasks r.1 = mockTasks (initial 0 0) /\
  demoModeReason r.1 = "Backend server error".
Proof.
  intros f r.
  destruct (deleteTask_absent_id 7 f true (initial 0 0)
              (JsError.Error "HTTP 503: Service Unavailable"))
    as (H1 & H2 & _ & H4 & _).
  - reflexivity.
  - vm_compute. intros H. inversion H; subst. inversion H2.
  - split; [exact H1|]. split; [exact H2|]. subst r. rewrite H4. reflexivity.
Defined.

(* ------------------------------------------------------------------ *)
(** ** Gateway: the listing served from the store                      *)
(* ------------------------------------------------------------------ *)

Lemma insert_by_perm {A} (cmp : A -> A -> Z) (x : A) (l : list A) :
  JsArray.insert_by cmp x l ≡ₚ x :: l.
Proof.
  induction l as [|y l IH]; simpl; [reflexivity|].
  destruct (cmp x y <=? 0); [reflexivity|].
  rewrite IH. apply Permutation_swap.
Qed.

Lemma sort_perm {A} (cmp : A -> A -> Z) (l : list A) : JsArray.sort cmp l ≡ₚ l.
Proof.
  unfold JsArray.sort. induction l as [|x l IH]; simpl; [reflexivity|].
  rewrite insert_by_perm, IH. reflexivity.
Qed.

Lemma filter_all {A} (l : list A) : filter (fun _ : A => Is_true true) l = l.
Proof.
  induction l as [|x l IH]; [reflexivity|].
  rewrite filter_cons_True by exact I. congruence.
Qed.

(** The listing built from the store: every task that passes the label
    filter, each once, with the fixed paging fields. *)
Lemma mockTaskList_spec (label : option string) (w : World) :
  let page := mockTaskList label w in
  tasks page ≡ₚ filter (passes label) (mockTasks w) /\
  total page = Z.of_nat (length (filter (passes label) (mockTasks w))) /\
  skip page = 0 /\ limit page = 50.
Proof.
  unfold mockTaskList, passes. cbn [tasks total skip limit].
  rewrite sort_perm.
  destruct (label_filter label) as [l|].
  - rewrite (list_filter_iff (fun t => Task.label t = l)
               (fun t => Is_true (bool_decide (Task.label t = l))));
      [auto | intros t; rewrite bool_decide_spec; reflexivity].
  - rewrite filter_all. auto.
Qed.

(** C9. A listing served from the store (demo mode active, or the remote
    call failed) ignores [skip] and [limit]: it holds every stored task
    that passes the label filter and reports [skip = 0], [limit = 50]
    whatever the arguments were. *)
Theorem getTasks_local_ignores_paging (label : option string) (s l : Z)
    (f : Fetch TaskList) (onLine : bool) (w : World) :
  isDemoMode w = true \/ returns (try_json f) = false ->
  exists page,
    (getTasks label s l f onLine w).2 = Return page /\
    skip page = 0 /\ limit page = 50 /\
    tasks page ≡ₚ filter (passes label) (mockTasks w) /\
    total page = Z.of_nat (length (filter (passes label) (mockTasks w))) /\
    forall s' l', (getTasks label s' l' f onLine w).2 = Return page.
Proof.
  intros H. exists (mockTaskList label w).
  destruct (mockTaskList_spec label w) as (Hp & Ht & Hs & Hl).
  assert (Hg : forall s' l', (getTasks label s' l' f onLine w).2
                             = Return (mockTaskList label w)).
  { intros s' l'. unfold getTasks. destruct (isDemoMode w) eqn:Hd; [reflexivity|].
    destruct H as [H|H]; [discriminate|].
    unfold getTasks_settled. destruct (try_json f); [discriminate|].
    rewrite handleApiError_eq. reflexivity. }
  exact (conj (Hg s l) (conj Hs (conj Hl (conj Hp (conj Ht Hg))))).
Qed.

Lemma getTasks_local_ignores_paging_witness :
  exists page,
    (getTasks (Some "personal") 40 10 (Rejects (JsError.Error "boom")) true
       demo_world).2 = Return page /\
    skip page = 0 /\ limit page = 50 /\ total page = 1.
Proof.
  destruct (getTasks_local_ignores_paging (Some "personal") 40 10
              (Rejects (JsError.Error "boom")) true demo_world)
    as (page & H1 & H2 & H3 & _ & H5 & _).
  - left. reflexivity.
  - exists page. repeat split; assumption.
Defined.

(* ------------------------------------------------------------------ *)
(** ** Gateway: a remote failure is absorbed                           *)
(* ------------------------------------------------------------------ *)

Lemma from_Set_elem (l : list string) (x : string) :
  x ∈ JsArray.from_Set l <-> x ∈ l.
Proof.
  unfold JsArray.from_Set.
  assert (H : forall acc,
             x ∈ foldl (fun acc y => if bool_decide (y ∈ acc) then acc else acc ++ [y])
                   acc l <-> x ∈ acc \/ x ∈ l).
  { induction l as [|y l IH]; intros acc; simpl.
    - rewrite elem_of_nil. tauto.
    - rewrite IH, elem_of_cons. case_bool_decide as Hy.
      + split; [tauto|]. intros [H|[->|H]]; auto.
      + rewrite elem_of_app, list_elem_of_singleton. tauto. }
  rewrite H, elem_of_nil. tauto.
Qed.

Lemma returns_false {A} (c : Completion A) :
  returns c = false -> exists error, c = Throw error.
Proof. destruct c; [discriminate | eauto]. Qed.

(* ------------------------------------------------------------------ *)
(** ** The listing is in descending order of creation                  *)
(* ------------------------------------------------------------------ *)

Lemma insert_by_sorted (x : Task.t) (l : list Task.t) :
  StronglySorted newer_first l ->
  StronglySorted newer_first
    (JsArray.insert_by (fun a b => Task.created_at b - Task.created_at a) x l).
Proof.
  induction 1 as [|y l Hl IH Hy]; cbn [JsArray.insert_by].
  - repeat constructor.
  - destruct (Z.leb_spec (Task.created_at y - Task.created_at x) 0) as [Hle|Hgt].
    + constructor; [constructor; assumption|].
      constructor; [unfold newer_first; lia|].
      eapply Forall_impl; [exact Hy|]. unfold newer_first. intros; lia.
    + constructor; [exact IH|].
      rewrite insert_by_perm. constructor; [unfold newer_first; lia | exact Hy].
Qed.

Lemma mockTaskList_sorted (label : option string) (w : World) :
  StronglySorted newer_first (tasks (mockTaskList label w)).
Proof.
  unfold mockTaskList. cbn [tasks]. unfold JsArray.sort.
  generalize (match label_filter label with
              | Some l => filter (fun task => Task.label task = l) (mockTasks w)
              | None => mockTasks w
              end).
  intros l. induction l as [|x l IH]; cbn [foldr].
  - constructor.
  - apply insert_by_sorted, IH.
Qed.

Lemma passes_kept_by (label : option string) (task : Task.t) :
  passes label task = kept_by label task.
Proof.
  unfold passes, kept_by, label_filter. destruct label as [l|]; [|reflexivity].
  destruct (String.eqb_spec l "") as [->|H1]; cbn [negb andb orb].
  - reflexivity.
  - destruct (String.eqb_spec l "all") as [->|H2]; cbn [negb andb orb]; [reflexivity|].
    case_bool_decide as H.
    + rewrite H, String.eqb_refl. reflexivity.
    + destruct (String.eqb_spec (Task.label task) l); [contradiction | reflexivity].
Qed.

Lemma filter_kept_by (label : option string) (l : list Task.t) :
  filter (passes label) l = List.filter (kept_by label) l.
Proof.
  induction l as [|t l IH]; [reflexivity|].
  rewrite filter_cons. cbn [List.filter]. rewrite <- passes_kept_by, IH.
  destruct (passes label t); cbn; [rewrite decide_True by exact I | rewrite decide_False by tauto];
    reflexivity.
Qed.




(* ------------------------------------------------------------------ *)
(** ** Gateway: what demo mode changes, and what clears it             *)
(* ------------------------------------------------------------------ *)


(** C1 at its failing input.  Demo mode is active and the store holds
    task 1; [getTask 1] still sends [GET /api/v1/tasks/1], answers with
    the task of the backend and not with the stored one, and leaves demo
    mode active. *)
Theorem getTask_in_demo_mode_calls_remote :
  let f : Fetch Task.t := Responds 200 "OK" (Return "") (Return remote_task) in
  let r := getTask 1 f true demo_world in
  isDemoMode demo_world = true /\
  map Task.id (mockTasks demo_world) = [1] /\
  requests r.1 = requests demo_world ++ [GET_task 1] /\
  r.2 = Return remote_task /\
  (remote_task ∉ mockTasks demo_world) /\
  isDemoMode r.1 = true.
Proof.
  cbv zeta. repeat apply conj; try reflexivity.
  vm_compute. intros H. inversion H; subst. inversion H2.
Qed.

(** C2 (as stated) fails: [exitDemoMode] clears the flag although no
    remote operation has succeeded, none was even attempted; and when
    the probe that follows it fails, the flag stays cleared. *)
Lemma exitDemoMode_clears_without_success :
  let w := exitDemoMode demo_world in
  let probe : Fetch unit := Rejects (JsError.mk "AbortError" "The user aborted a request." None) in
  isDemoMode demo_world = true /\
  isDemoMode w = false /\
  requests w = requests demo_world /\
  remote_succeeded CallExitDemoMode = false /\
  (checkHealth probe w).2 = Return false /\
  isDemoMode (checkHealth probe w).1 = false /\
  ~ (forall c w',
       isDemoMode w' = true ->
       isDemoMode (exec (JsDate.fixedZone 0) (fun _ => None) c w') = false ->
       remote_succeeded c = true).
Proof.
  cbv zeta. repeat apply conj; try reflexivity.
  intros H. specialize (H CallExitDemoMode demo_world eq_refl eq_refl).
  discriminate H.
Qed.

(** C2 (as amended). A step that finds demo mode active and leaves it
    inactive is [exitDemoMode], or a step whose remote operation
    succeeded; and [exitDemoMode] clears flag and reason in every world,
    without sending anything. *)
Theorem demo_mode_cleared_only_by (LocalTZA : Z -> bool -> Z)
    (Date_parse : string -> option Z) (c : Call) (w : World) :
  (isDemoMode w = true ->
   isDemoMode (exec LocalTZA Date_parse c w) = false ->
   c = CallExitDemoMode \/ remote_succeeded c = true) /\
  (isDemoMode (exitDemoMode w) = false /\
   demoModeReason (exitDemoMode w) = "" /\
   requests (exitDemoMode w) = requests w).
Proof.
  split; [|repeat split].
  intros Hd Hc. destruct c; cbn [exec remote_succeeded] in *; auto; right.
  - unfold getTasks in Hc. rewrite Hd in Hc. cbn in Hc. congruence.
  - unfold getTasks_settled in Hc. destruct (try_json f); [reflexivity|].
    rewrite handleApiError_eq in Hc. discriminate.
  - unfold getTask in Hc. destruct (try_json f); [reflexivity|].
    rewrite handleApiError_eq in Hc.
    destruct (list_find _ _) as [[i t]|]; discriminate.
  - unfold createTask in Hc. destruct (try_json_text f); [reflexivity|].
    rewrite handleApiError_eq in Hc. discriminate.
  - unfold updateTask in Hc. destruct (try_json_text f); [reflexivity|].
    rewrite handleApiError_eq in Hc.
    destruct (list_find _ _) as [[i t]|]; discriminate.
  - unfold deleteTask in Hc. destruct (try_ok f); [reflexivity|].
    rewrite handleApiError_eq in Hc.
    destruct (list_find _ _) as [[i t]|]; discriminate.
  - unfold getLabels in Hc. destruct (try_json f); [reflexivity|].
    rewrite handleApiError_eq in Hc. discriminate.
  - unfold generateSummary in Hc. destruct (try_json_text f); [reflexivity|].
    rewrite handleApiError_eq in Hc. discriminate.
  - unfold checkHealth, probe_ok in *. destruct f as [e|status ? ? ?]; cbn in Hc.
    + congruence.
    + destruct (ok status); [reflexivity|]. cbn in Hc. congruence.
Qed.

Lemma demo_mode_cleared_only_by_witness :
  let c := CallCheckHealth (Responds 204 "No Content" (Return "") (Return tt)) in
  isDemoMode demo_world = true /\
  isDemoMode (exec (JsDate.fixedZone 0) (fun _ => None) c demo_world) = false /\
  (c = CallExitDemoMode \/ remote_succeeded c = true).
Proof.
  intros c. split; [reflexivity|]. split; [reflexivity|].
  apply (demo_mode_cleared_only_by (JsDate.fixedZone 0) (fun _ => None) c demo_world);
    reflexivity.
Defined.

(* ------------------------------------------------------------------ *)
(** ** The task store: the gateway acts on it through [apply_op]       *)
(* ------------------------------------------------------------------ *)

Section StoreFacts.
Variable LocalTZA : Z -> bool -> Z.
Variable Date_parse : string -> option Z.

Lemma exec_store_of (c : Call) (w : World) :
  store_of (exec LocalTZA Date_parse c w)
  = apply_op LocalTZA (store_op c) (store_of w).
Proof.
  destruct c; cbn [exec store_op].
  - unfold getTasks, getTasks_settled. destruct (isDemoMode w); [reflexivity|].
    destruct (try_json f); [destruct (isDemoMode _); reflexivity|].
    rewrite handleApiError_eq. reflexivity.
  - unfold getTasks_settled.
    destruct (try_json f); [destruct (isDemoMode _); reflexivity|].
    rewrite handleApiError_eq. reflexivity.
  - unfold getTask. destruct (try_json f); [reflexivity|].
    rewrite handleApiError_eq. destruct (list_find _ _) as [[i t]|]; reflexivity.
  - unfold createTask. destruct (try_json_text f); [reflexivity|].
    rewrite handleApiError_eq. reflexivity.
  - unfold updateTask. destruct (try_json_text f); [reflexivity|].
    rewrite handleApiError_eq. cbn [returns apply_op store_of fst snd].
    cbn [mockTasks setDemoMode send].
    destruct (list_find _ _) as [[i t]|]; reflexivity.
  - unfold deleteTask. destruct (try_ok f); [reflexivity|].
    rewrite handleApiError_eq. cbn [returns apply_op store_of fst snd].
    cbn [mockTasks setDemoMode send].
    destruct (list_find _ _) as [[i t]|]; reflexivity.
  - unfold getLabels. destruct (try_json f); [reflexivity|].
    rewrite handleApiError_eq. reflexivity.
  - unfold generateSummary. destruct (try_json_text f); [reflexivity|].
    rewrite handleApiError_eq. reflexivity.
  - unfold checkHealth. destruct f as [e|status ? ? ?]; [reflexivity|].
    destruct (ok status && isDemoMode _); reflexivity.
  - reflexivity.
Qed.

Lemma run_store_of (cs : list Call) (w : World) :
  store_of (run LocalTZA Date_parse cs w)
  = apply_ops LocalTZA (store_op <$> cs) (store_of w).
Proof.
  unfold run, apply_ops. revert w. induction cs as [|c cs IH]; intros w; simpl.
  - reflexivity.
  - rewrite IH, exec_store_of. reflexivity.
Qed.

Lemma apply_op_step (op : StoreOp) (s : list Task.t * Z) :
  StoreStep s (apply_op LocalTZA op s).
Proof.
  destruct op as [|d now now'|id d now now'|id]; cbn [apply_op].
  - apply step_same. reflexivity.
  - eapply step_create; reflexivity.
  - destruct (list_find _ _) as [[i t]|] eqn:E; [|apply step_same; reflexivity].
    apply list_find_Some in E as (Hi & _ & _).
    eapply step_update; [exact Hi|reflexivity..].
  - destruct (list_find _ _) as [[i t]|]; [|apply step_same; reflexivity].
    eapply step_delete; reflexivity.
Qed.

Lemma elem_of_insert_inv {A} (l : list A) (i : nat) (x y : A) :
  y ∈ <[i := x]> l -> y = x \/ y ∈ l.
Proof.
  intros H. apply list_elem_of_lookup in H as [j Hj].
  apply list_lookup_insert_Some in Hj as [(_ & -> & _)|(_ & Hj)]; [auto|].
  right. apply list_elem_of_lookup. eauto.
Qed.

Lemma sorted_head_le (T x : Z) (l rest : list Z) :
  StronglySorted Z.le (T :: l ++ x :: rest) ->
  T <= x /\ StronglySorted Z.le (x :: rest).
Proof.
  intros H. apply StronglySorted_cons in H as [HT Hs].
  split.
  - rewrite Forall_forall in HT. apply HT. rewrite elem_of_app, elem_of_cons. auto.
  - apply StronglySorted_app_1_r in Hs. exact Hs.
Qed.

(** One operation keeps the invariant, whatever the clock shows. *)
Lemma apply_op_Inv (op : StoreOp) (s : list Task.t * Z) (ids : list Z)
    (h : gmap Z string) :
  StoreInv ids h s ->
  StoreInv (ids ++ issued1 LocalTZA op s) (supplied1 LocalTZA op s h)
    (apply_op LocalTZA op s).
Proof.
  destruct s as [ts n].
  intros (I2 & I3 & I4 & I5 & I6). cbn [fst snd] in *.
  assert (Hlt : forall t, t ∈ ts -> Task.id t < n).
  { intros t Ht. rewrite Forall_forall in I4. apply I4, I3, Ht. }
  destruct op as [|d now now'|id d now now'|id];
    cbn [apply_op issued1 supplied1 fst snd new_task Task.id] in *.
  - rewrite app_nil_r. unfold StoreInv. cbn [fst snd]. repeat apply conj; assumption.
  - unfold StoreInv. cbn [fst snd]. repeat apply conj.
    + rewrite fmap_app. apply NoDup_app. split; [exact I2|]. split.
      * intros x (t & -> & Ht)%list_elem_of_fmap. cbn.
        rewrite list_elem_of_singleton. specialize (Hlt t Ht). lia.
      * apply NoDup_singleton.
    + intros t [Ht| ->%list_elem_of_singleton]%elem_of_app; rewrite elem_of_app.
      * left. apply I3, Ht.
      * right. cbn. apply list_elem_of_here.
    + apply Forall_app. split.
      * eapply Forall_impl; [exact I4|]. cbn. intros; lia.
      * apply Forall_singleton. lia.
    + apply StronglySorted_app_2; [|exact I5|repeat constructor].
      intros x1 x2 H1 ->%list_elem_of_singleton.
      rewrite Forall_forall in I4. apply I4, H1.
    + intros t [Ht| ->%list_elem_of_singleton]%elem_of_app; cbn.
      * rewrite lookup_insert_ne; [apply I6, Ht|]. specialize (Hlt t Ht). lia.
      * apply lookup_insert_eq.
  - rewrite app_nil_r.
    destruct (list_find _ _) as [[i old]|] eqn:E; unfold StoreInv; cbn [fst snd].
    + apply list_find_Some in E as (Hi & Hid & _).
      assert (Hold : old ∈ ts) by (apply list_elem_of_lookup; eauto).
      repeat apply conj; try assumption.
      * rewrite list_fmap_insert. cbn [updated_task Task.id].
        rewrite list_insert_id; [exact I2|].
        rewrite list_lookup_fmap, Hi. reflexivity.
      * intros t [-> | Ht]%elem_of_insert_inv; [exact (I3 old Hold) | apply I3, Ht].
      * intros t Ht. apply list_elem_of_lookup in Ht as [j Hj].
        apply list_lookup_insert_Some in Hj as [(_ & <- & _)|(Hne & Hj)].
        -- cbn. rewrite <- Hid. apply lookup_insert_eq.
        -- rewrite lookup_insert_ne.
           ++ apply I6. apply list_elem_of_lookup. eauto.
           ++ intros Heq. apply Hne.
              apply (NoDup_lookup (Task.id <$> ts) i j id I2);
                rewrite list_lookup_fmap; [rewrite Hi | rewrite Hj]; cbn; congruence.
    + apply list_find_None in E. rewrite Forall_forall in E.
      repeat apply conj; try assumption.
      intros t Ht. rewrite lookup_insert_ne; [apply I6, Ht|].
      intros Heq. apply (E t Ht). congruence.
  - rewrite app_nil_r.
    destruct (list_find _ _) as [[i old]|] eqn:E; unfold StoreInv; cbn [fst snd];
      [|repeat apply conj; assumption].
    assert (Hsub : forall t, t ∈ delete i ts -> t ∈ ts)
      by (intros t; apply list_elem_of_delete_inv).
    repeat apply conj; try assumption; auto.
    rewrite list_fmap_delete. eapply sublist_NoDup; [exact I2|apply sublist_delete].
Qed.

Lemma apply_ops_Inv (ops : list StoreOp) (s : list Task.t * Z)
    (ids : list Z) (h : gmap Z string) :
  StoreInv ids h s ->
  StoreInv (ids ++ issued LocalTZA ops s) (supplied LocalTZA ops s h)
    (apply_ops LocalTZA ops s).
Proof.
  revert s ids h. induction ops as [|op ops IH]; intros s ids h HI.
  - cbn. rewrite app_nil_r. exact HI.
  - cbn [issued supplied]. rewrite app_assoc. apply IH, apply_op_Inv, HI.
Qed.

Lemma initial_Inv (t0 t0' : Z) :
  StoreInv [1] {[1 := seed_description]} (store_of (initial t0 t0')).
Proof.
  unfold StoreInv, store_of, initial. cbn [fst snd mockTasks nextId].
  repeat apply conj.
  - cbn. apply NoDup_singleton.
  - intros t ->%list_elem_of_singleton. cbn. apply list_elem_of_here.
  - apply Forall_singleton. lia.
  - repeat constructor.
  - intros t ->%list_elem_of_singleton. cbn. apply lookup_singleton_eq.
Qed.

(** One operation keeps the time stamps in order, the clock permitting:
    its readings are not below any stamp written before. *)
Lemma apply_op_stamps (op : StoreOp) (s : list Task.t * Z) (T : Z) (rest : list Z) :
  StampInv T s ->
  StronglySorted Z.le (T :: stamps op ++ rest) ->
  exists T',
    StampInv T' (apply_op LocalTZA op s) /\ StronglySorted Z.le (T' :: rest).
Proof.
  destruct s as [ts n]. unfold StampInv. intros I1 Hclock. cbn [fst snd] in *.
  destruct op as [|d now now'|id d now now'|id]; cbn [apply_op stamps fst snd] in *.
  - exists T. split; [exact I1 | exact Hclock].
  - apply (sorted_head_le T now' [now] rest) in Hclock as [HT Hclock].
    exists now'. split; [|exact Hclock].
    intros t [Ht| ->%list_elem_of_singleton]%elem_of_app; cbn.
    + destruct (I1 t Ht). lia.
    + lia.
  - apply (sorted_head_le T now' [now] rest) in Hclock as [HT Hclock].
    exists now'. split; [|exact Hclock].
    destruct (list_find _ _) as [[i old]|] eqn:E; cbn [fst snd].
    + apply list_find_Some in E as (Hi & Hid & _).
      assert (Hold : old ∈ ts) by (apply list_elem_of_lookup; eauto).
      intros t [-> | Ht]%elem_of_insert_inv; cbn.
      * destruct (I1 old Hold). lia.
      * destruct (I1 t Ht). lia.
    + intros t Ht. destruct (I1 t Ht). lia.
  - exists T. split; [|exact Hclock].
    destruct (list_find _ _) as [[i old]|] eqn:E; cbn [fst snd]; [|exact I1].
    intros t Ht. apply I1. eapply list_elem_of_delete_inv, Ht.
Qed.

Lemma apply_ops_stamps (ops : list StoreOp) (s : list Task.t * Z) (T : Z) :
  StampInv T s ->
  StronglySorted Z.le (T :: concat (map stamps ops)) ->
  exists T', StampInv T' (apply_ops LocalTZA ops s).
Proof.
  revert s T. induction ops as [|op ops IH]; intros s T HI Hclock.
  - exists T. exact HI.
  - cbn [map concat] in Hclock.
    destruct (apply_op_stamps op s T _ HI Hclock) as (T1 & HI1 & Hclock1).
    exact (IH _ _ HI1 Hclock1).
Qed.

Lemma initial_stamps (t0 t0' : Z) :
  t0 <= t0' -> StampInv t0' (store_of (initial t0 t0')).
Proof.
  intros H t ->%list_elem_of_singleton. cbn. lia.
Qed.

End StoreFacts.

(** C7 (as amended). Along every run of gateway calls from the initial
    state: the stored identifiers are pairwise distinct; the identifiers
    given out, the seed's included, increase strictly, so none is given
    out twice; every stored identifier is one of them; each operation
    keeps the store, appends a task with the next identifier, removes a
    task, or rewrites one in place without changing its identifier or
    creation time; and every stored task has the description supplied by
    the latest creation or update for its identifier.  None of this
    depends on the clock.  When the clock readings of the run do not
    decrease, every stored task has [updated_at >= created_at]. *)
Theorem local_store_invariants (LocalTZA : Z -> bool -> Z)
    (Date_parse : string -> option Z) (t0 t0' : Z) (cs : list Call) :
  let ops := store_op <$> cs in
  let s0 := store_of (initial t0 t0') in
  let w := run LocalTZA Date_parse cs (initial t0 t0') in
  (StronglySorted Z.le (t0 :: t0' :: concat (map stamps ops)) ->
   forall t, t ∈ mockTasks w -> Task.created_at t <= Task.updated_at t) /\
  NoDup (Task.id <$> mockTasks w) /\
  StronglySorted Z.lt (1 :: issued LocalTZA ops s0) /\
  (forall t, t ∈ mockTasks w -> Task.id t ∈ 1 :: issued LocalTZA ops s0) /\
  (forall c w', StoreStep (store_of w') (store_of (exec LocalTZA Date_parse c w'))) /\
  (forall t, t ∈ mockTasks w ->
     supplied LocalTZA ops s0 {[1 := seed_description]} !! Task.id t
     = Some (Task.description t)).
Proof.
  intros ops s0 w.
  assert (Hw : apply_ops LocalTZA ops s0 = (mockTasks w, nextId w)).
  { symmetry. apply (run_store_of LocalTZA Date_parse cs (initial t0 t0')). }
  pose proof (apply_ops_Inv LocalTZA ops s0 [1] {[1 := seed_description]}
                (initial_Inv t0 t0')) as (I2 & I3 & I4 & I5 & I6).
  rewrite Hw in I2, I3, I6. cbn [fst snd] in *.
  repeat apply conj; try assumption.
  - intros Hclock t Ht.
    apply StronglySorted_cons in Hclock as [Ht0 Hclock].
    assert (H0 : t0 <= t0').
    { rewrite Forall_forall in Ht0. apply Ht0, list_elem_of_here. }
    destruct (apply_ops_stamps LocalTZA ops s0 t0' (initial_stamps t0 t0' H0) Hclock)
      as (T' & I1).
    rewrite Hw in I1. apply I1, Ht.
  - intros c w'. rewrite exec_store_of. apply apply_op_step.
Qed.

(** A run with a failed creation at time 10, a failed update of the new
    task at time 20, a failed deletion of the seed and a second failed
    creation at time 30. *)
Lemma local_store_invariants_witness :
  let down {A} : Fetch A := Rejects (JsError.mk "TypeError" "Failed to fetch" None) in
  let cs := [ CallCreateTask "Buy milk" down true 10 10;
              CallUpdateTask 2 "Buy oat milk tomorrow" down true 20 20;
              CallDeleteTask 1 down true;
              CallCreateTask "Call the dentist" down true 30 30 ] in
  let w := run (JsDate.fixedZone 0) (fun _ => None) cs (initial 0 0) in
  (forall t, t ∈ mockTasks w -> Task.created_at t <= Task.updated_at t) /\
  NoDup (Task.id <$> mockTasks w) /\
  Task.description <$> mockTasks w = ["Buy oat milk tomorrow"; "Call the dentist"].
Proof.
  intros down cs w.
  destruct (local_store_invariants (JsDate.fixedZone 0) (fun _ => None) 0 0 cs)
    as (H1 & H2 & _).
  split; [|split; [exact H2 | reflexivity]].
  apply H1. cbn. repeat (constructor; [repeat constructor; lia|]). constructor.
Defined.

(** C7 (as stated) fails: the stamps are clock readings, and nothing
    keeps the clock from being set back.  A task created when the clock
    shows 100 and updated when it shows 50 has [updated_at < created_at]. *)
Lemma clock_set_back_breaks_stamps :
  let down : Fetch Task.t := Rejects (JsError.mk "TypeError" "Failed to fetch" None) in
  let cs := [ CallCreateTask "Buy milk" down true 100 100;
              CallUpdateTask 2 "Buy oat milk" down true 50 50 ] in
  let w := run (JsDate.fixedZone 0) (fun _ => None) cs (initial 0 0) in
  exists t, t ∈ mockTasks w /\ Task.id t = 2 /\
    Task.created_at t = 100 /\ Task.updated_at t = 50 /\
    ~ Task.created_at t <= Task.updated_at t.
Proof.
  intros down cs w.
  exists (Task.mk 2 "Buy oat milk" "Buy oat milk" "shopping" None 100 50).
  split; [|repeat split; cbn; lia].
  vm_compute. apply list_elem_of_further, list_elem_of_here.
Qed.

(* ------------------------------------------------------------------ *)
(** ** Scenarios                                                       *)
(* ------------------------------------------------------------------ *)

(** The deadline of a listing expires: the seed task is answered and
    demo mode is entered with the connection reason. *)
Example listing_times_out :
  let abort := JsError.mk "AbortError" "signal is aborted without reason" None in
  let r := getTasks None 0 50 (Rejects abort) true (initial 5 5) in
  exists page,
    r.2 = Return page /\ tasks page = mockTasks (initial 5 5) /\
    isDemoMode r.1 = true /\
    demoModeReason r.1 = "Backend server connection failed".
Proof. eexists. repeat split. Qed.

(** In demo mode, "Buy milk tomorrow" becomes a shopping task due one day
    later, and the next listing shows it first. *)
Example buy_milk_tomorrow :
  let down : Fetch Task.t := Rejects (JsError.mk "TypeError" "Failed to fetch" None) in
  let r := createTask (JsDate.fixedZone 0) "Buy milk tomorrow" down true 2000 2001
             demo_world in
  exists t page,
    r.2 = Return t /\ Task.id t = 2 /\ Task.label t = "shopping" /\
    Task.due_date t = Some (2000 + JsDate.msPerDay) /\
    (getTasks None 0 50 (Rejects (JsError.Error "unused")) true r.1).2 = Return page /\
    head (tasks page) = Some t.
Proof. do 2 eexists. repeat split. Qed.

(** [exitDemoMode] when demo mode is not active changes nothing. *)
Example exit_when_inactive (t0 t0' : Z) :
  exitDemoMode (initial t0 t0') = initial t0 t0'.
Proof. reflexivity. Qed.

(** A summary over a range that holds no task counts zero tasks. *)
Example summary_of_empty_range :
  let parse s := if String.eqb s "2030-01-01" then Some 1893456000000
                 else if String.eqb s "2030-01-31" then Some 1896048000000
                 else None in
  let request := SummaryRequest.mk "2030-01-01" "2030-01-31" in
  exists r,
    (generateSummary parse request (Rejects (JsError.Error "down")) true
       demo_world).2 = Return r /\
    SummaryResponse.task_count r = 0.
Proof. eexists. split; reflexivity. Qed.


(* ------------------------------------------------------------------ *)
(** ** The store between calls                                         *)
(* ------------------------------------------------------------------ *)

Section StoreRuns.
Variable LocalTZA : Z -> bool -> Z.
Variable Date_parse : string -> option Z.

Lemma apply_op_IdInv (op : StoreOp) (s : list Task.t * Z) :
  IdInv s -> IdInv (apply_op LocalTZA op s).
Proof.
  destruct s as [ts n]. intros [Hnd Hlt]. cbn [fst snd] in *.
  destruct op as [|d now now'|id d now now'|id]; cbn [apply_op fst snd].
  - split; assumption.
  - split; cbn [fst snd].
    + rewrite fmap_app. apply NoDup_app. split; [exact Hnd|]. split.
      * intros x (t & -> & Ht)%list_elem_of_fmap. cbn.
        rewrite list_elem_of_singleton. specialize (Hlt t Ht). lia.
      * apply NoDup_singleton.
    + intros t [Ht| ->%list_elem_of_singleton]%elem_of_app; cbn.
      * specialize (Hlt t Ht). lia.
      * lia.
  - destruct (list_find _ _) as [[i old]|] eqn:E; [|split; assumption].
    apply list_find_Some in E as (Hi & Hid & _).
    assert (Hold : old ∈ ts) by (apply list_elem_of_lookup; eauto).
    split; cbn [fst snd].
    + rewrite list_fmap_insert. cbn [updated_task Task.id].
      rewrite list_insert_id; [exact Hnd|].
      rewrite list_lookup_fmap, Hi. reflexivity.
    + intros t [-> | Ht]%elem_of_insert_inv; [exact (Hlt old Hold) | exact (Hlt t Ht)].
  - destruct (list_find _ _) as [[i old]|] eqn:E; [|split; assumption].
    split; cbn [fst snd].
    + rewrite list_fmap_delete. eapply sublist_NoDup; [exact Hnd|apply sublist_delete].
    + intros t Ht. apply Hlt. eapply list_elem_of_delete_inv, Ht.
Qed.

Lemma apply_ops_IdInv (ops : list StoreOp) (s : list Task.t * Z) :
  IdInv s -> IdInv (apply_ops LocalTZA ops s).
Proof.
  unfold apply_ops. revert s. induction ops as [|op ops IH]; intros s H; cbn.
  - exact H.
  - apply IH, apply_op_IdInv, H.
Qed.

Lemma initial_IdInv (t0 t0' : Z) : IdInv (store_of (initial t0 t0')).
Proof.
  split; cbn.
  - apply NoDup_singleton.
  - intros t ->%list_elem_of_singleton. cbn. lia.
Qed.

(** Every state a run reaches from the initial one. *)
Lemma run_IdInv (cs : list Call) (t0 t0' : Z) :
  IdInv (store_of (run LocalTZA Date_parse cs (initial t0 t0'))).
Proof.
  rewrite (run_store_of LocalTZA Date_parse). apply apply_ops_IdInv, initial_IdInv.
Qed.

(** With distinct identifiers, [find] by the identifier of a stored task
    finds that task. *)
Lemma find_stored (ts : list Task.t) (t : Task.t) :
  NoDup (Task.id <$> ts) -> t ∈ ts ->
  exists i, list_find (fun task => Task.id task = Task.id t) ts = Some (i, t).
Proof.
  intros Hnd Ht. apply list_elem_of_lookup in Ht as [j Hj].
  destruct (list_find (fun task => Task.id task = Task.id t) ts) as [[i t']|] eqn:E.
  - apply list_find_Some in E as (Hi & Hid & _). exists i.
    assert (i = j).
    { apply (NoDup_lookup (Task.id <$> ts) i j (Task.id t) Hnd);
        rewrite list_lookup_fmap; [rewrite Hi | rewrite Hj]; cbn; congruence. }
    subst j. congruence.
  - apply list_find_None in E. rewrite Forall_forall in E. exfalso.
    apply (E t); [apply list_elem_of_lookup; eauto | reflexivity].
Qed.

Lemma apply_op_spares (op : StoreOp) (s : list Task.t * Z) (t : Task.t) :
  IdInv s -> spares (Task.id t) op = true -> t ∈ s.1 ->
  t ∈ (apply_op LocalTZA op s).1.
Proof.
  destruct s as [ts n]. intros [Hnd Hlt] Hsp Ht. cbn [fst snd] in *.
  destruct op as [|d now now'|id d now now'|id]; cbn [apply_op fst snd spares] in *.
  - exact Ht.
  - apply elem_of_app. auto.
  - apply negb_true_iff, Z.eqb_neq in Hsp.
    destruct (list_find _ _) as [[i old]|] eqn:E; [|exact Ht]. cbn [fst].
    apply list_find_Some in E as (Hi & Hid & _).
    apply list_elem_of_lookup in Ht as [j Hj]. apply list_elem_of_lookup. exists j.
    rewrite list_lookup_insert_ne; [exact Hj|].
    intros ->. congruence.
  - apply negb_true_iff, Z.eqb_neq in Hsp.
    destruct (list_find _ _) as [[i old]|] eqn:E; [|exact Ht]. cbn [fst].
    apply list_find_Some in E as (Hi & Hid & _).
    apply list_elem_of_lookup in Ht as [j Hj]. apply list_elem_of_lookup.
    assert (i <> j) by (intros ->; congruence).
    destruct (decide (j < i)%nat).
    + exists j. rewrite list_lookup_delete_lt by assumption. exact Hj.
    + exists (pred j). rewrite list_lookup_delete_ge by lia.
      replace (S (pred j)) with j by lia. exact Hj.
Qed.

Lemma apply_ops_spares (ops : list StoreOp) (s : list Task.t * Z) (t : Task.t) :
  IdInv s -> forallb (spares (Task.id t)) ops = true -> t ∈ s.1 ->
  t ∈ (apply_ops LocalTZA ops s).1.
Proof.
  unfold apply_ops. revert s. induction ops as [|op ops IH]; intros s HI Hsp Ht; cbn.
  - exact Ht.
  - cbn in Hsp. apply andb_true_iff in Hsp as [H1 H2].
    apply IH; [apply apply_op_IdInv, HI | exact H2 | apply apply_op_spares; assumption].
Qed.

End StoreRuns.

(* ------------------------------------------------------------------ *)
(** ** Create, update, delete, and what a later read answers           *)
(* ------------------------------------------------------------------ *)

Lemma getTask_failed (id : Z) (g : Fetch Task.t) (onLine : bool) (w : World) :
  returns (try_json g) = false ->
  (getTask id g onLine w).2
  = match list_find (fun task => Task.id task = id) (mockTasks w) with
    | Some (_, task) => Return task
    | None => Throw (JsError.Error "Task not found")
    end.
Proof.
  intros Hg. apply returns_false in Hg as [e He].
  unfold getTask. rewrite He, handleApiError_eq. cbn [mockTasks setDemoMode send].
  destruct (list_find _ _) as [[i t]|]; reflexivity.
Qed.

(** [getTask] asks the backend first, in every mode: the stored task is
    answered only when the remote call fails. *)
Lemma getTask_answer (id : Z) (g : Fetch Task.t) (onLine : bool) (w : World) :
  (getTask id g onLine w).2
  = match try_json g with
    | Return answer => Return answer
    | Throw _ =>
        match list_find (fun task => Task.id task = id) (mockTasks w) with
        | Some (_, task) => Return task
        | None => Throw (JsError.Error "Task not found")
        end
    end.
Proof.
  unfold getTask. destruct (try_json g) as [answer|e]; [reflexivity|].
  rewrite handleApiError_eq. cbn [mockTasks setDemoMode send].
  destruct (list_find _ _) as [[i t]|]; reflexivity.
Qed.

Lemma createTask_failed (LocalTZA : Z -> bool -> Z) (d : string) (f : Fetch Task.t)
    (onLine : bool) (now now' : Z) (w : World) :
  returns (try_json_text f) = false ->
  (createTask LocalTZA d f onLine now now' w).2
  = Return (new_task LocalTZA d now now' (nextId w)).
Proof.
  intros Hf. apply returns_false in Hf as [e He].
  unfold createTask. rewrite He, handleApiError_eq. reflexivity.
Qed.

Lemma filter_other_ids (id : Z) (ts : list Task.t) :
  Forall (fun t => Task.id t <> id) ts ->
  filter (fun t => Task.id t <> id) ts = ts.
Proof.
  induction 1 as [|t ts Ht Hts IH]; [reflexivity|].
  rewrite filter_cons_True by exact Ht. congruence.
Qed.

(** With distinct identifiers, removing the task [find] finds is removing
    every task with the identifier. *)
Lemma delete_found (id : Z) (ts : list Task.t) (i : nat) (old : Task.t) :
  NoDup (Task.id <$> ts) ->
  list_find (fun task => Task.id task = id) ts = Some (i, old) ->
  delete i ts = filter (fun t => Task.id t <> id) ts.
Proof.
  revert i. induction ts as [|x ts IH]; intros i Hnd E; [discriminate|].
  rewrite fmap_cons in Hnd. apply NoDup_cons in Hnd as [Hx Hnd].
  cbn in E. destruct (decide (Task.id x = id)) as [Heq|Hne].
  - injection E as <- <-. cbn [delete list_delete].
    rewrite filter_cons_False by (intros H; apply H, Heq).
    symmetry. apply filter_other_ids. apply Forall_forall. intros t Ht Hid.
    apply Hx. rewrite Heq, <- Hid. apply list_elem_of_fmap_2, Ht.
  - destruct (list_find _ ts) as [[j t]|] eqn:E'; [|discriminate].
    injection E as <- <-. cbn [delete list_delete].
    rewrite filter_cons_True by exact Hne. f_equal. apply IH; [exact Hnd|reflexivity].
Qed.

Lemma find_None_filter (id : Z) (ts : list Task.t) :
  list_find (fun task => Task.id task = id) ts = None ->
  filter (fun t => Task.id t <> id) ts = ts.
Proof.
  intros E. apply list_find_None in E. apply filter_other_ids.
  eapply Forall_impl; [exact E|]. auto.
Qed.

Lemma find_in_filter_None (id : Z) (ts : list Task.t) :
  list_find (fun task => Task.id task = id)
    (filter (fun t => Task.id t <> id) ts) = None.
Proof.
  apply list_find_None, Forall_forall. intros t Ht%list_elem_of_filter. tauto.
Qed.

Section RoundTrips.
Variable LocalTZA : Z -> bool -> Z.
Variable Date_parse : string -> option Z.

(** X1. A task created in the store stays in it unchanged until a call
    updates or deletes its identifier there.  A later [getTask] for the
    identifier asks the backend first: it answers the backend's task when
    that call succeeds, and the stored task, unchanged, when it fails. *)
Theorem created_task_stays (cs cs' : list Call) (t0 t0' : Z) (d : string)
    (f g : Fetch Task.t) (onLine onLine' : bool) (now now' : Z) :
  let w := run LocalTZA Date_parse cs (initial t0 t0') in
  let r := createTask LocalTZA d f onLine now now' w in
  let w' := run LocalTZA Date_parse cs' r.1 in
  returns (try_json_text f) = false ->
  forallb (spares (nextId w)) (store_op <$> cs') = true ->
  exists t,
    r.2 = Return t /\ Task.id t = nextId w /\ Task.description t = d /\
    t ∈ mockTasks w' /\
    (getTask (Task.id t) g onLine' w').2
    = match try_json g with
      | Return answer => Return answer
      | Throw _ => Return t
      end.
Proof.
  intros w r w' Hf Hsp. exists (new_task LocalTZA d now now' (nextId w)).
  split; [apply createTask_failed, Hf|]. split; [reflexivity|]. split; [reflexivity|].
  pose proof (run_IdInv LocalTZA Date_parse cs t0 t0') as HI. fold w in HI.
  pose proof (exec_store_of LocalTZA Date_parse
                (CallCreateTask d f onLine now now') w) as Hr.
  cbn [exec store_op] in Hr. fold r in Hr. rewrite Hf in Hr.
  assert (HI1 : IdInv (store_of r.1)) by (rewrite Hr; apply apply_op_IdInv, HI).
  pose proof (run_store_of LocalTZA Date_parse cs' r.1) as Hrun. fold w' in Hrun.
  assert (HI2 : IdInv (store_of w'))
    by (rewrite Hrun; apply apply_ops_IdInv, HI1).
  assert (Hin : new_task LocalTZA d now now' (nextId w) ∈ (store_of w').1).
  { rewrite Hrun. apply apply_ops_spares; [exact HI1 | exact Hsp |].
    rewrite Hr. cbn. apply elem_of_app. right. apply list_elem_of_here. }
  split; [exact Hin|].
  rewrite getTask_answer. destruct (try_json g) as [answer|e]; [reflexivity|].
  destruct (find_stored _ _ (proj1 HI2) Hin) as [i Hi].
  cbn [store_of fst] in Hi. rewrite Hi. reflexivity.
Qed.

(** X2. An update in the store keeps identifier and creation time, stamps
    [updated_at], and takes title, label and due date from the new
    description alone: the title is the one a creation with that
    description would give, the old label is never kept, and a due date
    is dropped when the new description names no date.  The other tasks
    are untouched.  A later [getTask] for the identifier answers the
    backend's task when its remote call succeeds, and the updated task
    when it fails. *)
Theorem update_rewrites_in_place (cs : list Call) (t0 t0' : Z) (id : Z) (d : string)
    (f g : Fetch Task.t) (onLine onLine' : bool) (now now' : Z) :
  let w := run LocalTZA Date_parse cs (initial t0 t0') in
  let r := updateTask LocalTZA id d f onLine now now' w in
  let p := processTaskDescription LocalTZA d now in
  returns (try_json_text f) = false ->
  id ∈ Task.id <$> mockTasks w ->
  exists old t,
    old ∈ mockTasks w /\ Task.id old = id /\ r.2 = Return t /\
    Task.id t = id /\ Task.created_at t = Task.created_at old /\
    Task.updated_at t = now' /\ Task.description t = d /\
    Task.title t = Task.title (new_task LocalTZA d now now' id) /\
    Task.label t = Partial.label p /\ Task.due_date t = Partial.due_date p /\
    (getTask id g onLine' r.1).2
    = match try_json g with
      | Return answer => Return answer
      | Throw _ => Return t
      end /\
    length (mockTasks r.1) = length (mockTasks w) /\
    (forall u, u ∈ mockTasks w -> Task.id u <> id -> u ∈ mockTasks r.1).
Proof.
  intros w r p Hf Hid.
  pose proof (run_IdInv LocalTZA Date_parse cs t0 t0') as HI. fold w in HI.
  destruct (find_present _ _ Hid) as (i & old & Hfind & Hi & Hold).
  pose proof (exec_store_of LocalTZA Date_parse
                (CallUpdateTask id d f onLine now now') w) as Hr.
  cbn [exec store_op] in Hr. fold r in Hr. rewrite Hf in Hr.
  cbn [apply_op store_of fst snd] in Hr. rewrite Hfind in Hr.
  injection Hr as Hts Hn.
  assert (Hres : r.2 = Return (updated_task LocalTZA old d now now')).
  { subst r. apply returns_false in Hf as [e He].
    unfold updateTask. rewrite He, handleApiError_eq.
    cbn [mockTasks setDemoMode send]. fold w. rewrite Hfind. reflexivity. }
  assert (Hlabel : Task.label (updated_task LocalTZA old d now now') = Partial.label p).
  { cbn [updated_task Task.label]. fold p.
    pose proof (label_first_bucket LocalTZA d now) as Hl. fold p in Hl. rewrite Hl.
    unfold Spec.category, Spec.buckets, Spec.first_bucket.
    repeat (destruct (existsb _ _); [reflexivity|]). reflexivity. }
  exists old, (updated_task LocalTZA old d now now').
  split; [apply list_elem_of_lookup; eauto|].
  split; [exact Hold|]. split; [exact Hres|].
  split; [exact Hold|]. split; [reflexivity|]. split; [reflexivity|].
  split; [reflexivity|]. split; [reflexivity|]. split; [exact Hlabel|].
  split; [reflexivity|].
  split; [|split].
  - rewrite getTask_answer. destruct (try_json g) as [answer|e]; [reflexivity|].
    rewrite Hts.
    assert (HI1 : IdInv (store_of r.1)).
    { pose proof (apply_op_IdInv LocalTZA (OpUpdate id d now now') _ HI) as H.
      cbn [apply_op store_of fst snd] in H. rewrite Hfind in H.
      unfold store_of. rewrite Hts, Hn. exact H. }
    destruct (find_stored (mockTasks r.1) (updated_task LocalTZA old d now now'))
      as [j Hj].
    + exact (proj1 HI1).
    + rewrite Hts. apply list_elem_of_insert. eapply lookup_lt_Some, Hi.
    + cbn [updated_task Task.id] in Hj. rewrite Hold, Hts in Hj. rewrite Hj.
      reflexivity.
  - rewrite Hts. apply length_insert.
  - intros u Hu Hne. rewrite Hts.
    apply list_elem_of_lookup in Hu as [j Hj]. apply list_elem_of_lookup. exists j.
    rewrite list_lookup_insert_ne; [exact Hj|]. intros ->. congruence.
Qed.

(** X3. A delete in the store removes the task with the identifier and
    nothing else, keeps the order and the id counter.  Afterwards
    [getTask] for the identifier answers the backend's task when its
    remote call succeeds, and throws "Task not found" when it fails. *)
Theorem delete_removes_exactly (cs : list Call) (t0 t0' : Z) (id : Z)
    (f : Fetch unit) (g : Fetch Task.t) (onLine onLine' : bool) :
  let w := run LocalTZA Date_parse cs (initial t0 t0') in
  let r := deleteTask id f onLine w in
  returns (try_ok f) = false ->
  mockTasks r.1 = filter (fun t => Task.id t <> id) (mockTasks w) /\
  nextId r.1 = nextId w /\
  (getTask id g onLine' r.1).2
  = match try_json g with
    | Return answer => Return answer
    | Throw _ => Throw (JsError.Error "Task not found")
    end.
Proof.
  intros w r Hf.
  pose proof (run_IdInv LocalTZA Date_parse cs t0 t0') as [Hnd _]. fold w in Hnd.
  pose proof (exec_store_of LocalTZA Date_parse (CallDeleteTask id f onLine) w) as Hr.
  cbn [exec store_op] in Hr. fold r in Hr. rewrite Hf in Hr.
  cbn [apply_op store_of fst snd] in Hr, Hnd.
  assert (Hts : mockTasks r.1 = filter (fun t => Task.id t <> id) (mockTasks w)
                /\ nextId r.1 = nextId w).
  { destruct (list_find _ _) as [[i old]|] eqn:E; injection Hr as Hts Hn.
    - rewrite Hts. split; [apply (delete_found id _ i old Hnd E) | exact Hn].
    - rewrite Hts. split; [symmetry; apply find_None_filter, E | exact Hn]. }
  destruct Hts as [Hts Hn]. split; [exact Hts|]. split; [exact Hn|].
  rewrite getTask_answer, Hts, find_in_filter_None. reflexivity.
Qed.

End RoundTrips.

Lemma created_task_stays_witness :
  let down {A} : Fetch A := Rejects (JsError.mk "TypeError" "Failed to fetch" None) in
  let up : Fetch Task.t := Responds 200 "OK" (Return "") (Return remote_task) in
  let w := initial 0 0 in
  let r := createTask (JsDate.fixedZone 0) "Buy milk" down true 10 10 w in
  let later := [ CallDeleteTask 1 down true;
                 CallCreateTask "Call the dentist" down true 20 20;
                 CallUpdateTask 3 "Call the doctor" down true 30 30 ] in
  let w' := run (JsDate.fixedZone 0) (fun _ => None) later r.1 in
  exists t,
    r.2 = Return t /\ Task.id t = 2 /\ Task.description t = "Buy milk" /\
    t ∈ mockTasks w' /\
    (getTask 2 down true w').2 = Return t /\
    (getTask 2 up true w').2 = Return remote_task.
Proof.
  intros down up w r later w'.
  destruct (created_task_stays (JsDate.fixedZone 0) (fun _ => None) [] later 0 0
              "Buy milk" (down _) (down _) true true 10 10 eq_refl eq_refl)
    as (t & H1 & H2 & H3 & H4 & H5).
  exists t. fold w r w' in H1, H4, H5.
  split; [exact H1|]. split; [exact H2|]. split; [exact H3|]. split; [exact H4|].
  split.
  - rewrite H2 in H5. exact H5.
  - reflexivity.
Defined.

Lemma update_rewrites_in_place_witness :
  let down : Fetch Task.t := Rejects (JsError.mk "TypeError" "Failed to fetch" None) in
  let r := updateTask (JsDate.fixedZone 0) 1 "Report for the client on friday" down
             true 20 21 (initial 0 0) in
  exists t,
    r.2 = Return t /\ Task.id t = 1 /\ Task.label t = "work" /\
    Task.title t = "Report for the client on friday" /\
    Task.created_at t = 0 /\ Task.updated_at t = 21 /\
    (getTask 1 down true r.1).2 = Return t.
Proof.
  intros down r.
  destruct (update_rewrites_in_place (JsDate.fixedZone 0) (fun _ => None) [] 0 0 1
              "Report for the client on friday" down down true true 20 21)
    as (old & t & Hold & Hid & Hr & Hi & Hc & Hu & _ & Ht & Hl & _ & Hg & _).
  - reflexivity.
  - apply list_elem_of_here.
  - apply list_elem_of_singleton in Hold. subst old.
    exists t. split; [exact Hr|]. split; [exact Hi|].
    split; [rewrite Hl; vm_compute; reflexivity|].
    split; [rewrite Ht; vm_compute; reflexivity|].
    split; [exact Hc|]. split; [exact Hu | exact Hg].
Defined.

Lemma delete_removes_exactly_witness :
  let down {A} : Fetch A := Rejects (JsError.mk "TypeError" "Failed to fetch" None) in
  let cs := [ CallCreateTask "Buy milk" down true 10 10 ] in
  let w := run (JsDate.fixedZone 0) (fun _ => None) cs (initial 0 0) in
  let r := deleteTask 1 down true w in
  Task.id <$> mockTasks r.1 = [2] /\
  (getTask 1 down true r.1).2 = Throw (JsError.Error "Task not found").
Proof.
  intros down cs w r.
  destruct (delete_removes_exactly (JsDate.fixedZone 0) (fun _ => None) cs 0 0 1
              (down _) (down _) true true) as (H1 & _ & H3); [reflexivity|].
  fold w r in H1, H3. split; [rewrite H1; reflexivity | exact H3].
Defined.

(* ------------------------------------------------------------------ *)
(** ** The newest task leads the listing                               *)
(* ------------------------------------------------------------------ *)

Lemma sort_newest_last (ts : list Task.t) (t : Task.t) :
  Forall (fun u => Task.created_at u < Task.created_at t) ts ->
  JsArray.sort (fun a b => Task.created_at b - Task.created_at a) (ts ++ [t])
  = t :: JsArray.sort (fun a b => Task.created_at b - Task.created_at a) ts.
Proof.
  unfold JsArray.sort. induction 1 as [|x ts Hx Hts IH]; [reflexivity|].
  cbn [app foldr]. rewrite IH. cbn [JsArray.insert_by].
  destruct (Z.leb_spec (Task.created_at t - Task.created_at x) 0); [lia|reflexivity].
Qed.

(** X4. A task created in the store with a time stamp later than every
    stored creation time is the first of the next listing served from the
    store, under every label filter it passes. *)
Theorem created_task_listed_first (LocalTZA : Z -> bool -> Z) (d : string)
    (f : Fetch Task.t) (g : Fetch TaskList) (onLine onLine' : bool) (now now' : Z)
    (label : option string) (s l : Z) (w : World) :
  let r := createTask LocalTZA d f onLine now now' w in
  let t := new_task LocalTZA d now now' (nextId w) in
  returns (try_json_text f) = false ->
  Forall (fun u => Task.created_at u < now') (mockTasks w) ->
  passes label t = true ->
  returns (try_json g) = false ->
  r.2 = Return t /\
  exists page, (getTasks label s l g onLine' r.1).2 = Return page /\
               head (tasks page) = Some t.
Proof.
  intros r t Hf Hnew Hpass Hg. split; [apply createTask_failed, Hf|].
  exists (mockTaskList label r.1). split.
  - apply returns_false in Hg as [e He]. unfold getTasks.
    destruct (isDemoMode r.1); [reflexivity|].
    unfold getTasks_settled. rewrite He, handleApiError_eq. reflexivity.
  - assert (Hts : mockTasks r.1 = mockTasks w ++ [t]).
    { subst r. apply returns_false in Hf as [e He].
      unfold createTask. rewrite He, handleApiError_eq. reflexivity. }
    unfold mockTaskList. cbn [tasks]. rewrite Hts.
    unfold passes in Hpass. destruct (label_filter label) as [lb|].
    + apply bool_decide_eq_true in Hpass.
      rewrite filter_app, filter_cons_True, filter_nil by exact Hpass.
      rewrite sort_newest_last; [reflexivity|].
      apply Forall_forall. intros u Hu%list_elem_of_filter.
      rewrite Forall_forall in Hnew. apply Hnew, Hu.
    + rewrite sort_newest_last; [reflexivity | exact Hnew].
Qed.

Lemma created_task_listed_first_witness :
  let down {A} : Fetch A := Rejects (JsError.mk "TypeError" "Failed to fetch" None) in
  let r := createTask (JsDate.fixedZone 0) "Buy milk" down true 2000 2001 demo_world in
  exists t page,
    r.2 = Return t /\
    (getTasks (Some "shopping") 0 50 down true r.1).2 = Return page /\
    head (tasks page) = Some t.
Proof.
  intros down r.
  destruct (created_task_listed_first (JsDate.fixedZone 0) "Buy milk" (down _) (down _)
              true true 2000 2001 (Some "shopping") 0 50 demo_world)
    as (H1 & page & H2 & H3).
  - reflexivity.
  - repeat constructor.
  - reflexivity.
  - reflexivity.
  - eexists _, page. split; [exact H1|]. split; [exact H2 | exact H3].
Defined.

(* ------------------------------------------------------------------ *)
(** ** The mode flags along a run                                      *)
(* ------------------------------------------------------------------ *)

Lemma reason_in_reasons (statusCode : option Z) (error : JsError.t) (onLine : bool) :
  Spec.reason statusCode error onLine ∈ reasons.
Proof.
  unfold Spec.reason, Spec.decisions, Spec.first_reason, reasons.
  destruct (Spec.is_422 _ _); [apply list_elem_of_here|].
  destruct (Spec.network_failure _ _); [apply list_elem_of_further, list_elem_of_here|].
  destruct (Spec.server_error _); repeat constructor.
Qed.

Lemma entered_ModeInv (statusCode : option Z) (error : JsError.t) (onLine : bool)
    (w : World) :
  ModeInv (setDemoMode true (Spec.reason statusCode error onLine) w).
Proof. split; [reflexivity | apply reason_in_reasons]. Qed.

Lemma set_store_ModeInv (ts : list Task.t) (n : Z) (w : World) :
  ModeInv w -> ModeInv (set_store ts n w).
Proof. intros H. exact H. Qed.

Section ModeRuns.
Variable LocalTZA : Z -> bool -> Z.
Variable Date_parse : string -> option Z.

Lemma exec_ModeInv (c : Call) (w : World) :
  ModeInv w -> ModeInv (exec LocalTZA Date_parse c w).
Proof.
  intros H. destruct c; cbn [exec].
  - unfold getTasks, getTasks_settled. destruct (isDemoMode w) eqn:Hd; [exact H|].
    destruct (try_json f).
    + cbn [isDemoMode send]. rewrite Hd. exact H.
    + rewrite handleApiError_eq. apply entered_ModeInv.
  - unfold getTasks_settled. destruct (try_json f).
    + destruct (isDemoMode w); [split; reflexivity | exact H].
    + rewrite handleApiError_eq. apply entered_ModeInv.
  - unfold getTask. destruct (try_json f); [exact H|].
    rewrite handleApiError_eq.
    destruct (list_find _ _) as [[i t]|]; apply entered_ModeInv.
  - unfold createTask. destruct (try_json_text f); [exact H|].
    rewrite handleApiError_eq. apply entered_ModeInv.
  - unfold updateTask. destruct (try_json_text f); [exact H|].
    rewrite handleApiError_eq.
    destruct (list_find _ _) as [[i t]|]; apply entered_ModeInv.
  - unfold deleteTask. destruct (try_ok f); [exact H|].
    rewrite handleApiError_eq.
    destruct (list_find _ _) as [[i t]|]; apply entered_ModeInv.
  - unfold getLabels. destruct (try_json f); [exact H|].
    rewrite handleApiError_eq. apply entered_ModeInv.
  - unfold generateSummary. destruct (try_json_text f); [exact H|].
    rewrite handleApiError_eq. apply entered_ModeInv.
  - unfold checkHealth. destruct f as [e|status ? ? ?]; [exact H|].
    cbn [isDemoMode send fst].
    destruct (ok status && isDemoMode w); [split; reflexivity | exact H].
  - split; reflexivity.
Qed.

(** X5. In every state a run of calls reaches from the initial one,
    whatever the host answers: [isUsingMockData] equals [isDemoMode]; the
    reason is the empty string while demo mode is off and one of the four
    reasons of the classifier while it is on. *)
Theorem mode_flags_agree (cs : list Call) (t0 t0' : Z) :
  let w := run LocalTZA Date_parse cs (initial t0 t0') in
  isUsingMockData w = isDemoMode w /\
  (if isDemoMode w then demoModeReason w ∈ reasons else demoModeReason w = "").
Proof.
  intros w.
  assert (H : ModeInv w).
  { subst w. unfold run.
    assert (H0 : ModeInv (initial t0 t0')) by (split; reflexivity).
    revert H0. generalize (initial t0 t0'). induction cs as [|c cs' IH]; intros w0 H0.
    - exact H0.
    - cbn [foldl]. apply IH, exec_ModeInv, H0. }
  exact H.
Qed.

(** X6. Reading never writes: [getTasks], [getTask], [getLabels],
    [generateSummary], [checkHealth] and [exitDemoMode] leave [mockTasks]
    and [nextId] as they were, whatever the host answers; so do
    [createTask], [updateTask] and [deleteTask] when their remote call
    succeeds, and then they return the backend's answer as it is. *)
Theorem reads_keep_the_store (onLine : bool) (w : World) :
  (forall label s l f, store_of (getTasks label s l f onLine w).1 = store_of w) /\
  (forall id f, store_of (getTask id f onLine w).1 = store_of w) /\
  (forall f, store_of (getLabels f onLine w).1 = store_of w) /\
  (forall request f,
     store_of (generateSummary Date_parse request f onLine w).1 = store_of w) /\
  (forall f, store_of (checkHealth f w).1 = store_of w) /\
  store_of (exitDemoMode w) = store_of w /\
  (forall d f now now' t, try_json_text f = Return t ->
     createTask LocalTZA d f onLine now now' w = (send (POST_task d) w, Return t)) /\
  (forall id d f now now' t, try_json_text f = Return t ->
     updateTask LocalTZA id d f onLine now now' w
     = (send (PUT_task id d) w, Return t)) /\
  (forall id f, try_ok f = Return tt ->
     deleteTask id f onLine w = (send (DELETE_task id) w, Return tt)).
Proof.
  repeat apply conj.
  - intros label s l f.
    apply (exec_store_of LocalTZA Date_parse (CallGetTasks label s l f onLine) w).
  - intros id f. apply (exec_store_of LocalTZA Date_parse (CallGetTask id f onLine) w).
  - intros f. apply (exec_store_of LocalTZA Date_parse (CallGetLabels f onLine) w).
  - intros request f.
    apply (exec_store_of LocalTZA Date_parse (CallGenerateSummary request f onLine) w).
  - intros f. apply (exec_store_of LocalTZA Date_parse (CallCheckHealth f) w).
  - reflexivity.
  - intros d f now now' t Hf. unfold createTask. rewrite Hf. reflexivity.
  - intros id d f now now' t Hf. unfold updateTask. rewrite Hf. reflexivity.
  - intros id f Hf. unfold deleteTask. rewrite Hf. reflexivity.
Qed.

End ModeRuns.

Lemma reads_keep_the_store_witness :
  let f : Fetch Task.t := Responds 201 "Created" (Return "") (Return remote_task) in
  createTask (JsDate.fixedZone 0) "Finish the quarterly report" f true 5 5 demo_world
  = (send (POST_task "Finish the quarterly report") demo_world, Return remote_task).
Proof.
  intros f.
  apply (reads_keep_the_store (JsDate.fixedZone 0) (fun _ => None) true demo_world).
  reflexivity.
Defined.

(* ------------------------------------------------------------------ *)
(** ** Field extractor: the title                                      *)
(* ------------------------------------------------------------------ *)

Section TitleFacts.
Import JsString.

Lemma substring0_length (n : nat) (s : string) :
  String.length (substring0 n s) = Nat.min n (String.length s).
Proof.
  unfold substring0. revert s. induction n as [|n IH]; intros s.
  - destruct s; reflexivity.
  - destruct s as [|c s]; [reflexivity|]. cbn. rewrite IH. reflexivity.
Qed.

Lemma substring0_all (n : nat) (s : string) :
  (String.length s <= n)%nat -> substring0 n s = s.
Proof.
  unfold substring0. revert s. induction n as [|n IH]; intros s H.
  - destruct s; [reflexivity | cbn in H; lia].
  - destruct s as [|c s]; [reflexivity|]. cbn in *. rewrite IH by lia. reflexivity.
Qed.

Lemma trimStart_length (s : string) :
  (String.length (trimStart s) <= String.length s)%nat.
Proof.
  induction s as [|c s IH]; cbn; [lia|]. destruct (is_space c); cbn; lia.
Qed.

Lemma trimEnd_length (s : string) :
  (String.length (trimEnd s) <= String.length s)%nat.
Proof.
  induction s as [|c s IH]; [cbn; lia|].
  cbn [trimEnd]. destruct (all_space (String c s)); cbn; lia.
Qed.

Lemma trim_length (s : string) : (String.length (trim s) <= String.length s)%nat.
Proof.
  unfold trim. pose proof (trimEnd_length (trimStart s)).
  pose proof (trimStart_length s). lia.
Qed.

Lemma all_space_trimEnd (s : string) : all_space s = true -> trimEnd s = "".
Proof. destruct s as [|c s]; [reflexivity|]. intros H. cbn [trimEnd]. rewrite H. reflexivity. Qed.

Lemma trimEnd_empty (s : string) : trimEnd s = "" -> all_space s = true.
Proof.
  destruct s as [|c s]; [reflexivity|]. cbn [trimEnd].
  destruct (all_space (String c s)); [reflexivity | discriminate].
Qed.

Lemma all_space_trimStart (s : string) : all_space (trimStart s) = all_space s.
Proof.
  induction s as [|c s IH]; [reflexivity|]. cbn [trimStart].
  destruct (is_space c) eqn:E; [|reflexivity]. cbn. rewrite E. exact IH.
Qed.

Lemma trim_empty_iff (s : string) : trim s = "" <-> all_space s = true.
Proof.
  unfold trim. split.
  - intros H%trimEnd_empty. rewrite all_space_trimStart in H. exact H.
  - intros H. apply all_space_trimEnd. rewrite all_space_trimStart. exact H.
Qed.

(** [trimEnd] leaves a string that does not end in white space. *)
Lemma trimEnd_idem (s : string) : trimEnd (trimEnd s) = trimEnd s.
Proof.
  induction s as [|c s IH]; [reflexivity|].
  cbn [trimEnd]. destruct (all_space (String c s)) eqn:E; [reflexivity|].
  cbn [trimEnd]. rewrite IH.
  replace (all_space (String c (trimEnd s))) with false; [reflexivity|].
  symmetry. cbn [all_space] in *. destruct (is_space c); [|reflexivity]. cbn in *.
  destruct (all_space (trimEnd s)) eqn:E'; [|reflexivity].
  assert (trimEnd s = "").
  { rewrite <- IH. apply all_space_trimEnd, E'. }
  apply trimEnd_empty in H. congruence.
Qed.

Lemma trimStart_head (s : string) :
  match trimStart s with
  | EmptyString => True
  | String c _ => is_space c = false
  end.
Proof.
  induction s as [|c s IH]; [exact I|]. cbn [trimStart].
  destruct (is_space c) eqn:E; [exact IH | exact E].
Qed.

Lemma trimEnd_head (s : string) :
  match s with
  | EmptyString => True
  | String c _ => is_space c = false
  end ->
  match trimEnd s with
  | EmptyString => True
  | String c _ => is_space c = false
  end.
Proof.
  destruct s as [|c s]; [auto|]. intros H. cbn [trimEnd all_space]. rewrite H.
  cbn. exact H.
Qed.

Lemma trimStart_fixed (s : string) :
  match s with
  | EmptyString => True
  | String c _ => is_space c = false
  end -> trimStart s = s.
Proof. destruct s as [|c s]; [reflexivity|]. intros H. cbn. rewrite H. reflexivity. Qed.

Lemma trim_idem (s : string) : trim (trim s) = trim s.
Proof.
  unfold trim.
  rewrite (trimStart_fixed (trimEnd (trimStart s)))
    by apply trimEnd_head, trimStart_head.
  apply trimEnd_idem.
Qed.

Lemma first_segment_no_end (s : string) : no_sentence_end (first_segment s) = true.
Proof.
  induction s as [|c s IH]; [reflexivity|]. cbn [first_segment].
  destruct (is_sentence_end c) eqn:E; [reflexivity|]. cbn. rewrite E. exact IH.
Qed.

Lemma first_segment_all (s : string) : no_sentence_end s = true -> first_segment s = s.
Proof.
  induction s as [|c s IH]; [reflexivity|]. cbn. intros [Hc Hs]%andb_true_iff.
  apply negb_true_iff in Hc. rewrite Hc, IH by exact Hs. reflexivity.
Qed.

Lemma substring0_no_end (n : nat) (s : string) :
  no_sentence_end s = true -> no_sentence_end (substring0 n s) = true.
Proof.
  unfold substring0. revert s. induction n as [|n IH]; intros s H.
  - destruct s; reflexivity.
  - destruct s as [|c s]; [reflexivity|]. cbn in *.
    apply andb_true_iff in H as [Hc Hs]. rewrite Hc, IH by exact Hs. reflexivity.
Qed.

Lemma trimStart_no_end (s : string) :
  no_sentence_end s = true -> no_sentence_end (trimStart s) = true.
Proof.
  induction s as [|c s IH]; [reflexivity|]. intros H. cbn [trimStart].
  destruct (is_space c); [|exact H]. cbn in H. apply andb_true_iff in H as [_ H]. auto.
Qed.

Lemma trimEnd_no_end (s : string) :
  no_sentence_end s = true -> no_sentence_end (trimEnd s) = true.
Proof.
  induction s as [|c s IH]; [reflexivity|]. intros H. cbn [trimEnd].
  destruct (all_space (String c s)); [reflexivity|]. cbn in *.
  apply andb_true_iff in H as [Hc Hs]. rewrite Hc, IH by exact Hs. reflexivity.
Qed.

Lemma all_space_substring0 (n : nat) (s : string) :
  all_space s = true -> all_space (substring0 n s) = true.
Proof.
  unfold substring0. revert s. induction n as [|n IH]; intros s H.
  - destruct s; reflexivity.
  - destruct s as [|c s]; [reflexivity|]. cbn in *.
    apply andb_true_iff in H as [Hc Hs]. rewrite Hc, IH by exact Hs. reflexivity.
Qed.

(** The first 50 characters of the first segment are a prefix of the
    first 50 characters of the description: blank if those are. *)
Lemma all_space_first_segment (n : nat) (s : string) :
  all_space (substring0 n s) = true ->
  all_space (substring0 n (first_segment s)) = true.
Proof.
  unfold substring0. revert s. induction n as [|n IH]; intros s H.
  - destruct (first_segment s); reflexivity.
  - destruct s as [|c s]; [reflexivity|]. cbn [first_segment].
    destruct (is_sentence_end c); [reflexivity|]. cbn in *.
    apply andb_true_iff in H as [Hc Hs]. rewrite Hc, IH by exact Hs. reflexivity.
Qed.

Lemma first_segment_ascii (s : string) :
  is_ascii s = true -> is_ascii (first_segment s) = true.
Proof.
  induction s as [|c s IH]; [reflexivity|]. cbn [first_segment is_ascii].
  intros [Hc Hs]%andb_true_iff.
  destruct (is_sentence_end c); [reflexivity|]. cbn [is_ascii].
  rewrite Hc, IH by exact Hs. reflexivity.
Qed.

Lemma substring0_ascii (n : nat) (s : string) :
  is_ascii s = true -> is_ascii (substring0 n s) = true.
Proof.
  unfold substring0. revert s. induction n as [|n IH]; intros s H.
  - destruct s; reflexivity.
  - destruct s as [|c s]; [reflexivity|]. cbn [String.substring is_ascii] in *.
    apply andb_true_iff in H as [Hc Hs]. rewrite Hc, IH by exact Hs. reflexivity.
Qed.

Lemma trimStart_ascii (s : string) :
  is_ascii s = true -> is_ascii (trimStart s) = true.
Proof.
  induction s as [|c s IH]; [reflexivity|]. intros H. cbn [trimStart].
  destruct (is_space c); [|exact H]. cbn [is_ascii] in H.
  apply andb_true_iff in H as [_ H]. auto.
Qed.

Lemma trimEnd_ascii (s : string) :
  is_ascii s = true -> is_ascii (trimEnd s) = true.
Proof.
  induction s as [|c s IH]; [reflexivity|]. intros H. cbn [trimEnd].
  destruct (all_space (String c s)); [reflexivity|]. cbn [is_ascii] in *.
  apply andb_true_iff in H as [Hc Hs]. rewrite Hc, IH by exact Hs. reflexivity.
Qed.

Lemma trim_ascii (s : string) : is_ascii s = true -> is_ascii (trim s) = true.
Proof. intros H. apply trimEnd_ascii, trimStart_ascii, H. Qed.

End TitleFacts.

(** X7. For a description of ASCII characters, the title the extractor
    gives is ASCII again, has at most 50 characters and no white space at
    either end; it is empty exactly when the first 50 characters of the
    description are blank; and unless the first sentence is blank, it
    holds none of the characters [.], [!], [?]. *)
Theorem title_shape (LocalTZA : Z -> bool -> Z) (description : string) (now : Z) :
  let title := Partial.title (processTaskDescription LocalTZA description now) in
  JsString.is_ascii description = true ->
  JsString.is_ascii title = true /\
  (String.length title <= 50)%nat /\
  JsString.trim title = title /\
  (title = "" <-> JsString.all_space (JsString.substring0 50 description) = true) /\
  (JsString.all_space (JsString.substring0 50 (JsString.first_segment description))
   = false -> no_sentence_end title = true).
Proof.
  intros title Ha. subst title. unfold processTaskDescription. cbn [Partial.title].
  assert (A1 : JsString.is_ascii
                 (JsString.trim (JsString.substring0 50
                                   (JsString.first_segment description))) = true)
    by (apply trim_ascii, substring0_ascii, first_segment_ascii, Ha).
  assert (A2 : JsString.is_ascii (JsString.trim (JsString.substring0 50 description))
               = true)
    by (apply trim_ascii, substring0_ascii, Ha).
  revert A1 A2.
  set (t1 := JsString.trim (JsString.substring0 50 (JsString.first_segment description))).
  set (t2 := JsString.trim (JsString.substring0 50 description)).
  assert (H1 : t1 = "" <->
               JsString.all_space
                 (JsString.substring0 50 (JsString.first_segment description)) = true)
    by apply trim_empty_iff.
  assert (H2 : t2 = "" <-> JsString.all_space (JsString.substring0 50 description) = true)
    by apply trim_empty_iff.
  assert (L1 : (String.length t1 <= 50)%nat).
  { subst t1. etransitivity; [apply trim_length|]. rewrite substring0_length. lia. }
  assert (L2 : (String.length t2 <= 50)%nat).
  { subst t2. etransitivity; [apply trim_length|]. rewrite substring0_length. lia. }
  assert (N1 : no_sentence_end t1 = true).
  { subst t1. apply trimEnd_no_end, trimStart_no_end, substring0_no_end,
      first_segment_no_end. }
  intros A1 A2.
  destruct t1 as [|c r] eqn:E1.
  - split; [exact A2|].
    split; [exact L2|]. split; [apply trim_idem|]. split; [exact H2|].
    intros Hf. rewrite (proj1 H1 eq_refl) in Hf. discriminate.
  - split; [exact A1|].
    split; [exact L1|]. split; [rewrite <- E1; apply trim_idem|]. split.
    + split; [discriminate|]. intros Hb.
      apply all_space_first_segment, H1 in Hb. discriminate.
    + intros _. exact N1.
Qed.

Lemma title_shape_witness :
  let title :=
    Partial.title
      (processTaskDescription (JsDate.fixedZone 0) "  Call mom! Then rest." 0) in
  title = "Call mom" /\ (String.length title <= 50)%nat /\
  JsString.trim title = title /\ no_sentence_end title = true.
Proof.
  intros title.
  destruct (title_shape (JsDate.fixedZone 0) "  Call mom! Then rest." 0 eq_refl)
    as (_ & H1 & H2 & _ & H4).
  split; [vm_compute; reflexivity|]. split; [exact H1|]. split; [exact H2|].
  apply H4. reflexivity.
Defined.

(** X8. A description of ASCII characters without [.], [!], [?], of at
    most 50 characters and without white space at either end is its own
    title, also on the task [createTask] puts into the store when its
    remote call fails. *)
Theorem plain_description_is_title (LocalTZA : Z -> bool -> Z) (description : string)
    (f : Fetch Task.t) (onLine : bool) (now now' : Z) (w : World) :
  JsString.is_ascii description = true ->
  no_sentence_end description = true ->
  (String.length description <= 50)%nat ->
  JsString.trim description = description ->
  returns (try_json_text f) = false ->
  Partial.title (processTaskDescription LocalTZA description now) = description /\
  exists t, (createTask LocalTZA description f onLine now now' w).2 = Return t /\
            Task.title t = description.
Proof.
  intros _ Hn Hl Ht Hf.
  assert (H : Partial.title (processTaskDescription LocalTZA description now)
              = description).
  { unfold processTaskDescription. cbn [Partial.title].
    rewrite (first_segment_all _ Hn), (substring0_all _ _ Hl), Ht.
    destruct description; reflexivity. }
  split; [exact H|]. eexists. split; [apply createTask_failed, Hf|].
  unfold new_task. cbn [Task.title]. rewrite H.
  rewrite (substring0_all _ _ Hl). destruct description; reflexivity.
Qed.

Lemma plain_description_is_title_witness :
  exists t,
    (createTask (JsDate.fixedZone 0) "Buy milk tomorrow"
       (Rejects (JsError.Error "down")) true 0 0 (initial 0 0)).2 = Return t /\
    Task.title t = "Buy milk tomorrow".
Proof.
  apply (plain_description_is_title (JsDate.fixedZone 0) "Buy milk tomorrow"
           (Rejects (JsError.Error "down")) true 0 0 (initial 0 0));
    [reflexivity | reflexivity | cbn; lia | reflexivity | reflexivity].
Defined.

(* ------------------------------------------------------------------ *)
(** ** Field extractor: "next week" and "next month"                   *)
(* ------------------------------------------------------------------ *)

Lemma MonthStart_step (leap : bool) (m : Z) :
  0 <= m <= 10 ->
  JsDate.MonthStart leap (m + 1) = JsDate.MonthStart leap m + DaysInMonth leap m.
Proof.
  intros H.
  assert (Hc : m = 0 \/ m = 1 \/ m = 2 \/ m = 3 \/ m = 4 \/ m = 5 \/ m = 6 \/
               m = 7 \/ m = 8 \/ m = 9 \/ m = 10) by lia.
  destruct leap; repeat (destruct Hc as [->|Hc]); try subst m; reflexivity.
Qed.

Lemma DaysInMonth_range (leap : bool) (m : Z) : 28 <= DaysInMonth leap m <= 31.
Proof.
  unfold DaysInMonth.
  destruct m as [|p|p]; try lia.
  destruct leap; repeat (destruct p as [p|p|]; try lia).
Qed.

(** [d.setMonth(d.getMonth() + 1)] moves the local calendar day by the
    length of the month [d] is in, and keeps the local time of day. *)
Lemma setMonth_next (LocalTZA : Z -> bool -> Z) (t : Z) :
  let lt := JsDate.LocalTime LocalTZA t in
  JsDate.setMonth LocalTZA t (JsDate.getMonth LocalTZA t + 1)
  = Spec.days_later LocalTZA
      (DaysInMonth (JsDate.InLeapYear lt) (JsDate.MonthFromTime lt)) t.
Proof.
  intros lt. unfold JsDate.setMonth, JsDate.getMonth, Spec.days_later. fold lt. f_equal.
  unfold JsDate.MakeDate, JsDate.MakeDay, JsDate.DateFromTime, JsDate.DayWithinYear.
  pose proof (MonthFromTime_range lt) as Hm.
  pose proof (Z.div_mod lt JsDate.msPerDay ltac:(unfold JsDate.msPerDay; lia)) as Hdm.
  unfold JsDate.TimeWithinDay, JsDate.Day in *.
  destruct (Z.eq_dec (JsDate.MonthFromTime lt) 11) as [E|E].
  - rewrite E. change ((11 + 1) / 12) with 1. change ((11 + 1) `mod` 12) with 0.
    rewrite DayFromYear_succ. unfold JsDate.InLeapYear.
    assert (Hy : JsDate.DaysInYear (JsDate.YearFromTime lt) = 365 \/
                 JsDate.DaysInYear (JsDate.YearFromTime lt) = 366).
    { unfold JsDate.DaysInYear.
      repeat match goal with |- context [if ?b then _ else _] => destruct b end; auto. }
    destruct Hy as [Hy|Hy]; rewrite Hy;
      change (365 =? 366) with false; change (366 =? 366) with true;
      cbn [JsDate.MonthStart DaysInMonth]; unfold JsDate.msPerDay in *; lia.
  - rewrite (Z.div_small (JsDate.MonthFromTime lt + 1) 12),
      (Z.mod_small (JsDate.MonthFromTime lt + 1) 12) by lia.
    rewrite Z.add_0_r. fold (JsDate.InLeapYear lt).
    rewrite MonthStart_step by lia. unfold JsDate.msPerDay in *. lia.
Qed.

(** X9. When "next month" is the rule that fires, the due date is the
    same local time of day as many days ahead as the current local month
    is long, 28 to 31: in a zone of constant offset exactly that many
    times 24 hours after the clock reading.  "Next week" gives 7 times 24
    hours. *)
Theorem next_month_is_month_length (off : Z) (description : string) (now : Z) :
  let zone := JsDate.fixedZone off in
  let due := Partial.due_date (processTaskDescription zone description now) in
  let lt := JsDate.LocalTime zone now in
  let k := DaysInMonth (JsDate.InLeapYear lt) (JsDate.MonthFromTime lt) in
  (Spec.first_rule Spec.code_order description = Some Spec.NextMonth ->
   due = Some (now + k * JsDate.msPerDay) /\ 28 <= k <= 31) /\
  (Spec.first_rule Spec.code_order description = Some Spec.NextWeek ->
   due = Some (now + 7 * JsDate.msPerDay)).
Proof.
  intros zone due lt k. subst due. rewrite due_date_code_order. unfold Spec.due_date.
  split; intros ->; cbn [fmap option_fmap option_map Spec.resolve].
  - split; [|apply DaysInMonth_range].
    rewrite setMonth_next. fold lt k. unfold zone. rewrite days_later_fixedZone.
    reflexivity.
  - unfold zone. rewrite days_later_fixedZone. reflexivity.
Qed.

(** Wednesday 2024-01-31T10:00:00Z: "next month" is 31 days later,
    Saturday 2024-03-02T10:00:00Z, since February has no 31st. *)
Lemma next_month_is_month_length_witness :
  Partial.due_date
    (processTaskDescription (JsDate.fixedZone 0) "Renew the pass next month"
       1706695200000)
  = Some (1706695200000 + 31 * JsDate.msPerDay).
Proof.
  destruct (next_month_is_month_length 0 "Renew the pass next month" 1706695200000)
    as [H _].
  destruct H as [H _]; [reflexivity|]. exact H.
Defined.

(* ------------------------------------------------------------------ *)
(** ** Labels in order                                                 *)
(* ------------------------------------------------------------------ *)

Lemma string_compare_trans (a b c : string) :
  String.compare a b <> Gt -> String.compare b c <> Gt -> String.compare a c <> Gt.
Proof.
  revert b c. induction a as [|x a IH]; intros [|y b] [|z c];
    cbn [String.compare]; try congruence.
  unfold Ascii.compare.
  generalize (N_of_ascii x) (N_of_ascii y) (N_of_ascii z). intros nx ny nz.
  destruct (N.compare_spec nx ny) as [Hxy|Hxy|Hxy]; try congruence;
    destruct (N.compare_spec ny nz) as [Hyz|Hyz|Hyz]; try congruence;
    destruct (N.compare_spec nx nz) as [Hxz|Hxz|Hxz]; try congruence;
    try lia; try apply IH.
Qed.

Lemma insert_by_sorted_gen {A} (cmp : A -> A -> Z) (R : A -> A -> Prop)
    (x : A) (l : list A) :
  (forall a b, cmp a b <= 0 -> R a b) ->
  (forall a b, 0 < cmp a b -> R b a) ->
  (forall a b c, R a b -> R b c -> R a c) ->
  StronglySorted R l -> StronglySorted R (JsArray.insert_by cmp x l).
Proof.
  intros Hle Hgt Htr. induction 1 as [|y l Hl IH Hy]; cbn [JsArray.insert_by].
  - repeat constructor.
  - destruct (Z.leb_spec (cmp x y) 0) as [H|H].
    + constructor; [constructor; assumption|].
      constructor; [apply Hle, H|].
      eapply Forall_impl; [exact Hy|]. intros b Hb. eapply Htr; [apply Hle, H | exact Hb].
    + constructor; [exact IH|].
      rewrite insert_by_perm. constructor; [apply Hgt, H | exact Hy].
Qed.

Lemma sort_sorted_gen {A} (cmp : A -> A -> Z) (R : A -> A -> Prop) (l : list A) :
  (forall a b, cmp a b <= 0 -> R a b) ->
  (forall a b, 0 < cmp a b -> R b a) ->
  (forall a b c, R a b -> R b c -> R a c) ->
  StronglySorted R (JsArray.sort cmp l).
Proof.
  intros Hle Hgt Htr. unfold JsArray.sort. induction l as [|x l IH]; cbn [foldr].
  - constructor.
  - apply insert_by_sorted_gen; assumption.
Qed.

Lemma from_Set_NoDup (l : list string) : NoDup (JsArray.from_Set l).
Proof.
  unfold JsArray.from_Set.
  assert (H : forall acc, NoDup acc ->
             NoDup (foldl (fun acc y => if bool_decide (y ∈ acc) then acc else acc ++ [y])
                      acc l)).
  { induction l as [|y l IH]; intros acc Hacc; cbn [foldl]; [exact Hacc|].
    apply IH. case_bool_decide as Hy; [exact Hacc|].
    apply NoDup_app. split; [exact Hacc|]. split; [|apply NoDup_singleton].
    intros x Hx ->%list_elem_of_singleton. contradiction. }
  apply H, NoDup_nil_2.
Qed.

Lemma sorted_distinct_strict (l : list string) :
  StronglySorted (fun a b => String.compare a b <> Gt) l -> NoDup l ->
  StronglySorted string_lt l.
Proof.
  induction 1 as [|x l Hl IH Hx]; intros Hnd; [constructor|].
  apply NoDup_cons in Hnd as [Hnx Hnd]. constructor; [apply IH, Hnd|].
  rewrite Forall_forall in *. intros y Hy. specialize (Hx y Hy). unfold string_lt.
  destruct (String.compare x y) eqn:E; [|reflexivity|congruence].
  apply String.compare_eq_iff in E. subst y. contradiction.
Qed.

(** X10. The labels answered from the store are in strictly increasing
    order of the string comparison, so each label of a stored task
    appears exactly once, and no other string appears. *)
Theorem labels_sorted_distinct (f : Fetch (list string)) (onLine : bool) (w : World) :
  returns (try_json f) = false ->
  exists labels,
    (getLabels f onLine w).2 = Return labels /\
    StronglySorted string_lt labels /\
    forall x, x ∈ labels <-> exists t, t ∈ mockTasks w /\ Task.label t = x.
Proof.
  intros Hf. apply returns_false in Hf as [e He].
  unfold getLabels. rewrite He, handleApiError_eq. cbn [snd mockTasks setDemoMode send].
  eexists. split; [reflexivity|]. split.
  - apply sorted_distinct_strict.
    + apply sort_sorted_gen.
      * intros a b. unfold JsArray.compare_strings.
        destruct (String.compare a b); intros; [congruence | congruence | lia].
      * intros a b. unfold JsArray.compare_strings.
        rewrite (String.compare_antisym a b).
        destruct (String.compare b a); cbn; intros; [lia | congruence | lia].
      * apply string_compare_trans.
    + rewrite sort_perm. apply from_Set_NoDup.
  - intros x. rewrite sort_perm, from_Set_elem. split.
    + intros (t & -> & Ht)%list_elem_of_fmap. eauto.
    + intros (t & Ht & <-). apply list_elem_of_fmap_2, Ht.
Qed.

Lemma labels_sorted_distinct_witness :
  let down {A} : Fetch A := Rejects (JsError.mk "TypeError" "Failed to fetch" None) in
  let cs := [ CallCreateTask "Report for work" down true 10 10;
              CallCreateTask "See the doctor" down true 20 20;
              CallCreateTask "Meeting at work" down true 30 30 ] in
  let w := run (JsDate.fixedZone 0) (fun _ => None) cs (initial 0 0) in
  exists labels,
    (getLabels down true w).2 = Return labels /\
    StronglySorted string_lt labels /\ labels = ["health"; "personal"; "work"].
Proof.
  intros down cs w.
  destruct (labels_sorted_distinct (down _) true w) as (labels & H1 & H2 & _);
    [reflexivity|].
  exists labels. split; [exact H1|]. split; [exact H2|].
  vm_compute in H1. injection H1 as <-. reflexivity.
Defined.

(* ------------------------------------------------------------------ *)
(** ** The demo summary                                                *)
(* ------------------------------------------------------------------ *)

Lemma count_of_bump (k k' : string) (acc : list (string * Z)) :
  count_of k' (JsArray.bump k acc)
  = count_of k' acc + (if String.eqb k k' then 1 else 0).
Proof.
  induction acc as [|[k0 n] acc IH]; cbn [JsArray.bump count_of].
  - destruct (String.eqb k k'); lia.
  - destruct (String.eqb_spec k0 k) as [->|Hne]; cbn [count_of].
    + destruct (String.eqb k k'); lia.
    + destruct (String.eqb_spec k0 k') as [->|Hne'].
      * rewrite (proj2 (String.eqb_neq k k')) by congruence. lia.
      * exact IH.
Qed.

Lemma bump_keys (k : string) (acc : list (string * Z)) :
  (JsArray.bump k acc).*1 = if bool_decide (k ∈ acc.*1) then acc.*1 else acc.*1 ++ [k].
Proof.
  induction acc as [|[k0 n] acc IH]; cbn [JsArray.bump fmap list_fmap fst].
  - reflexivity.
  - destruct (String.eqb_spec k0 k) as [->|Hne]; cbn [fmap list_fmap fst].
    + rewrite bool_decide_eq_true_2 by apply list_elem_of_here. reflexivity.
    + fold (@fmap list _ _ _ (@fst string Z) (JsArray.bump k acc)).
      fold (@fmap list _ _ _ (@fst string Z) acc). rewrite IH.
      case_bool_decide as H1; case_bool_decide as H2; try reflexivity.
      * exfalso. apply H2. apply list_elem_of_further, H1.
      * exfalso. apply elem_of_cons in H2 as [->|H2]; [congruence | contradiction].
Qed.

Lemma bump_NoDup (k : string) (acc : list (string * Z)) :
  NoDup acc.*1 -> NoDup (JsArray.bump k acc).*1.
Proof.
  intros H. rewrite bump_keys. case_bool_decide as Hk; [exact H|].
  apply NoDup_app. split; [exact H|]. split; [|apply NoDup_singleton].
  intros x Hx ->%list_elem_of_singleton. contradiction.
Qed.

Lemma bump_sum (k : string) (acc : list (string * Z)) :
  sum_counts (JsArray.bump k acc) = sum_counts acc + 1.
Proof.
  unfold sum_counts.
  induction acc as [|[k0 n] acc IH]; cbn [JsArray.bump foldr snd]; [lia|].
  destruct (String.eqb k0 k); cbn [foldr snd]; lia.
Qed.

Lemma bump_positive (k : string) (acc : list (string * Z)) :
  Forall (fun kn => 1 <= kn.2) acc -> Forall (fun kn => 1 <= kn.2) (JsArray.bump k acc).
Proof.
  induction 1 as [|[k0 n] acc Hn Hacc IH]; cbn [JsArray.bump].
  - constructor; [cbn [snd]; lia | constructor].
  - destruct (String.eqb k0 k); constructor; cbn [snd] in *; try lia; assumption.
Qed.

Lemma count_label_snoc (k : string) (ts : list Task.t) (t : Task.t) :
  count_label k (ts ++ [t])
  = count_label k ts + (if String.eqb (Task.label t) k then 1 else 0).
Proof.
  unfold count_label. rewrite filter_app, length_app.
  destruct (String.eqb_spec (Task.label t) k) as [H|H].
  - rewrite filter_cons_True by exact H. cbn. lia.
  - rewrite filter_cons_False by exact H. cbn. lia.
Qed.

(** The counter table built by the [reduce] of [generateSummary]. *)
Lemma label_counts_spec (ts : list Task.t) :
  let counts := foldl (fun acc task => JsArray.bump (Task.label task) acc) [] ts in
  NoDup counts.*1 /\
  Forall (fun kn => 1 <= kn.2) counts /\
  sum_counts counts = Z.of_nat (length ts) /\
  forall k, count_of k counts = count_label k ts.
Proof.
  cbv zeta.
  assert (H : forall seen acc,
             NoDup acc.*1 /\ Forall (fun kn => 1 <= kn.2) acc /\
             sum_counts acc = Z.of_nat (length seen) /\
             (forall k, count_of k acc = count_label k seen) ->
             let counts := foldl (fun acc task => JsArray.bump (Task.label task) acc)
                             acc ts in
             NoDup counts.*1 /\ Forall (fun kn => 1 <= kn.2) counts /\
             sum_counts counts = Z.of_nat (length (seen ++ ts)) /\
             (forall k, count_of k counts = count_label k (seen ++ ts))).
  { induction ts as [|t ts IH]; intros seen acc (H1 & H2 & H3 & H4); cbn [foldl].
    - rewrite app_nil_r. auto.
    - replace (seen ++ t :: ts) with ((seen ++ [t]) ++ ts)
        by (rewrite <- app_assoc; reflexivity).
      apply IH. split; [apply bump_NoDup, H1|]. split; [apply bump_positive, H2|].
      split.
      + rewrite bump_sum, H3, length_app. cbn. lia.
      + intros k. rewrite count_of_bump, count_label_snoc, H4. reflexivity. }
  apply (H [] []). split; [apply NoDup_nil_2|]. split; [constructor|].
  split; reflexivity.
Qed.

Lemma count_of_elem (k : string) (n : Z) (acc : list (string * Z)) :
  NoDup acc.*1 -> (k, n) ∈ acc -> count_of k acc = n.
Proof.
  induction acc as [|[k0 m] acc IH]; intros Hnd Hin; [inversion Hin|].
  rewrite fmap_cons in Hnd. apply NoDup_cons in Hnd as [Hk0 Hnd].
  cbn [count_of]. apply elem_of_cons in Hin as [Heq|Hin].
  - injection Heq as -> ->. rewrite String.eqb_refl. reflexivity.
  - destruct (String.eqb_spec k0 k) as [->|Hne]; [|apply IH; assumption].
    exfalso. apply Hk0. apply (list_elem_of_fmap_2 fst) in Hin. exact Hin.
Qed.

(** X11. The demo summary counts the stored tasks whose creation time
    lies between the two dates, both ends included, and none when a date
    does not parse.  Its text is the fixed template filled with that
    total and one line per label: each label of a counted task once, with
    the number of counted tasks that carry it; the numbers add up to the
    total. *)
Theorem summary_counts (Date_parse : string -> option Z)
    (request : SummaryRequest.t) (f : Fetch SummaryResponse.t) (onLine : bool)
    (w : World) :
  let startDate := Date_parse (SummaryRequest.start_date request) in
  let endDate := Date_parse (SummaryRequest.end_date request) in
  let counted := List.filter (in_range startDate endDate) (mockTasks w) in
  returns (try_json_text f) = false ->
  exists r counts,
    (generateSummary Date_parse request f onLine w).2 = Return r /\
    SummaryResponse.task_count r = Z.of_nat (length counted) /\
    SummaryResponse.summary r = summary_text (Z.of_nat (length counted)) counts /\
    NoDup counts.*1 /\
    (forall k n, (k, n) ∈ counts -> n = count_label k counted /\ 1 <= n) /\
    (forall t, t ∈ counted -> (Task.label t, count_label (Task.label t) counted) ∈ counts) /\
    sum_counts counts = Z.of_nat (length counted) /\
    (forall t, t ∈ counted <->
       t ∈ mockTasks w /\ exists s e, startDate = Some s /\ endDate = Some e /\
                                      s <= Task.created_at t <= e).
Proof.
  intros startDate endDate counted Hf. apply returns_false in Hf as [e He].
  unfold generateSummary. rewrite He, handleApiError_eq.
  cbn [snd mockTasks setDemoMode send]. fold startDate endDate counted.
  destruct (label_counts_spec counted) as (H1 & H2 & H3 & H4).
  set (counts := foldl (fun acc task => JsArray.bump (Task.label task) acc) [] counted)
    in *.
  eexists _, counts. split; [reflexivity|]. cbn [SummaryResponse.task_count
    SummaryResponse.summary]. split; [reflexivity|]. split; [reflexivity|].
  split; [exact H1|]. split; [|split; [|split; [exact H3|]]].
  - intros k n Hin. rewrite <- H4, (count_of_elem k n counts H1 Hin).
    split; [reflexivity|]. rewrite Forall_forall in H2. apply (H2 (k, n) Hin).
  - intros t Ht.
    assert (Hc : 1 <= count_of (Task.label t) counts).
    { rewrite H4. unfold count_label.
      assert (t ∈ filter (fun u => Task.label u = Task.label t) counted)
        by (apply list_elem_of_filter; auto).
      destruct (filter _ counted); [inversion H | cbn; lia]. }
    rewrite <- H4. clear -Hc. induction counts as [|[k0 m] counts IH]; cbn in *; [lia|].
    destruct (String.eqb_spec k0 (Task.label t)) as [->|Hne].
    + apply list_elem_of_here.
    + apply list_elem_of_further, IH, Hc.
  - intros t. subst counted. rewrite list_elem_of_In, filter_In, <- list_elem_of_In.
    unfold in_range. destruct startDate as [s|], endDate as [e'|]; split;
      try (intros [_ H]; discriminate);
      try (intros (_ & s0 & e0 & H1' & H2' & _); discriminate).
    + intros [Ht Hr]. split; [exact Ht|]. exists s, e'.
      apply andb_true_iff in Hr as [Ha Hb]. apply Z.leb_le in Ha, Hb. auto.
    + intros (Ht & s0 & e0 & [= <-] & [= <-] & Hr). split; [exact Ht|].
      apply andb_true_iff. split; apply Z.leb_le; lia.
Qed.

Lemma summary_counts_witness :
  let down {A} : Fetch A := Rejects (JsError.mk "TypeError" "Failed to fetch" None) in
  let cs := [ CallCreateTask "Report for work" down true 10 10;
              CallCreateTask "Meeting at work" down true 20 20;
              CallCreateTask "See the doctor" down true 99 99 ] in
  let w := run (JsDate.fixedZone 0) (fun _ => None) cs (initial 0 0) in
  let parse s := if String.eqb s "from" then Some 5 else
                 if String.eqb s "to" then Some 50 else None in
  exists r,
    (generateSummary parse (SummaryRequest.mk "from" "to") down true w).2 = Return r /\
    SummaryResponse.task_count r = 2 /\
    SummaryResponse.summary r = summary_text 2 [("work", 2)].
Proof.
  intros down cs w parse.
  destruct (summary_counts parse (SummaryRequest.mk "from" "to") (down _) true w)
    as (r & counts & H1 & H2 & _); [reflexivity|].
  exists r. split; [exact H1|]. split; [exact H2|].
  vm_compute in H1. injection H1 as <-. reflexivity.
Defined.

(* ------------------------------------------------------------------ *)
(** ** The date-range filter                                           *)
(* ------------------------------------------------------------------ *)

Lemma setDate_from_other (LocalTZA : Z -> bool -> Z) (now startDate k : Z) :
  JsDate.setDate LocalTZA startDate (JsDate.getDate LocalTZA now - k)
  = Spec.days_later LocalTZA
      (JsDate.getDate LocalTZA now - JsDate.getDate LocalTZA startDate - k) startDate.
Proof.
  rewrite <- setDate_getDate_plus. f_equal. lia.
Qed.

Lemma filterTasksByDateRange_eq (LocalTZA : Z -> bool -> Z) (tasks : list Task.t)
    (dateRange : string) (now startDate : Z) :
  filterTasksByDateRange LocalTZA tasks dateRange now startDate
  = match window_days dateRange with
    | Some k =>
        filter (fun task =>
                  Spec.days_later LocalTZA
                    (JsDate.getDate LocalTZA now - JsDate.getDate LocalTZA startDate - k)
                    startDate <= Task.created_at task) tasks
    | None => tasks
    end.
Proof.
  unfold filterTasksByDateRange, window_days.
  destruct (String.eqb_spec dateRange "all") as [->|_]; [reflexivity|].
  repeat match goal with
         | |- context [String.eqb dateRange ?s] => destruct (String.eqb dateRange s)
         end; rewrite <- ?setDate_from_other; reflexivity.
Qed.

(** X12. When the two clock readings of the filter fall on the same day
    of the month, a range of [k] days keeps exactly the tasks created no
    earlier than the second reading's local wall-clock time [k] calendar
    days before, in their order; every string other than the four range
    selectors, ["all"] included, keeps the whole list. *)
Theorem date_range_keeps_recent (LocalTZA : Z -> bool -> Z) (tasks : list Task.t)
    (dateRange : string) (now startDate : Z) :
  JsDate.getDate LocalTZA now = JsDate.getDate LocalTZA startDate ->
  filterTasksByDateRange LocalTZA tasks dateRange now startDate
  = match window_days dateRange with
    | Some k =>
        filter (fun task =>
                  Spec.days_later LocalTZA (- k) startDate <= Task.created_at task) tasks
    | None => tasks
    end.
Proof.
  intros Hday. rewrite filterTasksByDateRange_eq.
  destruct (window_days dateRange) as [k|]; [|reflexivity].
  replace (JsDate.getDate LocalTZA now - JsDate.getDate LocalTZA startDate - k)
    with (- k) by lia.
  reflexivity.
Qed.

Lemma date_range_keeps_recent_witness :
  let t1 := new_task (JsDate.fixedZone 0) "Old report" 0 1000 2 in
  let t2 := new_task (JsDate.fixedZone 0) "New report" 0 (5 * JsDate.msPerDay) 3 in
  filterTasksByDateRange (JsDate.fixedZone 0) [t1; t2] "3d"
    (6 * JsDate.msPerDay) (6 * JsDate.msPerDay + 1) = [t2].
Proof.
  intros t1 t2.
  rewrite (date_range_keeps_recent (JsDate.fixedZone 0) [t1; t2] "3d"
             (6 * JsDate.msPerDay) (6 * JsDate.msPerDay + 1)) by reflexivity.
  reflexivity.
Defined.

(** X13. When the first reading falls on a later day of the month than
    the second one by more than the range (the readings lie on either
    side of a month's end), the cut-off is in the future: in a zone of
    constant offset every task that is kept was created at least a day
    after the second reading. *)
Theorem date_range_month_edge (off : Z) (tasks : list Task.t) (dateRange : string)
    (k now startDate : Z) (t : Task.t) :
  window_days dateRange = Some k ->
  k < JsDate.getDate (JsDate.fixedZone off) now
      - JsDate.getDate (JsDate.fixedZone off) startDate ->
  t ∈ filterTasksByDateRange (JsDate.fixedZone off) tasks dateRange now startDate ->
  startDate + JsDate.msPerDay <= Task.created_at t.
Proof.
  intros Hk Hlt. rewrite filterTasksByDateRange_eq, Hk.
  intros [Hle _]%list_elem_of_filter. rewrite days_later_fixedZone in Hle.
  unfold JsDate.msPerDay in *. nia.
Qed.

Lemma date_range_month_edge_witness :
  let now := 1706745599999 in
  let startDate := 1706745600000 in
  let t := new_task (JsDate.fixedZone 0) "Pay the rent" 0 (startDate + 23 * JsDate.msPerDay) 2 in
  let old := new_task (JsDate.fixedZone 0) "Call the bank" 0 (now - 1000) 3 in
  filterTasksByDateRange (JsDate.fixedZone 0) [old; t] "7d" now startDate = [t] /\
  startDate + JsDate.msPerDay <= Task.created_at t.
Proof.
  intros now startDate t old.
  assert (E : filterTasksByDateRange (JsDate.fixedZone 0) [old; t] "7d" now startDate = [t])
    by (vm_compute; reflexivity).
  split; [exact E|].
  apply (date_range_month_edge 0 [old; t] "7d" 7 now startDate t).
  - reflexivity.
  - vm_compute. reflexivity.
  - rewrite E. apply list_elem_of_here.
Defined.

(** X14. In a zone of constant offset the ranges nest: with the same
    clock readings, what a shorter range keeps is a sublist of what a
    longer range keeps, which is a sublist of the tasks given. *)
Theorem date_range_nested (off : Z) (tasks : list Task.t) (r1 r2 : string)
    (k1 k2 now startDate : Z) :
  window_days r1 = Some k1 -> window_days r2 = Some k2 -> k1 <= k2 ->
  sublist (filterTasksByDateRange (JsDate.fixedZone off) tasks r1 now startDate)
          (filterTasksByDateRange (JsDate.fixedZone off) tasks r2 now startDate) /\
  sublist (filterTasksByDateRange (JsDate.fixedZone off) tasks r2 now startDate) tasks.
Proof.
  intros H1 H2 Hle. rewrite !filterTasksByDateRange_eq, H1, H2.
  rewrite !days_later_fixedZone. split; [|apply sublist_filter].
  induction tasks as [|t ts IH]; [constructor|].
  rewrite !filter_cons.
  destruct (decide (_ <= Task.created_at t)) as [Ha|Ha];
    destruct (decide (_ <= Task.created_at t)) as [Hb|Hb].
  - apply sublist_skip, IH.
  - exfalso. apply Hb. unfold JsDate.msPerDay in *. nia.
  - apply sublist_cons, IH.
  - exact IH.
Qed.

Lemma date_range_nested_witness :
  let t1 := new_task (JsDate.fixedZone 0) "Old report" 0 (4 * JsDate.msPerDay) 2 in
  let t2 := new_task (JsDate.fixedZone 0) "New report" 0 (9 * JsDate.msPerDay) 3 in
  let now := 10 * JsDate.msPerDay in
  filterTasksByDateRange (JsDate.fixedZone 0) [t1; t2] "3d" now now = [t2] /\
  filterTasksByDateRange (JsDate.fixedZone 0) [t1; t2] "7d" now now = [t1; t2] /\
  sublist (filterTasksByDateRange (JsDate.fixedZone 0) [t1; t2] "3d" now now)
          (filterTasksByDateRange (JsDate.fixedZone 0) [t1; t2] "7d" now now).
Proof.
  intros t1 t2 now.
  split; [vm_compute; reflexivity|]. split; [vm_compute; reflexivity|].
  apply (date_range_nested 0 [t1; t2] "3d" "7d" 3 7 now now); [reflexivity| reflexivity | lia].
Defined.

(* ------------------------------------------------------------------ *)
(** ** Dates as text                                                   *)
(* ------------------------------------------------------------------ *)

Section IsoText.
Import JsDate JsDateText.

Lemma append_empty_r (s : string) : s +:+ "" = s.
Proof. induction s as [|c s IH]; [reflexivity|]. rewrite append_String, IH. reflexivity. Qed.

Lemma digit_value_digit (d : Z) : 0 <= d < 10 -> digit_value (digit d) = Some d.
Proof.
  intros H.
  assert (d = 0 \/ d = 1 \/ d = 2 \/ d = 3 \/ d = 4 \/ d = 5 \/ d = 6 \/ d = 7 \/
          d = 8 \/ d = 9) as Hd by lia.
  repeat destruct Hd as [->|Hd]; try subst d; reflexivity.
Qed.

Lemma take_number_pad (k : nat) (acc n : Z) (rest : string) :
  take_number k acc (pad k n +:+ rest)
  = Some (acc * 10 ^ Z.of_nat k + n `mod` 10 ^ Z.of_nat k, rest).
Proof.
  revert acc. induction k as [|k IH]; intros acc.
  - cbn [take_number pad]. rewrite append_Empty. f_equal. f_equal.
    change (10 ^ Z.of_nat 0) with 1. rewrite Z.mod_1_r. lia.
  - cbn [take_number pad]. rewrite append_String.
    rewrite digit_value_digit by (apply Z.mod_pos_bound; lia).
    rewrite IH. f_equal. f_equal.
    rewrite Nat2Z.inj_succ, Z.pow_succ_r by lia.
    assert (Hp : 0 < 10 ^ Z.of_nat k) by (apply Z.pow_pos_nonneg; lia).
    rewrite (Z.mul_comm 10 (10 ^ Z.of_nat k)).
    rewrite (Z.rem_mul_r n (10 ^ Z.of_nat k) 10) by lia.
    lia.
Qed.

Lemma take_number_pad_small (k : nat) (n : Z) (rest : string) :
  0 <= n < 10 ^ Z.of_nat k ->
  take_number k 0 (pad k n +:+ rest) = Some (n, rest).
Proof.
  intros H. rewrite take_number_pad, Z.mod_small by exact H. reflexivity.
Qed.

Lemma take_char_append (c : ascii) (rest : string) :
  take_char c (String c "" +:+ rest) = Some rest.
Proof.
  rewrite append_String, append_Empty. cbn [take_char]. rewrite Ascii.eqb_refl. reflexivity.
Qed.

Lemma time_fields (t : Z) :
  MakeTime (HourFromTime t) (MinFromTime t) (SecFromTime t) (msFromTime t)
  = TimeWithinDay t.
Proof.
  unfold MakeTime, HourFromTime, MinFromTime, SecFromTime, msFromTime, TimeWithinDay,
    msPerDay.
  Z.div_mod_to_equations. lia.
Qed.

Lemma minute_fields (t : Z) :
  MakeTime (HourFromTime t) (MinFromTime t) 0 0 = TimeWithinDay t - t `mod` 60000.
Proof.
  unfold MakeTime, HourFromTime, MinFromTime, TimeWithinDay, msPerDay.
  Z.div_mod_to_equations. lia.
Qed.

Lemma time_fields_range (t : Z) :
  0 <= HourFromTime t < 24 /\ 0 <= MinFromTime t < 60 /\
  0 <= SecFromTime t < 60 /\ 0 <= msFromTime t < 1000.
Proof.
  unfold HourFromTime, MinFromTime, SecFromTime, msFromTime.
  repeat split; apply Z.mod_pos_bound; lia.
Qed.

Lemma day_fields (t : Z) :
  MakeDay (YearFromTime t) (MonthFromTime t + 1 - 1) (DateFromTime t) = Day t.
Proof.
  unfold MakeDay, DateFromTime, DayWithinYear, InLeapYear.
  pose proof (MonthFromTime_range t) as Hm.
  replace (MonthFromTime t + 1 - 1) with (MonthFromTime t) by lia.
  rewrite (Z.div_small (MonthFromTime t) 12), (Z.mod_small (MonthFromTime t) 12) by lia.
  rewrite Z.add_0_r. lia.
Qed.

Lemma Day_TimeWithinDay (t : Z) : MakeDate (Day t) (TimeWithinDay t) = t.
Proof.
  unfold MakeDate, Day, TimeWithinDay, msPerDay. Z.div_mod_to_equations. lia.
Qed.

Lemma four_digit_year_spec (t : Z) :
  four_digit_year t -> 1970 <= YearFromTime t <= 9999.
Proof.
  unfold four_digit_year, YearFromTime. intros H.
  pose proof (YearFromDay_spec (Day t)) as Hy.
  assert (Hd : 0 <= Day t < 2932897).
  { unfold Day, msPerDay. Z.div_mod_to_equations. lia. }
  revert Hy. generalize (YearFromDay (Day t)). intros y.
  unfold DayFromYear. Z.div_mod_to_equations. lia.
Qed.

(** The text [toISOString] writes for a four-digit year, and its first
    16 characters. *)
Lemma toISOString_four_digit (t : Z) :
  four_digit_year t ->
  toISOString t
  = pad 4 (YearFromTime t) +:+ "-" +:+ pad 2 (MonthFromTime t + 1) +:+ "-" +:+
    pad 2 (DateFromTime t) +:+ "T" +:+ pad 2 (HourFromTime t) +:+ ":" +:+
    pad 2 (MinFromTime t) +:+ ":" +:+ pad 2 (SecFromTime t) +:+ "." +:+
    pad 3 (msFromTime t) +:+ "Z".
Proof.
  intros H%four_digit_year_spec. unfold toISOString.
  destruct (Z.leb_spec 0 (YearFromTime t)); [|lia].
  destruct (Z.leb_spec (YearFromTime t) 9999); [|lia].
  reflexivity.
Qed.

Lemma minute_text (t : Z) :
  four_digit_year t ->
  JsString.substring0 16 (toISOString t)
  = pad 4 (YearFromTime t) +:+ "-" +:+ pad 2 (MonthFromTime t + 1) +:+ "-" +:+
    pad 2 (DateFromTime t) +:+ "T" +:+ pad 2 (HourFromTime t) +:+ ":" +:+
    pad 2 (MinFromTime t).
Proof.
  intros H. rewrite (toISOString_four_digit t H).
  cbn [pad]. rewrite !append_String, !append_Empty. reflexivity.
Qed.

Lemma read_fields (t : Z) :
  four_digit_year t ->
  0 <= YearFromTime t < 10 ^ Z.of_nat 4 /\
  0 <= MonthFromTime t + 1 < 10 ^ Z.of_nat 2 /\
  0 <= DateFromTime t < 10 ^ Z.of_nat 2 /\
  0 <= HourFromTime t < 10 ^ Z.of_nat 2 /\
  0 <= MinFromTime t < 10 ^ Z.of_nat 2 /\
  0 <= SecFromTime t < 10 ^ Z.of_nat 2 /\
  0 <= msFromTime t < 10 ^ Z.of_nat 3.
Proof.
  intros Hy%four_digit_year_spec.
  pose proof (MonthFromTime_range t). pose proof (DateFromTime_range t).
  pose proof (time_fields_range t) as (? & ? & ? & ?).
  change (10 ^ Z.of_nat 4) with 10000. change (10 ^ Z.of_nat 2) with 100.
  change (10 ^ Z.of_nat 3) with 1000. lia.
Qed.

(** Reading back what [toISOString] wrote gives the time value. *)
Lemma read_toISOString (LocalTZA : Z -> bool -> Z) (t : Z) :
  four_digit_year t -> read LocalTZA (toISOString t) = Some t.
Proof.
  intros H. rewrite (toISOString_four_digit t H).
  destruct (read_fields t H) as (Hy & Hmo & Hd & Hh & Hmi & Hs & Hms).
  unfold read.
  rewrite (take_number_pad_small 4 _ _ Hy). cbn [mbind option_bind].
  rewrite take_char_append. cbn [mbind option_bind].
  rewrite (take_number_pad_small 2 _ _ Hmo). cbn [mbind option_bind].
  rewrite take_char_append. cbn [mbind option_bind].
  rewrite (take_number_pad_small 2 _ _ Hd). cbn [mbind option_bind].
  rewrite take_char_append. cbn [mbind option_bind].
  rewrite (take_number_pad_small 2 _ _ Hh). cbn [mbind option_bind].
  rewrite take_char_append. cbn [mbind option_bind].
  rewrite (take_number_pad_small 2 _ _ Hmi). cbn [mbind option_bind].
  rewrite (append_String ":" ""), append_Empty.
  cbn [take_char mbind option_bind]. rewrite Ascii.eqb_refl. cbn [mbind option_bind].
  rewrite (take_number_pad_small 2 _ _ Hs). cbn [mbind option_bind].
  rewrite take_char_append. cbn [mbind option_bind].
  rewrite (take_number_pad_small 3 _ _ Hms). cbn [mbind option_bind].
  rewrite String.eqb_refl, day_fields, time_fields, Day_TimeWithinDay. reflexivity.
Qed.

(** Reading the first 16 characters as local time gives the time value
    at which the local clock shows the UTC fields of [t], seconds
    dropped. *)
Lemma read_minute_text (LocalTZA : Z -> bool -> Z) (t : Z) :
  four_digit_year t ->
  read LocalTZA (JsString.substring0 16 (toISOString t))
  = Some (UTC LocalTZA (t - t `mod` 60000)).
Proof.
  intros H. rewrite (minute_text t H).
  destruct (read_fields t H) as (Hy & Hmo & Hd & Hh & Hmi & _).
  unfold read.
  rewrite (take_number_pad_small 4 _ _ Hy). cbn [mbind option_bind].
  rewrite take_char_append. cbn [mbind option_bind].
  rewrite (take_number_pad_small 2 _ _ Hmo). cbn [mbind option_bind].
  rewrite take_char_append. cbn [mbind option_bind].
  rewrite (take_number_pad_small 2 _ _ Hd). cbn [mbind option_bind].
  rewrite take_char_append. cbn [mbind option_bind].
  rewrite (take_number_pad_small 2 _ _ Hh). cbn [mbind option_bind].
  rewrite take_char_append. cbn [mbind option_bind].
  rewrite <- (append_empty_r (pad 2 (MinFromTime t))).
  rewrite (take_number_pad_small 2 _ _ Hmi). cbn [mbind option_bind].
  rewrite day_fields, minute_fields. do 2 f_equal.
  pose proof (Day_TimeWithinDay t) as E. unfold MakeDate in *. lia.
Qed.

End IsoText.
Lemma window_days_cases (range : string) :
  window_days range = Some 1 \/ window_days range = Some 3 \/
  window_days range = Some 7 \/ window_days range = Some 30 \/
  window_days range = None.
Proof.
  unfold window_days.
  repeat match goal with
         | |- context [String.eqb range ?s] => destruct (String.eqb range s)
         end; auto.
Qed.

Lemma getDateRangeValues_eq (range : string) (now : Z) :
  getDateRangeValues range now
  = {| DateRangeValues.start :=
         JsString.substring0 16
           (JsDateText.toISOString
              (now - default 30 (window_days range) * JsDate.msPerDay));
       DateRangeValues.end_ := JsString.substring0 16 (JsDateText.toISOString now) |}.
Proof.
  unfold getDateRangeValues, window_days, JsDate.msPerDay.
  repeat match goal with
         | |- context [String.eqb range ?s] => destruct (String.eqb range s)
         end; reflexivity.
Qed.

Lemma window_days_range (range : string) : 1 <= default 30 (window_days range) <= 30.
Proof.
  destruct (window_days_cases range) as [H|[H|[H|[H|H]]]]; rewrite H; cbn; lia.
Qed.

(** X15. For a clock reading from 1970-01-31 to the end of the year
    9999, the two texts of a quick range are UTC clock readings to the
    minute: [end] is the reading of [now] with its seconds dropped, and
    [start] is the reading exactly [k] days earlier, where [k] is 1, 3, 7
    or 30 for the four selectors and 30 for every other string. *)
Theorem quick_range_values (range : string) (now : Z) :
  30 * JsDate.msPerDay <= now < 253402300800000 ->
  let v := getDateRangeValues range now in
  let k := default 30 (window_days range) in
  let m := now - now `mod` 60000 in
  JsDateText.read (JsDate.fixedZone 0) (DateRangeValues.end_ v) = Some m /\
  JsDateText.read (JsDate.fixedZone 0) (DateRangeValues.start v)
    = Some (m - k * JsDate.msPerDay).
Proof.
  intros Hnow v k m. subst v. rewrite getDateRangeValues_eq.
  cbn [DateRangeValues.start DateRangeValues.end_]. fold k.
  pose proof (window_days_range range) as Hk. fold k in Hk.
  unfold JsDate.msPerDay in *.
  rewrite !read_minute_text by (unfold four_digit_year; lia).
  unfold JsDate.UTC, JsDate.fixedZone. subst m.
  split; f_equal; Z.div_mod_to_equations; lia.
Qed.

Lemma quick_range_values_witness :
  let v := getDateRangeValues "7d" 1718706612345 in
  DateRangeValues.end_ v = "2024-06-18T10:30" /\
  DateRangeValues.start v = "2024-06-11T10:30" /\
  JsDateText.read (JsDate.fixedZone 0) (DateRangeValues.end_ v) = Some 1718706600000 /\
  JsDateText.read (JsDate.fixedZone 0) (DateRangeValues.start v)
    = Some (1718706600000 - 7 * JsDate.msPerDay).
Proof.
  intros v. split; [vm_compute; reflexivity|]. split; [vm_compute; reflexivity|].
  apply (quick_range_values "7d" 1718706612345). unfold JsDate.msPerDay. lia.
Defined.

Lemma minute_text_nonempty (t : Z) :
  four_digit_year t ->
  String.eqb (JsString.substring0 16 (JsDateText.toISOString t)) "" = false.
Proof.
  intros H. rewrite (minute_text t H). cbn [JsDateText.pad].
  rewrite append_String. reflexivity.
Qed.

Lemma filter_in_range (s e : Z) (l : list Task.t) :
  List.filter (in_range (Some s) (Some e)) l
  = filter (fun t => s <= Task.created_at t <= e) l.
Proof.
  induction l as [|t l IH]; [reflexivity|].
  rewrite filter_cons. cbn [List.filter in_range]. rewrite IH.
  destruct (decide (s <= Task.created_at t <= e)) as [H|H].
  - destruct H as [H1 H2]. apply Z.leb_le in H1, H2. rewrite H1, H2. reflexivity.
  - destruct (Z.leb_spec s (Task.created_at t)); [|reflexivity].
    destruct (Z.leb_spec (Task.created_at t) e); [|reflexivity].
    exfalso. apply H. lia.
Qed.

(** X16. A quick range followed by [Generate Summary] while the backend
    is unreachable, on a host whose local time is UTC plus a constant
    [off]: the texts written in UTC are read back as local time, so the
    demo summary counts the stored tasks created between
    [m - k days - off] and [m - off], where [m] is the clock reading with
    its seconds dropped (both bounds within the years 1970 to 9999).  A
    task created after [m - off] is not counted, and the store is left
    as it was.  The host's [Date.parse] enters through the two facts
    ECMAScript fixes: it reads back what [toISOString] wrote, and it
    reads a date-time text without offset as local time. *)
Theorem quick_range_summary_window (off : Z) (Date_parse : string -> option Z)
    (range : string) (now : Z) (f : Fetch SummaryResponse.t) (onLine : bool)
    (s : SummaryForm.t) (w : World) :
  let k := default 30 (window_days range) in
  let m := now - now `mod` 60000 in
  let first := m - k * JsDate.msPerDay - off in
  let last := m - off in
  (forall t, four_digit_year t -> Date_parse (JsDateText.toISOString t) = Some t) ->
  (forall t, four_digit_year t ->
     Date_parse (JsString.substring0 16 (JsDateText.toISOString t))
     = Some (JsDate.UTC (JsDate.fixedZone off) (t - t `mod` 60000))) ->
  range <> "custom" ->
  returns (try_json_text f) = false ->
  30 * JsDate.msPerDay <= now < 253402300800000 ->
  four_digit_year first -> four_digit_year last ->
  let r := handleGenerateSummary Date_parse f onLine (handleQuickRange range now s) w in
  exists data,
    SummaryForm.summaryData r.1 = Some data /\
    SummaryResponse.task_count data
    = Z.of_nat (length (filter (fun t => first <= Task.created_at t <= last)
                               (mockTasks w))) /\
    mockTasks r.2 = mockTasks w.
Proof.
  intros k m first last Hiso Hlocal Hrange Hf Hnow Hfirst Hlast r.
  pose proof (window_days_range range) as Hk. fold k in Hk.
  assert (H1 : four_digit_year (now - k * JsDate.msPerDay))
    by (unfold four_digit_year, JsDate.msPerDay in *; lia).
  assert (H2 : four_digit_year now)
    by (unfold four_digit_year, JsDate.msPerDay in *; lia).
  assert (Hs : Date_parse (JsString.substring0 16
                 (JsDateText.toISOString (now - k * JsDate.msPerDay))) = Some first).
  { rewrite Hlocal by exact H1.
    unfold JsDate.UTC, JsDate.fixedZone. f_equal. subst first m.
    unfold JsDate.msPerDay. Z.div_mod_to_equations. lia. }
  assert (He : Date_parse (JsString.substring0 16 (JsDateText.toISOString now)) = Some last).
  { rewrite Hlocal by exact H2. reflexivity. }
  pose proof (minute_text_nonempty _ H1) as Ha.
  pose proof (minute_text_nonempty _ H2) as Hb.
  apply returns_false in Hf as [e Hf].
  subst r. unfold handleQuickRange.
  destruct (String.eqb_spec range "custom") as [?|_]; [contradiction|].
  rewrite getDateRangeValues_eq. fold k.
  unfold handleGenerateSummary, reformat.
  cbn [SummaryForm.startDate SummaryForm.endDate SummaryForm.summaryData
       SummaryForm.isGenerating DateRangeValues.start DateRangeValues.end_].
  rewrite Ha, Hb, Hs, He. cbn [orb].
  unfold generateSummary. rewrite Hf, handleApiError_eq.
  cbn [fst snd mockTasks setDemoMode send SummaryRequest.start_date
       SummaryRequest.end_date SummaryResponse.task_count SummaryForm.summaryData].
  rewrite (Hiso first Hfirst), (Hiso last Hlast).
  eexists. split; [reflexivity|].
  cbn [SummaryResponse.task_count]. rewrite filter_in_range. split; reflexivity.
Qed.
Lemma quick_range_summary_window_witness :
  let off := 7200000 in
  let now := 1718706612345 in
  let down {A} : Fetch A := Rejects (JsError.mk "TypeError" "Failed to fetch" None) in
  let w := run (JsDate.fixedZone off) (JsDateText.read (JsDate.fixedZone off))
             [ CallCreateTask "Report for work" down true 0 (now - 3 * JsDate.msPerDay);
               CallCreateTask "See the doctor" down true 0 (now - 3600000) ]
             (initial 0 0) in
  let s := SummaryForm.mk "" "" None false in
  let r := handleGenerateSummary (JsDateText.read (JsDate.fixedZone off)) down true
             (handleQuickRange "7d" now s) w in
  exists data,
    SummaryForm.summaryData r.1 = Some data /\ SummaryResponse.task_count data = 1.
Proof.
  intros off now down w s r.
  destruct (quick_range_summary_window off (JsDateText.read (JsDate.fixedZone off))
              "7d" now (down _) true s w) as (data & H1 & H2 & _).
  - intros t Ht. apply read_toISOString, Ht.
  - intros t Ht. apply read_minute_text, Ht.
  - discriminate.
  - reflexivity.
  - vm_compute. split; [discriminate | reflexivity].
  - vm_compute. split; [discriminate | reflexivity].
  - vm_compute. split; [discriminate | reflexivity].
  - exists data. split; [exact H1|]. rewrite H2. vm_compute. reflexivity.
Defined.

(* ------------------------------------------------------------------ *)
(** ** The dialogs                                                     *)
(* ------------------------------------------------------------------ *)





Lemma updateTask_failed (LocalTZA : Z -> bool -> Z) (id : Z) (d : string)
    (f : Fetch Task.t) (onLine : bool) (now now' : Z) (w : World) :
  returns (try_json_text f) = false ->
  match list_find (fun task => Task.id task = id) (mockTasks w) with
  | None =>
      (exists e, (updateTask LocalTZA id d f onLine now now' w).2 = Throw e) /\
      mockTasks (updateTask LocalTZA id d f onLine now now' w).1 = mockTasks w
  | Some (i, old) =>
      (updateTask LocalTZA id d f onLine now now' w).2
      = Return (updated_task LocalTZA old d now now') /\
      mockTasks (updateTask LocalTZA id d f onLine now now' w).1
      = <[i := updated_task LocalTZA old d now now']> (mockTasks w)
  end.
Proof.
  intros Hf. apply returns_false in Hf as [e He].
  unfold updateTask. rewrite He, handleApiError_eq. cbn [mockTasks setDemoMode send].
  destruct (list_find _ _) as [[i old]|]; cbn [fst snd mockTasks set_store]; eauto.
Qed.

(** X18. Saving an edit while the backend is unreachable: when the
    local store holds a task with the edited task's identifier, the edit
    dialog closes, [onTaskUpdated] is called and the store keeps its
    size; when it holds none (the task was listed by the backend), the
    dialog stays open on the same task, [onTaskUpdated] is not called
    and the store is unchanged. *)
Theorem edit_dialog_outcome (LocalTZA : Z -> bool -> Z) (f : Fetch Task.t)
    (onLine : bool) (now now' : Z) (e : Editor.t) (w : World) (task : Task.t) :
  Editor.editingTask e = Some task ->
  returns (try_json_text f) = false ->
  let r := handleUpdate LocalTZA f onLine now now' e w in
  if bool_decide (Task.id task ∈ map Task.id (mockTasks w))
  then Editor.editingTask r.1.1 = None /\ r.2 = true /\
       length (mockTasks r.1.2) = length (mockTasks w)
  else Editor.editingTask r.1.1 = Some task /\ r.2 = false /\
       mockTasks r.1.2 = mockTasks w.
Proof.
  intros He Hf r. subst r. unfold handleUpdate. rewrite He.
  pose proof (updateTask_failed LocalTZA (Task.id task) (Editor.editDescription e)
                f onLine now now' w Hf) as H.
  case_bool_decide as Hin.
  - apply find_present in Hin as (i & t & Hfind & _). rewrite Hfind in H.
    destruct H as [H1 H2]. rewrite H1. cbn [fst snd Editor.editingTask].
    rewrite H2, length_insert. auto.
  - apply find_absent in Hin. rewrite Hin in H. destruct H as [[err H1] H2].
    rewrite H1. cbn [fst snd Editor.editingTask]. rewrite H2. auto.
Qed.

Lemma edit_dialog_outcome_witness :
  let down : Fetch Task.t := Rejects (JsError.mk "TypeError" "Failed to fetch" None) in
  let task := Task.mk 41 "Remote" "Remote task" "work" None 5 5 in
  let e := handleEdit task (Editor.mk None "" false None) in
  let r := handleUpdate (JsDate.fixedZone 0) down true 10 11 e (initial 0 0) in
  Editor.editingTask r.1.1 = Some task /\ r.2 = false /\
  mockTasks r.1.2 = mockTasks (initial 0 0).
Proof.
  intros down task e r.
  exact (edit_dialog_outcome (JsDate.fixedZone 0) down true 10 11 e (initial 0 0) task
           eq_refl eq_refl).
Defined.

(* ------------------------------------------------------------------ *)
(** ** The page                                                        *)
(* ------------------------------------------------------------------ *)

Lemma lower_upper_char (c : ascii) :
  JsString.lower_char (JsString.upper_char c) = JsString.lower_char c.
Proof.
  destruct c as [[] [] [] [] [] [] [] []]; reflexivity.
Qed.

Lemma toLowerCase_toUpperCase (s : string) :
  JsString.toLowerCase (JsString.toUpperCase s) = JsString.toLowerCase s.
Proof.
  unfold JsString.toLowerCase, JsString.toUpperCase.
  induction s as [|c s IH]; cbn [JsString.map_chars]; [reflexivity|].
  rewrite lower_upper_char, IH. reflexivity.
Qed.

Lemma includes_empty (s : string) : JsString.includes s "" = true.
Proof. destruct s; reflexivity. Qed.

Lemma includes_self (s : string) : JsString.includes s s = true.
Proof.
  apply includes_iff. exists "", "". rewrite append_Empty, append_empty_r. reflexivity.
Qed.

(** X20. The search box, on ASCII text (query, titles and descriptions):
    an empty query keeps every task shown; a query written in capitals
    keeps what the query itself keeps; every task is found by its own
    title written in capitals; and what is kept is a sublist of the
    tasks shown. *)
Theorem search_ignores_case (p : Page.t) (q : string) :
  JsString.is_ascii q = true ->
  Forall (fun t => JsString.is_ascii (Task.title t) = true /\
                   JsString.is_ascii (Task.description t) = true) (Page.tasks p) ->
  filteredTasks (setSearchQuery "" p) = Page.tasks p /\
  filteredTasks (setSearchQuery (JsString.toUpperCase q) p)
  = filteredTasks (setSearchQuery q p) /\
  (forall t, t ∈ Page.tasks p ->
     t ∈ filteredTasks (setSearchQuery (JsString.toUpperCase (Task.title t)) p)) /\
  sublist (filteredTasks (setSearchQuery q p)) (Page.tasks p).
Proof.
  intros _ _.
  unfold filteredTasks. cbn [setSearchQuery Page.searchQuery Page.tasks].
  split; [|split; [|split]].
  - induction (Page.tasks p) as [|t l IH]; [reflexivity|].
    cbn [List.filter]. change (JsString.toLowerCase "") with "".
    rewrite includes_empty. cbn [orb]. f_equal. exact IH.
  - rewrite toLowerCase_toUpperCase. reflexivity.
  - intros t Ht. rewrite toLowerCase_toUpperCase.
    apply list_elem_of_In, filter_In. split; [apply list_elem_of_In, Ht|].
    rewrite includes_self. reflexivity.
  - induction (Page.tasks p) as [|t l IH]; [constructor|].
    cbn [List.filter]. destruct (_ || _); [apply sublist_skip | apply sublist_cons]; exact IH.
Qed.

Lemma search_ignores_case_witness :
  let t1 := Task.mk 1 "Buy milk" "Buy milk tomorrow" "shopping" None 0 0 in
  let t2 := Task.mk 2 "Quarterly report" "Finish the report" "work" None 1 1 in
  let p := Page.mk [t1; t2] [t1; t2] [] "all" "all" "" false false "" false in
  filteredTasks (setSearchQuery "REPORT" p) = [t2] /\
  filteredTasks (setSearchQuery "REPORT" p) = filteredTasks (setSearchQuery "report" p) /\
  filteredTasks (setSearchQuery "" p) = [t1; t2].
Proof.
  intros t1 t2 p.
  destruct (search_ignores_case p "report") as (H1 & H2 & _).
  - reflexivity.
  - repeat constructor.
  - split; [vm_compute; reflexivity|]. split; [exact H2 | exact H1].
Defined.

Lemma getTasks_returns (label : option string) (s l : Z) (f : Fetch TaskList)
    (onLine : bool) (w : World) :
  exists data, (getTasks label s l f onLine w).2 = Return data.
Proof.
  unfold getTasks, getTasks_settled. destruct (isDemoMode w); [eauto|].
  destruct (try_json f) as [data|e]; [eauto|]. rewrite handleApiError_eq. eauto.
Qed.

Lemma getLabels_returns (f : Fetch (list string)) (onLine : bool) (w : World) :
  exists data, (getLabels f onLine w).2 = Return data.
Proof.
  unfold getLabels. destruct (try_json f) as [data|e]; [eauto|].
  rewrite handleApiError_eq. eauto.
Qed.

Lemma fetchTasks_world (f : Fetch TaskList) (onLine : bool) (p : Page.t) (w : World) :
  (fetchTasks f onLine p w).2
  = (getTasks (if negb (String.eqb (Page.selectedLabel p) "all")
               then Some (Page.selectedLabel p) else None) 0 50 f onLine w).1.
Proof.
  unfold fetchTasks. destruct (getTasks _ _ _ _ _ _).2; reflexivity.
Qed.

Lemma fetchLabels_world (f : Fetch (list string)) (onLine : bool) (p : Page.t) (w : World) :
  (fetchLabels f onLine p w).2 = (getLabels f onLine w).1.
Proof.
  unfold fetchLabels. destruct (getLabels _ _ _).2; reflexivity.
Qed.

Lemma getTasks_answer (label : option string) (s l : Z) (f : Fetch TaskList)
    (onLine : bool) (w : World) :
  (getTasks label s l f onLine w).2
  = match try_json f with
    | Return answer =>
        if isDemoMode w then Return (mockTaskList label w) else Return answer
    | Throw _ => Return (mockTaskList label w)
    end.
Proof.
  unfold getTasks, getTasks_settled.
  destruct (isDemoMode w); [destruct (try_json f); reflexivity|].
  destruct (try_json f) as [answer|e]; [reflexivity|].
  rewrite handleApiError_eq. reflexivity.
Qed.

(** X21. After [fetchTasks] and the render that follows it, from a world
    that satisfies the mode invariant (the gateway's two flags agree):
    [allTasks] holds the tasks of the answer of [getTasks], which are the
    backend's when demo mode was off and the remote call succeeded, and
    otherwise the stored tasks the label filter keeps, newest first; the
    tasks shown are those, filtered by the selected date range at the
    clock readings of the effect; the page's demo flag and reason are
    the gateway's, the loading mark is off, and the connection notice is
    not displayed. *)
Theorem fetchTasks_syncs_banner (LocalTZA : Z -> bool -> Z) (f : Fetch TaskList)
    (onLine : bool) (now startDate : Z) (p : Page.t) (w : World) :
  ModeInv w ->
  let label :=
    if negb (String.eqb (Page.selectedLabel p) "all") then Some (Page.selectedLabel p)
    else None in
  let r := fetchTasks_rendered LocalTZA f onLine now startDate p w in
  exists data,
    (getTasks label 0 50 f onLine w).2 = Return data /\
    (isDemoMode w = false -> forall answer, try_json f = Return answer ->
     data = answer) /\
    (isDemoMode w = true \/ returns (try_json f) = false ->
     tasks data ≡ₚ List.filter (kept_by label) (mockTasks w) /\
     StronglySorted newer_first (tasks data)) /\
    Page.allTasks r.1 = tasks data /\
    Page.tasks r.1
    = filterTasksByDateRange LocalTZA (tasks data) (Page.selectedDateRange p)
        now startDate /\
    Page.isDemoMode r.1 = isDemoMode r.2 /\
    Page.demoModeReason r.1 = demoModeReason r.2 /\
    Page.isLoading r.1 = false /\
    connection_notice r.1 r.2 = false.
Proof.
  intros Hw label r.
  pose proof (exec_ModeInv (fun _ _ => 0) (fun _ => None)
                (CallGetTasks label 0 50 f onLine) w Hw) as [Hflags _].
  cbn [exec] in Hflags.
  destruct (getTasks_returns label 0 50 f onLine w) as [data Hd].
  exists data. split; [exact Hd|].
  assert (Hlocal : (getTasks label 0 50 f onLine w).2 = Return (mockTaskList label w) ->
                   tasks data ≡ₚ List.filter (kept_by label) (mockTasks w) /\
                   StronglySorted newer_first (tasks data)).
  { intros E. rewrite Hd in E. injection E as ->.
    destruct (mockTaskList_spec label w) as (Hp & _).
    rewrite filter_kept_by in Hp. split; [exact Hp | apply mockTaskList_sorted]. }
  split; [|split].
  - intros Hoff answer Ha. pose proof (getTasks_answer label 0 50 f onLine w) as E.
    rewrite Ha, Hoff, Hd in E. congruence.
  - intros Hcase. apply Hlocal. rewrite getTasks_answer.
    destruct Hcase as [Hon|Hfail].
    + rewrite Hon. destruct (try_json f); reflexivity.
    + apply returns_false in Hfail as [e ->]. reflexivity.
  - subst r. unfold fetchTasks_rendered, connection_notice. fold label. rewrite Hd.
    cbn [fst snd]. rewrite fetchTasks_world. fold label.
    unfold fetchTasks. fold label. rewrite Hd.
    cbn [fst snd dateRangeEffect Page.isDemoMode Page.demoModeReason Page.isLoading
         Page.tasks Page.allTasks Page.selectedDateRange].
    rewrite Hflags. repeat split. apply andb_negb_l.
Qed.

Lemma fetchTasks_syncs_banner_witness :
  let down {A} : Fetch A := Rejects (JsError.mk "TypeError" "Failed to fetch" None) in
  let now := 10 * JsDate.msPerDay in
  let w := run (JsDate.fixedZone 0) (fun _ => None)
             [ CallCreateTask "Buy milk" down true now now ] (initial 0 0) in
  let p := Page.mk [] [] [] "all" "3d" "" true false "" false in
  let r := fetchTasks_rendered (JsDate.fixedZone 0) down true now now p w in
  Page.isDemoMode r.1 = true /\
  Page.demoModeReason r.1 = "Backend server connection failed" /\
  Task.id <$> Page.allTasks r.1 = [2; 1] /\
  Task.id <$> Page.tasks r.1 = [2].
Proof.
  intros down now w p r.
  destruct (fetchTasks_syncs_banner (JsDate.fixedZone 0) (down _) true now now p w)
    as (data & _ & _ & _ & _ & _ & H1 & H2 & _).
  - split; [reflexivity|]. vm_compute.
    apply list_elem_of_further, list_elem_of_here.
  - fold r in H1, H2. rewrite H1, H2.
    split; [reflexivity|]. split; [reflexivity|].
    split; vm_compute; reflexivity.
Defined.

(** X22. A retry whose health probe fails leaves page and gateway in
    disagreement: the page shows the demo banner with a reason that is
    none of the gateway's four, while the gateway has left demo mode
    (both flags off, reason empty).  Only the probe was sent; the store
    and the tasks shown are unchanged. *)
Theorem retry_failed_probe (probe : Fetch unit) (ft : Fetch TaskList)
    (fl : Fetch (list string)) (onLine : bool) (p : Page.t) (w : World) :
  probe_ok probe = false ->
  let r := handleRetryConnection probe ft fl onLine p w in
  Page.isDemoMode r.1 = true /\
  Page.demoModeReason r.1 = "Backend server unavailable" /\
  (Page.demoModeReason r.1 ∉ reasons) /\
  isDemoMode r.2 = false /\ isUsingMockData r.2 = false /\ demoModeReason r.2 = "" /\
  requests r.2 = requests w ++ [GET_health] /\
  mockTasks r.2 = mockTasks w /\
  Page.tasks r.1 = Page.tasks p.
Proof.
  intros Hp r. subst r. unfold handleRetryConnection, checkHealth.
  destruct probe as [e|status statusText text json]; cbn [probe_ok] in Hp.
  - cbn. repeat split. unfold reasons. rewrite !not_elem_of_cons.
    repeat split; try discriminate. apply not_elem_of_nil.
  - rewrite Hp. cbn. repeat split. unfold reasons. rewrite !not_elem_of_cons.
    repeat split; try discriminate. apply not_elem_of_nil.
Qed.

Lemma retry_failed_probe_witness :
  let down {A} : Fetch A := Rejects (JsError.mk "TypeError" "Failed to fetch" None) in
  let w := (getTasks None 0 50 down true (initial 0 0)).1 in
  let p := (fetchTasks down true (Page.mk [] [] [] "all" "all" "" true false "" false)
              (initial 0 0)).1 in
  let r := handleRetryConnection down down down true p w in
  isDemoMode w = true /\ Page.isDemoMode r.1 = true /\ isDemoMode r.2 = false.
Proof.
  intros down w p r.
  destruct (retry_failed_probe (down _) (down _) (down _) true p w eq_refl)
    as (H1 & _ & _ & H4 & _).
  split; [reflexivity|]. split; [exact H1 | exact H4].
Defined.

(** X23. A retry whose health probe succeeds never ends with the demo
    banner shown.  The gateway is in demo mode afterwards exactly when
    the reload of the tasks or of the labels failed, and the page then
    displays the connection notice instead.  The store is unchanged. *)
Theorem retry_healthy_probe (probe : Fetch unit) (ft : Fetch TaskList)
    (fl : Fetch (list string)) (onLine : bool) (p : Page.t) (w : World) :
  probe_ok probe = true ->
  let r := handleRetryConnection probe ft fl onLine p w in
  demo_banner r.1 = false /\
  Page.demoModeReason r.1 = "" /\
  isDemoMode r.2 = negb (returns (try_json ft) && returns (try_json fl)) /\
  connection_notice r.1 r.2 = negb (returns (try_json ft) && returns (try_json fl)) /\
  mockTasks r.2 = mockTasks w.
Proof.
  intros Hp r. subst r. unfold handleRetryConnection, checkHealth.
  destruct probe as [e|status statusText text json]; cbn [probe_ok] in Hp; [discriminate|].
  rewrite Hp. cbn [snd fst andb isDemoMode exitDemoMode setDemoMode send].
  unfold demo_banner, connection_notice.
  rewrite fetchLabels_world, fetchTasks_world.
  cbn [Page.isDemoMode Page.demoModeReason set_banner negb andb].
  unfold getLabels, getTasks, getTasks_settled.
  cbn [isDemoMode send].
  destruct (try_json ft) as [dt|et], (try_json fl) as [dl|el];
    rewrite ?handleApiError_eq; cbn; auto.
Qed.

Lemma retry_healthy_probe_witness :
  let down : Fetch TaskList := Rejects (JsError.mk "TypeError" "Failed to fetch" None) in
  let up : Fetch unit := Responds 200 "OK" (Return "") (Return tt) in
  let labels : Fetch (list string) := Responds 200 "OK" (Return "") (Return ["work"]) in
  let p := Page.mk [] [] [] "all" "all" "" false true "Backend server error" false in
  let r := handleRetryConnection up down labels true p (initial 0 0) in
  demo_banner r.1 = false /\ connection_notice r.1 r.2 = true /\ isDemoMode r.2 = true.
Proof.
  intros down up labels p r.
  destruct (retry_healthy_probe up down labels true p (initial 0 0) eq_refl)
    as (H1 & _ & H3 & H4 & _).
  split; [exact H1|]. split; [exact H4 | exact H3].
Defined.

(* ------------------------------------------------------------------ *)
(** ** Field extractor: letter case and the reach of due dates         *)
(* ------------------------------------------------------------------ *)

(** X24. The extractor reads label and due date off the lower-cased
    description only: two descriptions that differ in the case of their
    letters get the same label and, at the same clock reading, the same
    due date. *)
Theorem extractor_ignores_case (LocalTZA : Z -> bool -> Z) (d1 d2 : string) (now : Z) :
  JsString.toLowerCase d1 = JsString.toLowerCase d2 ->
  Partial.label (processTaskDescription LocalTZA d1 now)
  = Partial.label (processTaskDescription LocalTZA d2 now) /\
  Partial.due_date (processTaskDescription LocalTZA d1 now)
  = Partial.due_date (processTaskDescription LocalTZA d2 now).
Proof.
  intros H. rewrite !label_first_bucket, !due_date_code_order.
  unfold Spec.category, Spec.buckets, Spec.first_bucket, existsb, Spec.due_date,
    Spec.code_order, Spec.first_rule, Spec.matches.
  rewrite H. split; reflexivity.
Qed.

Lemma extractor_ignores_case_witness :
  let a := processTaskDescription (JsDate.fixedZone 0) "BUY MILK TOMORROW" 1000 in
  let b := processTaskDescription (JsDate.fixedZone 0) "buy milk tomorrow" 1000 in
  Partial.label a = Partial.label b /\ Partial.due_date a = Partial.due_date b /\
  Partial.label b = "shopping" /\ Partial.title a <> Partial.title b.
Proof.
  intros a b.
  destruct (extractor_ignores_case (JsDate.fixedZone 0)
              "BUY MILK TOMORROW" "buy milk tomorrow" 1000 eq_refl) as [H1 H2].
  split; [exact H1|]. split; [exact H2|].
  split; [vm_compute; reflexivity | vm_compute; discriminate].
Defined.

(** X25. Whatever the description, in a zone of constant offset a due
    date the extractor sets lies a whole number of days after the clock
    reading, at least one and at most 31: never in the past, never the
    same day, and at the same time of day. *)
Theorem due_date_within_a_month (off : Z) (description : string) (now due : Z) :
  Partial.due_date (processTaskDescription (JsDate.fixedZone off) description now)
  = Some due ->
  exists k, 1 <= k <= 31 /\ due = now + k * JsDate.msPerDay.
Proof.
  rewrite due_date_code_order. unfold Spec.due_date.
  destruct (Spec.first_rule Spec.code_order description) as [r|]; [|discriminate].
  cbn [fmap option_fmap option_map]. intros [= <-].
  destruct r; cbn [Spec.resolve]; rewrite ?setMonth_next, days_later_fixedZone.
  - exists 1. lia.
  - exists 7. lia.
  - eexists. split; [|reflexivity]. pose proof (DaysInMonth_range
      (JsDate.InLeapYear (JsDate.LocalTime (JsDate.fixedZone off) now))
      (JsDate.MonthFromTime (JsDate.LocalTime (JsDate.fixedZone off) now))). lia.
  - eexists. split; [|reflexivity].
    pose proof (days_until_range 5 (JsDate.LocalTime (JsDate.fixedZone off) now)). lia.
  - eexists. split; [|reflexivity].
    pose proof (days_until_range 1 (JsDate.LocalTime (JsDate.fixedZone off) now)). lia.
Qed.

Lemma due_date_within_a_month_witness :
  exists k, 1 <= k <= 31 /\
    1706695200000 + 31 * JsDate.msPerDay = 1706695200000 + k * JsDate.msPerDay.
Proof.
  apply (due_date_within_a_month 0 "Pay the rent next month" 1706695200000).
  vm_compute. reflexivity.
Defined.
